(** * TCGP Team Rocket Tool: ledger, write batcher, recognizer and ingestion engine

    Shallow embedding of the parts of the tool that decide the properties
    stated about it:

    - [src/core/database.py]        schema, [set_inventory_quantity]
    - [src/core/ui_main_window.py]  [process_db_write_queue]
    - [src/core/detect_layout.py]   layout detection
    - [src/core/card_recognizer.py] [_find_best_match], [recognize_from_image]
    - [src/Alpha_v1.48/trash/image_processing.py] [hamming_distance]
    - [src/core/discord_client.py]  the ingestion engine

    SQLite tables are lists of rows, in insertion order; the uniqueness
    constraints of the schema are not built into the types, they are
    invariants proved of the operations.  Python exceptions are explicit
    results ([option], sum types); what the outside world decides (a
    statement that raises, an attachment that cannot be read, a recognition
    that times out) is an explicit oracle. *)

From stdpp Require Import base option list sorting gmap strings.
From Stdlib Require Import ZArith QArith Qround DecimalString DecimalZ DecimalPos Lia Lqa.

Open Scope Z_scope.

(** ** Python values *)

Module Py.

(** Truth value of an [Optional[int]]: [None] and [0] are falsy. *)
Definition truthy (v : option Z) : bool :=
  match v with
  | Some z => negb (z =? 0)
  | None => false
  end.

(** Truth value of an [Optional[bytes]]: [None] and the empty sequence are
    falsy. *)
Definition truthy_seq {A} (v : option (list A)) : bool :=
  match v with
  | Some (_ :: _) => true
  | _ => false
  end.

End Py.

(** ** The ledger store ([DatabaseManager.TABLES_SCHEMA]) *)

Module Db.

(** [account_inventory]: [account_id INTEGER NOT NULL],
    [card_id INTEGER NOT NULL], [quantity INTEGER DEFAULT 1],
    [UNIQUE (account_id, card_id)].  The surrogate [id] and the
    [acquisition_date] default are not read by any modelled statement. *)
Record InventoryRow := mkInventoryRow {
  inv_account_id : Z;
  inv_card_id : Z;
  inv_quantity : Z
}.

(** [found_cards]: [id INTEGER PRIMARY KEY AUTOINCREMENT],
    [card_id INTEGER NOT NULL], [account_id INTEGER], [message_id TEXT],
    [confidence_score REAL DEFAULT 1.0], [source_image_path TEXT].
    The table declares no other key: nothing is unique over
    (card_id, account_id, message_id). *)
Record FoundRow := mkFoundRow {
  fc_id : Z;
  fc_card_id : Z;
  fc_account_id : option Z;
  fc_message_id : option string;
  fc_confidence_score : Q;
  fc_source_image_path : option string
}.

(** [accounts]: [account_id INTEGER PRIMARY KEY AUTOINCREMENT],
    [account_name TEXT UNIQUE NOT NULL], [device_account TEXT],
    [device_password TEXT]. *)
Record AccountRow := mkAccountRow {
  acc_account_id : Z;
  acc_account_name : string;
  acc_device_account : option string;
  acc_device_password : option string
}.

(** One recognised card, as [recognize_from_image] builds it (the fields
    the engine and the batcher read). *)
Record RecResult := mkRecResult {
  res_position : nat;
  res_card_id : option Z;
  res_card_name : option string;
  res_card_number : option string;
  res_set_code : option string;
  res_rarity : option string;
  res_similarity : Q;
  res_layout : Z
}.

(** [trades]: [message_id TEXT PRIMARY KEY], [account_id INTEGER],
    [account_name TEXT], [xml_path TEXT], [image_url TEXT],
    [screenshot_thumbnail_blob BLOB], [message_link TEXT],
    [cards_found_text TEXT], [scan_status INTEGER DEFAULT 0],
    [scan_results_json TEXT].  The JSON text is kept as the list it
    serialises; [Some []] is the text "[]", [None] is NULL. *)
Record TradeRow := mkTradeRow {
  tr_message_id : string;
  tr_account_id : option Z;
  tr_account_name : string;
  tr_xml_path : option string;
  tr_image_url : option string;
  tr_screenshot_thumbnail_blob : option (list Byte.byte);
  tr_message_link : string;
  tr_cards_found_text : string;
  tr_scan_status : Z;
  tr_scan_results_json : option (list RecResult)
}.

Record Ledger := mkLedger {
  trades : list TradeRow;
  accounts : list AccountRow;
  accounts_seq : Z;
  found_cards : list FoundRow;
  found_cards_seq : Z;
  account_inventory : list InventoryRow
}.

Definition empty : Ledger := mkLedger [] [] 0 [] 0 [].

Definition with_trades (t : list TradeRow) (db : Ledger) : Ledger :=
  mkLedger t (accounts db) (accounts_seq db) (found_cards db)
           (found_cards_seq db) (account_inventory db).

Definition with_account_inventory (i : list InventoryRow) (db : Ledger) : Ledger :=
  mkLedger (trades db) (accounts db) (accounts_seq db) (found_cards db)
           (found_cards_seq db) i.

(** *** account_inventory statements *)

Definition inv_key (r : InventoryRow) : Z * Z := (inv_account_id r, inv_card_id r).

Definition inv_has_key (a c : Z) (r : InventoryRow) : bool :=
  (inv_account_id r =? a) && (inv_card_id r =? c).

(** [SELECT quantity FROM account_inventory WHERE account_id = a AND card_id = c],
    every matching row. *)
Definition inv_select (a c : Z) (inv : list InventoryRow) : list Z :=
  map inv_quantity (List.filter (inv_has_key a c) inv).

(** [INSERT INTO account_inventory (account_id, card_id, quantity)
     VALUES (?, ?, v) ON CONFLICT(account_id, card_id) DO UPDATE SET quantity = f(quantity)]:
    the row in conflict is updated in place, a row that conflicts with
    nothing is appended. *)
Definition inv_upsert (a c v : Z) (on_conflict : Z -> Z)
           (inv : list InventoryRow) : list InventoryRow :=
  if existsb (inv_has_key a c) inv
  then map (fun r => if inv_has_key a c r
                     then mkInventoryRow a c (on_conflict (inv_quantity r))
                     else r) inv
  else inv ++ [mkInventoryRow a c v].

(** [DELETE FROM account_inventory WHERE account_id = ? AND card_id = ?] *)
Definition inv_delete (a c : Z) (inv : list InventoryRow) : list InventoryRow :=
  List.filter (fun r => negb (inv_has_key a c r)) inv.

(** The [UNIQUE (account_id, card_id)] constraint. *)
Definition inv_unique (inv : list InventoryRow) : Prop :=
  NoDup (map inv_key inv).

(** *** found_cards statements *)

(** [INSERT OR IGNORE INTO found_cards (card_id, account_id, message_id,
     confidence_score, source_image_path) VALUES (?, ?, ?, ?, ?)].
    The statement gives no [id]: the AUTOINCREMENT key takes the next
    sequence value, which no row holds, so the primary key cannot
    conflict.  The one constraint a parameter can violate is
    [card_id NOT NULL]; under OR IGNORE the row is then skipped. *)
Definition found_cards_insert_or_ignore
           (card : option Z) (account : option Z) (message : option string)
           (confidence : Q) (path : option string) (db : Ledger) : Ledger :=
  match card with
  | None => db
  | Some c =>
      let i := found_cards_seq db + 1 in
      mkLedger (trades db) (accounts db) (accounts_seq db)
               (found_cards db ++ [mkFoundRow i c account message confidence path])
               i (account_inventory db)
  end.

(** *** trades statements *)

Definition tr_has_id (mid : string) (r : TradeRow) : bool :=
  String.eqb (tr_message_id r) mid.

(** [SELECT 1 FROM trades WHERE message_id = ?] followed by [fetchone()]. *)
Definition trades_exists (mid : string) (db : Ledger) : bool :=
  existsb (tr_has_id mid) (trades db).

(** [INSERT OR IGNORE INTO trades (...) VALUES (...)]: a row whose
    primary key is already present is skipped. *)
Definition trades_insert_or_ignore (r : TradeRow) (db : Ledger) : Ledger :=
  if trades_exists (tr_message_id r) db then db
  else with_trades (trades db ++ [r]) db.

(** [UPDATE trades SET scan_status = ?, scan_results_json = ? WHERE message_id = ?] *)
Definition trades_update_scan (status : Z) (results : list RecResult)
           (mid : string) (db : Ledger) : Ledger :=
  with_trades
    (map (fun r => if tr_has_id mid r
                   then mkTradeRow (tr_message_id r) (tr_account_id r)
                          (tr_account_name r) (tr_xml_path r) (tr_image_url r)
                          (tr_screenshot_thumbnail_blob r) (tr_message_link r)
                          (tr_cards_found_text r) status (Some results)
                   else r) (trades db)) db.

(** [SELECT * FROM trades WHERE scan_status = 0 OR scan_status = 2] *)
Definition trades_to_reprocess (db : Ledger) : list TradeRow :=
  List.filter (fun r => (tr_scan_status r =? 0) || (tr_scan_status r =? 2)) (trades db).

(** The [message_id TEXT PRIMARY KEY] constraint. *)
Definition trades_unique (db : Ledger) : Prop :=
  NoDup (map tr_message_id (trades db)).

(** *** accounts statements *)

(** [SELECT account_id FROM accounts WHERE account_name = ?], [fetchone()]. *)
Definition accounts_lookup (name : string) (db : Ledger) : option Z :=
  match List.filter (fun r => String.eqb (acc_account_name r) name) (accounts db) with
  | r :: _ => Some (acc_account_id r)
  | [] => None
  end.

(** [INSERT OR IGNORE INTO accounts (account_name) VALUES (?)] *)
Definition accounts_insert_or_ignore (name : string) (db : Ledger) : Ledger :=
  match accounts_lookup name db with
  | Some _ => db
  | None =>
      let i := accounts_seq db + 1 in
      mkLedger (trades db) (accounts db ++ [mkAccountRow i name None None]) i
               (found_cards db) (found_cards_seq db) (account_inventory db)
  end.

(** [UPDATE accounts SET device_account = ?, device_password = ?, ...
     WHERE account_name = ?] *)
Definition accounts_update_credentials (name d_acc d_pass : string)
           (db : Ledger) : Ledger :=
  mkLedger (trades db)
           (map (fun r => if String.eqb (acc_account_name r) name
                          then mkAccountRow (acc_account_id r) name (Some d_acc) (Some d_pass)
                          else r) (accounts db))
           (accounts_seq db) (found_cards db) (found_cards_seq db)
           (account_inventory db).

End Db.

(** ** Manual inventory edits ([DatabaseManager.set_inventory_quantity]) *)

Module DatabaseManager.
Import Db.

(** [raises] is the oracle for the [try] block: [true] when the statement
    or the commit raises, in which case the handler rolls back and the
    method returns [False]. *)
Definition set_inventory_quantity (raises : bool)
           (account_id card_id : option Z) (new_quantity : Z)
           (db : Ledger) : Ledger * bool :=
  match account_id, card_id with
  | Some a, Some c =>
      if raises then (db, false)
      else if new_quantity <=? 0
      then (with_account_inventory (inv_delete a c (account_inventory db)) db, true)
      else (with_account_inventory
              (inv_upsert a c new_quantity (fun _ => new_quantity)
                          (account_inventory db)) db, true)
  | _, _ => (db, false)
  end.

End DatabaseManager.

(** ** The write batcher ([MainWindow.process_db_write_queue]) *)

Module MainWindow.
Import Db.

(** A queued tuple [(card_id, account_id, message_id, confidence, path)]. *)
Record Event := mkEvent {
  ev_card_id : option Z;
  ev_account_id : option Z;
  ev_message_id : option string;
  ev_confidence : Q;
  ev_path : option string
}.

Record State := mkState {
  db : Ledger;
  db_write_queue : list Event
}.

(** A transaction in progress: the number of calls made on the
    connection so far and the uncommitted contents.  [raises n] tells
    whether call number [n] raises. *)
Definition Tx : Type := nat * Ledger.

Definition execute (raises : nat -> bool) (stmt : Ledger -> Ledger) (s : Tx) : option Tx :=
  if raises s.1 then None else Some (S s.1, stmt s.2).

Definition sql_found_log (e : Event) : Ledger -> Ledger :=
  found_cards_insert_or_ignore (ev_card_id e) (ev_account_id e)
    (ev_message_id e) (ev_confidence e) (ev_path e).

Definition sql_inventory_upsert (account_id card_id : Z) (d : Ledger) : Ledger :=
  with_account_inventory
    (inv_upsert account_id card_id 1 (fun q => q + 1) (account_inventory d)) d.

(** [if account_id and card_id]: the parameters of the upsert, when both
    ids are truthy. *)
Definition upsert_params (e : Event) : option (Z * Z) :=
  if Py.truthy (ev_account_id e) && Py.truthy (ev_card_id e)
  then a ← ev_account_id e; c ← ev_card_id e; Some (a, c)
  else None.

(** The body of [for item_tuple in cards_to_process]. *)
Definition process_item (raises : nat -> bool) (e : Event) (s : Tx) : option Tx :=
  s1 ← execute raises (sql_found_log e) s;
  match upsert_params e with
  | Some (a, c) => execute raises (sql_inventory_upsert a c) s1
  | None => Some s1
  end.

Fixpoint process_items (raises : nat -> bool) (items : list Event) (s : Tx) : option Tx :=
  match items with
  | [] => Some s
  | e :: rest => s1 ← process_item raises e s; process_items raises rest s1
  end.

(** [with sqlite3.connect(...) as conn: ...; conn.commit()]: call 0 is the
    connect, the last call is the commit.  [None] is an exception leaving
    the block: the context manager rolls the connection back, nothing of
    the uncommitted contents reaches the store. *)
Definition transaction (raises : nat -> bool) (items : list Event) (d : Ledger) : option Ledger :=
  s0 ← execute raises id (0%nat, d);
  s1 ← process_items raises items s0;
  s2 ← execute raises id s1;
  Some s2.2.

Definition process_db_write_queue (raises : nat -> bool) (st : State) : State :=
  match db_write_queue st with
  | [] => st
  | cards_to_process =>
      match transaction raises cards_to_process (db st) with
      | Some d => mkState d []
      | None => mkState (db st) ([] ++ cards_to_process)
      end
  end.

(** The effect of one event on the store when no call raises. *)
Definition apply_event (e : Event) (d : Ledger) : Ledger :=
  let d1 := sql_found_log e d in
  match upsert_params e with
  | Some (a, c) => sql_inventory_upsert a c d1
  | None => d1
  end.

Definition apply_events (items : list Event) (d : Ledger) : Ledger :=
  fold_left (fun d' e => apply_event e d') items d.

Definition never : nat -> bool := fun _ => false.

(** [targets a c e]: the flush runs the inventory upsert of [e] on the
    key [(a, c)]. *)
Definition targets (a c : Z) (e : Event) : bool :=
  bool_decide (upsert_params e = Some (a, c)).

(** The quantity stored for a key, 0 when it has no row. *)
Definition quantity_of (a c : Z) (inv : list InventoryRow) : Z :=
  match inv_select a c inv with
  | [] => 0
  | q :: _ => q
  end.

(** The (card, account, message) tuple of a row of the log, and of the
    row an event is logged as; an event with a NULL card id logs no row. *)
Definition found_key (r : FoundRow) : Z * option Z * option string :=
  (fc_card_id r, fc_account_id r, fc_message_id r).

Definition event_key (e : Event) : option (Z * option Z * option string) :=
  c ← ev_card_id e; Some (c, ev_account_id e, ev_message_id e).

End MainWindow.

(** ** Layout detection ([detect_layout.py]) *)

Module DetectLayout.

(** An OpenCV image: rows of (B, G, R) pixels. *)
Definition Pixel : Type := Z * Z * Z.
Definition CvImage : Type := list (list Pixel).

Definition TARGET_GRAY_BGR : list Z := [242; 232; 222].
Definition COLOR_TOLERANCE : Z := 3.
Definition TOP_ROW_CHECK_BOX : nat * nat * nat * nat := (119, 27, 123, 40)%nat.
Definition BOTTOM_ROW_CHECK_BOX : nat * nat * nat * nat := (119, 134, 123, 147)%nat.

(** [l[i:j]] for non-negative bounds; out-of-range bounds are clipped. *)
Definition slice {A} (i j : nat) (l : list A) : list A := take (j - i) (drop i l).

(** [img[y1:y2, x1:x2]], flattened to its pixels. *)
Definition roi (img : CvImage) (x1 y1 x2 y2 : nat) : list Pixel :=
  concat (map (slice x1 x2) (slice y1 y2 img)).

Definition channels (p : Pixel) : list Z := [p.1.1; p.1.2; p.2].

(** [np.mean(roi, axis=(0, 1))]: one mean per channel; [None] is the NaN
    numpy returns for an empty region.  The sums are integers below
    2^53 and the bounds they are compared with are integers, so the
    comparisons made on the float quotient are those of the exact one. *)
Definition mean_channel (k : nat) (region : list Pixel) : option Q :=
  match region with
  | [] => None
  | _ => Some (Qred (foldr Z.add 0 (map (fun p => nth k (channels p) 0) region)
                     # Pos.of_nat (length region)))
  end.

Definition mean (region : list Pixel) : list (option Q) :=
  [mean_channel 0 region; mean_channel 1 region; mean_channel 2 region].

(** [all(target - tolerance <= avg <= target + tolerance for avg, target in zip(...))];
    a comparison with NaN is false. *)
Definition is_color_in_range (avg_color : list (option Q)) (target_color : list Z)
           (tolerance : Z) : bool :=
  forallb (fun at_ : option Q * Z =>
             match at_.1 with
             | Some avg => Qle_bool (inject_Z (at_.2 - tolerance)) avg
                           && Qle_bool avg (inject_Z (at_.2 + tolerance))
             | None => false
             end)
          (zip avg_color target_color).

Definition cards_in_row (img : CvImage) (box : nat * nat * nat * nat) : Z :=
  let '(x1, y1, x2, y2) := box in
  let avg_color := mean (roi img x1 y1 x2 y2) in
  if is_color_in_range avg_color TARGET_GRAY_BGR COLOR_TOLERANCE then 2 else 3.

Definition _get_layout_logic (img : CvImage) : Z :=
  let cards_in_top_row := cards_in_row img TOP_ROW_CHECK_BOX in
  let cards_in_bottom_row := cards_in_row img BOTTOM_ROW_CHECK_BOX in
  cards_in_top_row + cards_in_bottom_row.

End DetectLayout.

(** ** The imaging libraries

    PIL, OpenCV and the DCT hash are outside the repository (and
    [core/color_hash.py] is not among its sources): they are an interface.
    Each operation that can raise returns [None] when it does. *)

Class Imaging := {
  Image : Type;
  (** [cv2.cvtColor(np.array(pil_image), cv2.COLOR_RGB2BGR)] *)
  cvtColor_RGB2BGR : Image -> option DetectLayout.CvImage;
  (** [source_img.crop(crop_box)] *)
  crop : Image -> Z * Z * Z * Z -> option Image;
  (** [calculate_color_hash(card_img)]: it catches its own exceptions and
      returns [None] for them. *)
  calculate_color_hash : Image -> option string;
  (** [Image.open(io.BytesIO(image_bytes))] *)
  image_open : list Byte.byte -> option Image
}.

(** ** Fingerprint matching *)

Module Matcher.

(** [hamming_distance] of [trash/image_processing.py]. *)
Definition hamming_distance (hash1 hash2 : string) : nat :=
  if negb (String.length hash1 =? String.length hash2)%nat
  then String.length hash1
  else length (List.filter (fun cc : Ascii.ascii * Ascii.ascii => negb (Ascii.eqb cc.1 cc.2))
                           (zip (String.list_ascii_of_string hash1) (String.list_ascii_of_string hash2))).

(** A row of [SELECT id, card_name, card_number, set_code, local_image_path,
    color_hash FROM cards WHERE color_hash IS NOT NULL]. *)
Record Template := mkTemplate {
  t_card_id : Z;
  t_card_name : string;
  t_card_number : string;
  t_set_code : string;
  t_local_image_path : option string;
  t_hash : string
}.

(** [_load_templates]: rows with an empty hash are dropped; an empty
    result raises [ValueError] ([None]). *)
Definition _load_templates (rows : list Template) : option (list Template) :=
  match List.filter (fun t => negb (String.eqb (t_hash t) "")) rows with
  | [] => None
  | ts => Some ts
  end.

(** [round(x, 2)], on the exact value: nearest multiple of 1/100, ties to
    the even one. *)
Definition round2 (x : Q) : Q :=
  let y := (x * 100)%Q in
  let f := Qfloor y in
  let r := (y - inject_Z f)%Q in
  let n := if Qle_bool r (1 # 2)
           then if Qle_bool (1 # 2) r then (if Z.even f then f else f + 1) else f
           else f + 1 in
  Qred (n # 100).

Definition Qlt_bool (x y : Q) : bool := negb (Qle_bool y x).

(** [100.0 - (distance / max_distance) * 100.0]; [None] is the
    ZeroDivisionError of an empty template hash. *)
Definition similarity_of (source_hash : string) (t : Template) : option Q :=
  let distance := hamming_distance source_hash (t_hash t) in
  let max_distance := String.length (t_hash t) in
  match max_distance with
  | O => None
  | _ => Some (Qred (100 - (inject_Z (Z.of_nat distance) / inject_Z (Z.of_nat max_distance)) * 100))
  end.

(** The state of the scan loop: [best_match] with its rounded
    similarity, and [max_similarity]. *)
Abbreviation Best := (option (Template * Q) * Q)%type.

Definition scan_step (source_hash : string) (acc : option Best) (t : Template) : option Best :=
  match acc, similarity_of source_hash t with
  | Some (best_match, max_similarity), Some similarity =>
      Some (if Qlt_bool max_similarity similarity
            then (Some (t, round2 similarity), similarity)
            else (best_match, max_similarity))
  | _, _ => None
  end.

(** The loop of [_find_best_match], from [best_match = None] and
    [max_similarity = -1.0]; [None] when it raises. *)
Definition scan_templates (templates : list Template) (source_hash : string) : option Best :=
  fold_left (scan_step source_hash) templates (Some (None, (-1)%Q)).

(** The details read back from [cards] and [sets] for the best card. *)
Record CardDetails := mkCardDetails {
  d_card_id : Z;
  d_set_code : string;
  d_card_number : string;
  d_card_name : string;
  d_rarity : option string;
  d_local_image_path : option string
}.

(** The outcome of the details query: a row, no row, or [sqlite3.Error]. *)
Inductive DetailsLookup :=
| DetailsRow (d : CardDetails)
| DetailsNoRow
| DetailsError.

(** The dict [_find_best_match] returns. *)
Record Match := mkMatch {
  m_card_id : Z;
  m_card_name : string;
  m_card_number : string;
  m_set_code : string;
  m_rarity : option string;
  m_local_image_path : option string;
  m_hash : string;
  m_similarity : Q
}.

(** [{**template, 'similarity': ...}] then [best_match.update(dict(row))]:
    the row overwrites the card fields and adds the rarity; it has no
    'similarity' key. *)
Definition extend (details : Z -> DetailsLookup) (b : Template * Q) : Match :=
  match details (t_card_id b.1) with
  | DetailsRow d =>
      mkMatch (d_card_id d) (d_card_name d) (d_card_number d) (d_set_code d)
              (d_rarity d) (d_local_image_path d) (t_hash b.1) b.2
  | DetailsNoRow | DetailsError =>
      mkMatch (t_card_id b.1) (t_card_name b.1) (t_card_number b.1) (t_set_code b.1)
              None (t_local_image_path b.1) (t_hash b.1) b.2
  end.

(** [_find_best_match]: [None] when the scan raises, [Some None] for the
    Python [None] (no match), [Some (Some m)] for a match. *)
Definition _find_best_match (templates : list Template) (details : Z -> DetailsLookup)
           (source_hash : string) : option (option Match) :=
  match scan_templates templates source_hash with
  | Some (best_match, _) => Some (option_map (extend details) best_match)
  | None => None
  end.

End Matcher.

(** ** The recognizer ([card_recognizer.py]) *)

Module CardRecognizer.
Import Db Matcher.

Definition LAYOUT_CROP_BOXES (layout : Z) : option (list (Z * Z * Z * Z)) :=
  if layout =? 4 then
    Some [(46, 16, 108, 53); (132, 17, 194, 54); (46, 131, 108, 168); (131, 133, 193, 170)]
  else if layout =? 5 then
    Some [(5, 16, 69, 54); (87, 16, 151, 54); (170, 16, 234, 54);
          (46, 133, 108, 170); (130, 132, 193, 170)]
  else if layout =? 6 then
    Some [(5, 16, 69, 54); (87, 16, 151, 54); (170, 16, 234, 54);
          (5, 133, 69, 171); (87, 133, 151, 171); (170, 133, 234, 171)]
  else None.

Record Recognizer := mkRecognizer {
  template_hashes : list Template;
  similarity_threshold : Q;
  card_details : Z -> DetailsLookup
}.

(** [CardRecognizer(db_path, similarity_threshold)]: [None] when
    [_load_templates] raises. *)
Definition new (rows : list Template) (details : Z -> DetailsLookup)
           (similarity_threshold : Q) : option Recognizer :=
  ts ← _load_templates rows;
  Some (mkRecognizer ts similarity_threshold details).

(** [x or None] on an integer and on a string. *)
Definition nonzero (z : Z) : option Z := if z =? 0 then None else Some z.
Definition nonempty (s : string) : option string :=
  if String.eqb s "" then None else Some s.

Section WithImaging.
Context `{Imaging}.

(** [get_layout_from_image]: any exception gives [None]. *)
Definition get_layout_from_image (pil_image : Image) : option Z :=
  img ← cvtColor_RGB2BGR pil_image;
  Some (DetectLayout._get_layout_logic img).

(** The match accepted for one crop box, if any: the [try] body up to
    the append.  [None] covers the crop that raises, the missing or
    empty hash ([continue]), a raising [_find_best_match], no match,
    and a similarity below the threshold. *)
Definition accepted_match (r : Recognizer) (source_img : Image)
           (crop_box : Z * Z * Z * Z) : option Match :=
  card_img ← crop source_img crop_box;
  card_hash ← calculate_color_hash card_img;
  if String.eqb card_hash "" then None
  else
    best_match ← _find_best_match (template_hashes r) (card_details r) card_hash;
    m ← best_match;
    if Qle_bool (similarity_threshold r) (m_similarity m) then Some m else None.

Definition result_of (layout : Z) (position : nat) (m : Match) : RecResult :=
  mkRecResult position (nonzero (m_card_id m)) (nonempty (m_card_name m))
              (nonempty (m_card_number m)) (Some (m_set_code m)) (m_rarity m)
              (m_similarity m) layout.

(** One iteration of [for position, crop_box in enumerate(crop_boxes, start=1)].
    The result is appended before the optional [_save_to_db] step;
    whatever that step raises is caught by the same [except], so
    [save_to_db] and [account_name] do not change the list. *)
Definition process_position (r : Recognizer) (source_img : Image) (layout : Z)
           (cards_in_image : list RecResult) (pc : nat * (Z * Z * Z * Z)) : list RecResult :=
  match accepted_match r source_img pc.2 with
  | Some m => cards_in_image ++ [result_of layout pc.1 m]
  | None => cards_in_image
  end.

(** What one slot contributes to the returned list. *)
Definition slot_result (r : Recognizer) (source_img : Image) (layout : Z)
           (pc : nat * (Z * Z * Z * Z)) : option RecResult :=
  option_map (result_of layout pc.1) (accepted_match r source_img pc.2).


(** [enumerate(crop_boxes, start=1)] *)
Definition enumerate1 {A} (l : list A) : list (nat * A) := zip (seq 1 (length l)) l.

(** What [recognize_from_image] raises. *)
Inductive RecognizeError :=
| ValueError_layout (detected : option Z).

(** [recognize_from_image(source_img, save_to_db, account_name, image_path_for_db)] *)
Definition recognize_from_image (r : Recognizer) (source_img : Image)
  : RecognizeError + list RecResult :=
  let layout := get_layout_from_image source_img in
  match layout with
  | Some l =>
      match LAYOUT_CROP_BOXES l with
      | Some crop_boxes =>
          inr (fold_left (process_position r source_img l) (enumerate1 crop_boxes) [])
      | None => inl (ValueError_layout layout)
      end
  | None => inl (ValueError_layout layout)
  end.

End WithImaging.

End CardRecognizer.

(** ** The ingestion engine ([discord_client.py]) *)

Module TradeMonitorClient.
Import Db CardRecognizer.

Definition SEARCH_STRING : string := "Tradeable cards".
Definition BATCH_SIZE : nat := 500.

Record Attachment := mkAttachment {
  filename : string;
  url : string;
  (** [await att.read()]; [None] when it raises. *)
  read : option (list Byte.byte)
}.

Record Message := mkMessage {
  id : Z;
  content : string;
  attachments : list Attachment;
  jump_url : string
}.

(** A text channel: [get_channel] gives [None] when it is not found. *)
Record Channel := mkChannel {
  messages : list Message;
  read_message_history : bool;
  (** [Some k]: the history iterator raises after yielding [k] messages. *)
  fetch_fault : option nat
}.

(** [str(message.id)] *)
Definition str (z : Z) : string := DecimalString.NilZero.string_of_int (Z.to_int z).

(** [CAST(message_id AS INTEGER)], on the texts [str] writes; a text that
    is no number casts to 0. *)
Definition cast_integer (s : string) : Z :=
  match DecimalString.NilZero.int_of_string s with
  | Some d => Z.of_int d
  | None => 0
  end.

(** [needle in hay] *)
Fixpoint str_in (needle hay : string) : bool :=
  String.prefix needle hay
  || match hay with
     | EmptyString => false
     | String _ rest => str_in needle rest
     end.

(** [s.endswith(suffix)] *)
Definition endswith (s suffix : string) : bool :=
  let n := String.length s in
  let m := String.length suffix in
  (m <=? n)%nat && String.eqb (String.substring (n - m) m s) suffix.

(** The calls on the engine's connection that sit in a [try] block. *)
Inductive DbCall :=
| CountTrades
| SelectReprocess
| SelectMin
| SelectMax
| DupCheck (message_id : string)
| InsertTrade (message_id : string)
| UpdateScan (message_id : string)
| GetOrCreateAccount (account_name : string).

(** What can go wrong when a recognition is submitted to the executor. *)
Inductive Fault :=
| NoFault
| TimeoutError
| RuntimeError_shutdown
| RuntimeError_other.

(** What the engine does not decide. *)
Class Outside := {
  (** the account name [extract_trade_data_fast] reads off the attachment
      names or the text (regular expressions) *)
  extract_account_name : Message -> string;
  (** the "Found: ..." annotation *)
  extract_cards_found_text : string -> string;
  (** [ET.fromstring] and the lookup of deviceAccount and devicePassword;
      [None] when the parse raises *)
  parse_device_credentials : list Byte.byte -> option (option string * option string);
  _create_screenshot_thumbnail : list Byte.byte -> option (list Byte.byte);
  db_raises : DbCall -> bool;
  (** [executemany] raising after it inserted that many rows *)
  batch_insert_fault : list TradeRow -> option nat;
  recognition_fault : list Byte.byte -> Fault;
  path_exists : string -> bool
}.

Record Client := mkClient {
  db_conn : Ledger;
  initial_scan_done : bool;
  executor_shutdown : bool;
  last_message_id_cache : Z;
  last_cache_update : Z;
  card_recognizer : Recognizer
}.

Definition with_db (d : Ledger) (c : Client) : Client :=
  mkClient d (initial_scan_done c) (executor_shutdown c)
           (last_message_id_cache c) (last_cache_update c) (card_recognizer c).

Definition with_initial_scan_done (c : Client) : Client :=
  mkClient (db_conn c) true (executor_shutdown c)
           (last_message_id_cache c) (last_cache_update c) (card_recognizer c).

(** The message ids of the trades table, in row order, and the primary
    key constraint on them. *)
Definition ids (c : Client) : list string := map tr_message_id (trades (db_conn c)).

Definition unique (c : Client) : Prop := trades_unique (db_conn c).

(** The dict [extract_trade_data_fast] returns, with the two keys its
    callers add. *)
Record TradeData := mkTradeData {
  td_message_id : Z;
  td_account_name : string;
  td_cards_found_text : string;
  td_message_link : string;
  td_xml_path : option string;
  td_image_url : option string
}.

(** The attachment loop of [extract_trade_data_fast]. *)
Definition pick_attachment (acc : option Attachment * option Attachment) (att : Attachment)
  : option Attachment * option Attachment :=
  match acc with
  | (None, image_att) =>
      if endswith (filename att) ".xml" then (Some att, image_att)
      else match image_att with
           | None =>
               if endswith (filename att) ".png" || endswith (filename att) ".jpg"
                  || endswith (filename att) ".jpeg" || endswith (filename att) ".webp"
               then (None, Some att) else acc
           | Some _ => acc
           end
  | (Some xml_att, None) =>
      if endswith (filename att) ".png" || endswith (filename att) ".jpg"
         || endswith (filename att) ".jpeg" || endswith (filename att) ".webp"
      then (Some xml_att, Some att) else acc
  | (Some _, Some _) => acc
  end.

(** A row of [SELECT * FROM trades] as [dict(row)]. *)
Inductive PyVal :=
| PyNone
| PyInt (z : Z)
| PyStr (s : string)
| PyBytes (b : list Byte.byte)
| PyJson (results : list RecResult)
| PyTimestamp.

Definition py_opt {A} (f : A -> PyVal) (v : option A) : PyVal :=
  match v with
  | Some a => f a
  | None => PyNone
  end.

Definition py_truthy (v : PyVal) : bool :=
  match v with
  | PyNone => false
  | PyInt z => negb (z =? 0)
  | PyStr s => negb (String.eqb s "")
  | PyBytes b => match b with [] => false | _ => true end
  | PyJson _ => true
  | PyTimestamp => true
  end.

Definition dict_of_row (r : TradeRow) : gmap string PyVal :=
  <["message_id" := PyStr (tr_message_id r)]>
  (<["account_id" := py_opt PyInt (tr_account_id r)]>
  (<["account_name" := PyStr (tr_account_name r)]>
  (<["xml_path" := py_opt PyStr (tr_xml_path r)]>
  (<["image_url" := py_opt PyStr (tr_image_url r)]>
  (<["screenshot_thumbnail_blob" := py_opt PyBytes (tr_screenshot_thumbnail_blob r)]>
  (<["message_link" := PyStr (tr_message_link r)]>
  (<["cards_found_text" := PyStr (tr_cards_found_text r)]>
  (<["processed_at" := PyTimestamp]>
  (<["scan_status" := PyInt (tr_scan_status r)]>
  (<["scan_results_json" := py_opt PyJson (tr_scan_results_json r)]> ∅)))))))))).

(** [d.get(key)] *)
Definition dict_get (key : string) (d : gmap string PyVal) : PyVal :=
  default PyNone (d !! key).

(** [channel.history(limit=None, before=..., after=..., oldest_first=False)]:
    the messages inside the bounds, newest first. *)
Definition newer_first (m1 m2 : Message) : Prop := id m2 <= id m1.

#[global] Instance newer_first_dec : RelDecision newer_first.
Proof. intros m1 m2. unfold newer_first. apply _. Defined.

Definition history (ch : Channel) (before after : option Z) : list Message :=
  merge_sort newer_first
    (List.filter (fun m => match before with Some b => id m <? b | None => true end
                        && match after with Some a => a <? id m | None => true end)
                 (messages ch)).

(** [SELECT MIN(CAST(message_id AS INTEGER)) FROM trades]; NULL on an
    empty table. *)
Definition select_min_id (d : Ledger) : option Z :=
  match map (fun r => cast_integer (tr_message_id r)) (trades d) with
  | [] => None
  | z :: zs => Some (foldr Z.min z zs)
  end.

Definition select_max_id (d : Ledger) : option Z :=
  match map (fun r => cast_integer (tr_message_id r)) (trades d) with
  | [] => None
  | z :: zs => Some (foldr Z.max z zs)
  end.

Section WithOutside.
Context `{Imaging} `{Outside}.

Definition extract_trade_data_fast (message : Message)
  : TradeData * option Attachment * option Attachment :=
  let atts := fold_left pick_attachment (attachments message) (None, None) in
  (mkTradeData (id message) (extract_account_name message)
               (extract_cards_found_text (content message)) (jump_url message)
               None None,
   atts.1, atts.2).

(** [_get_or_create_account]: an exception anywhere in it is logged and
    gives [None]. *)
Definition _get_or_create_account (account_name : string)
           (credentials : option (string * string)) (d : Ledger) : Ledger * option Z :=
  if String.eqb account_name "" then (d, None)
  else if db_raises (GetOrCreateAccount account_name) then (d, None)
  else
    let d1 := accounts_insert_or_ignore account_name d in
    let d2 := match credentials with
              | Some (device_account, device_password) =>
                  accounts_update_credentials account_name device_account device_password d1
              | None => d1
              end in
    (d2, accounts_lookup account_name d2).

(** How the [try] block of [scan_image_for_cards] ends. *)
Inductive ScanEnd :=
| Recognized (results : list RecResult)
| Caught
| Returned
| Reraised.

Definition run_recognition (c : Client) (image_bytes : list Byte.byte) : ScanEnd :=
  match image_open image_bytes with
  | None => Caught
  | Some source_img =>
      match recognition_fault image_bytes with
      | TimeoutError => Caught
      | RuntimeError_shutdown => Returned
      | RuntimeError_other => Reraised
      | NoFault =>
          match recognize_from_image (card_recognizer c) source_img with
          | inr results => Recognized results
          | inl _ => Caught
          end
      end
  end.

(** The [UPDATE trades] step; when it raises the error is logged. *)
Definition store_scan (scan_status : Z) (results : list RecResult)
           (message_id : string) (c : Client) : Client :=
  if db_raises (UpdateScan message_id) then c
  else with_db (trades_update_scan scan_status results message_id (db_conn c)) c.

(** [scan_image_for_cards(trade_data, image_bytes)], as far as the
    ledger goes (the per-card callbacks to the user interface are not
    modelled). *)
Definition scan_image_for_cards (trade_data : TradeData)
           (image_bytes : list Byte.byte) (c : Client) : Client :=
  if executor_shutdown c || negb (Py.truthy_seq (Some image_bytes)) then c
  else
    let message_id := str (td_message_id trade_data) in
    match run_recognition c image_bytes with
    | Recognized results => store_scan 1 results message_id c
    | Caught => store_scan 2 [] message_id c
    | Returned | Reraised => c
    end.

(** Reading the two attachments; [None] when a read raises. *)
Definition read_attachments (xml_att img_att : option Attachment)
  : option (option (list Byte.byte) * option (list Byte.byte)) :=
  match xml_att with
  | Some a =>
      match read a with
      | None => None
      | Some xml_content_bytes =>
          match img_att with
          | Some i => match read i with
                      | None => None
                      | Some b => Some (Some xml_content_bytes, Some b)
                      end
          | None => Some (Some xml_content_bytes, None)
          end
      end
  | None =>
      match img_att with
      | Some i => match read i with
                  | None => None
                  | Some b => Some (None, Some b)
                  end
      | None => Some (None, None)
      end
  end.

(** The in-memory XML step: when the payload parses and holds both
    credentials they are stored on the account and [xml_path] becomes
    "DB_STORED". *)
Definition sync_credentials (account_name : string)
           (xml_content_bytes : option (list Byte.byte)) (d : Ledger)
  : Ledger * option string :=
  if Py.truthy_seq xml_content_bytes then
    match parse_device_credentials (default [] xml_content_bytes) with
    | Some (Some d_acc, Some d_pass) =>
        if negb (String.eqb d_acc "") && negb (String.eqb d_pass "")
        then ((_get_or_create_account account_name (Some (d_acc, d_pass)) d).1,
              Some "DB_STORED"%string)
        else (d, None)
    | _ => (d, None)
    end
  else (d, None).

Definition trade_row (trade_data : TradeData) (account_id : option Z)
           (screenshot_thumb_blob : option (list Byte.byte)) : TradeRow :=
  mkTradeRow (str (td_message_id trade_data)) account_id (td_account_name trade_data)
             (td_xml_path trade_data) (td_image_url trade_data) screenshot_thumb_blob
             (td_message_link trade_data) (td_cards_found_text trade_data) 0 None.

(** The loop state of [process_message_batch_fast]. *)
Record Batch := mkBatch {
  b_db : Ledger;
  trades_to_insert : list TradeRow;
  tasks_to_run : list (TradeData * list Byte.byte)
}.

Definition batch_message (b : Batch) (message : Message) : Batch :=
  if negb (str_in SEARCH_STRING (content message)) then b
  else if db_raises (DupCheck (str (id message))) then b
  else if trades_exists (str (id message)) (b_db b) then b
  else
    let '(trade_data, xml_att, img_att) := extract_trade_data_fast message in
    let account_name := td_account_name trade_data in
    match read_attachments xml_att img_att with
    | None => b
    | Some (xml_content_bytes, image_content_bytes) =>
        let image_url := if img_att is Some i then Some (url i) else None in
        let '(d1, xml_path) := sync_credentials account_name xml_content_bytes (b_db b) in
        let trade_data :=
          mkTradeData (td_message_id trade_data) account_name
                      (td_cards_found_text trade_data) (td_message_link trade_data)
                      xml_path image_url in
        let screenshot_thumb_blob :=
          if Py.truthy_seq image_content_bytes
          then _create_screenshot_thumbnail (default [] image_content_bytes)
          else None in
        let tasks :=
          if Py.truthy_seq image_content_bytes
          then tasks_to_run b ++ [(trade_data, default [] image_content_bytes)]
          else tasks_to_run b in
        let '(d2, account_id) := _get_or_create_account account_name None d1 in
        mkBatch d2
                (trades_to_insert b ++ [trade_row trade_data account_id screenshot_thumb_blob])
                tasks
    end.

(** [cursor.executemany("INSERT OR IGNORE INTO trades ...")]: every row,
    or the rows inserted before it raised. *)
Definition insert_batch (rows : list TradeRow) (d : Ledger) : Ledger :=
  let inserted := match batch_insert_fault rows with
                  | Some k => take k rows
                  | None => rows
                  end in
  fold_left (fun d' r => trades_insert_or_ignore r d') inserted d.

(** [process_message_batch_fast].  The gathered scans each make one
    UPDATE keyed by their own message id; they are run here in the
    order they were created. *)
Definition process_message_batch_fast (msgs : list Message) (c : Client) : Client * nat :=
  match msgs with
  | [] => (c, 0%nat)
  | _ =>
      let b := fold_left batch_message msgs (mkBatch (db_conn c) [] []) in
      let c1 := with_db (insert_batch (trades_to_insert b) (b_db b)) c in
      let c2 := fold_left (fun c' task => scan_image_for_cards task.1 task.2 c')
                          (tasks_to_run b) c1 in
      (c2, length (trades_to_insert b))
  end.

(** The body of [async for message in history_iter] of the historical
    scan. *)
Definition historical_message (c : Client) (message : Message) : Client :=
  if negb (str_in SEARCH_STRING (content message)) then c
  else
    let '(trade_data, xml_att, img_att) := extract_trade_data_fast message in
    let account_name := td_account_name trade_data in
    match read_attachments xml_att img_att with
    | None => c
    | Some (xml_content_bytes, image_content_bytes) =>
        let image_url := if img_att is Some i then Some (url i) else None in
        let '(d1, xml_path) := sync_credentials account_name xml_content_bytes (db_conn c) in
        let trade_data :=
          mkTradeData (td_message_id trade_data) account_name
                      (td_cards_found_text trade_data) (td_message_link trade_data)
                      xml_path image_url in
        let screenshot_thumb_blob :=
          if Py.truthy_seq image_content_bytes
          then _create_screenshot_thumbnail (default [] image_content_bytes)
          else None in
        let '(d2, account_id) := _get_or_create_account account_name None d1 in
        if db_raises (InsertTrade (str (id message))) then with_db d2 c
        else
          let d3 := trades_insert_or_ignore
                      (trade_row trade_data account_id screenshot_thumb_blob) d2 in
          let c1 := with_db d3 c in
          if Py.truthy_seq image_content_bytes
          then scan_image_for_cards trade_data (default [] image_content_bytes) c1
          else c1
    end.

Definition perform_historical_scan_streaming (channel : option Channel) (c : Client) : Client :=
  match channel with
  | None => with_initial_scan_done c
  | Some ch =>
      if negb (read_message_history ch) then with_initial_scan_done c
      else
        let oldest_message_id :=
          if db_raises SelectMin then None
          else match select_min_id (db_conn c) with
               | Some z => if z =? 0 then None else Some z
               | None => None
               end in
        let history_iter := history ch oldest_message_id None in
        let yielded := match fetch_fault ch with
                       | Some k => take k history_iter
                       | None => history_iter
                       end in
        fold_left historical_message yielded c
  end.

(** The batching loop of the incremental scan: the state is the batch
    being filled and the client. *)
Definition incremental_step (s : list Message * Client) (message : Message)
  : list Message * Client :=
  let batch := s.1 ++ [message] in
  if (BATCH_SIZE <=? length batch)%nat
  then ([], (process_message_batch_fast batch s.2).1)
  else (batch, s.2).

Definition perform_incremental_scan_fast (channel : option Channel) (now : Z)
           (c : Client) : Client :=
  match channel with
  | None => with_initial_scan_done c
  | Some ch =>
      let c1 :=
        if (last_cache_update c =? 0) || (60 <? now - last_cache_update c)
        then if db_raises SelectMax then c
             else
               let cache := match select_max_id (db_conn c) with
                            | Some z => if z =? 0 then last_message_id_cache c else z
                            | None => last_message_id_cache c
                            end in
               mkClient (db_conn c) (initial_scan_done c) (executor_shutdown c)
                        cache now (card_recognizer c)
        else c in
      let max_msg_id := last_message_id_cache c1 in
      if 0 <? max_msg_id then
        match fetch_fault ch with
        | Some _ => c1
        | None =>
            let new_messages := history ch None (Some max_msg_id) in
            let s := fold_left incremental_step new_messages ([], c1) in
            match s.1 with
            | [] => s.2
            | batch => (process_message_batch_fast batch s.2).1
            end
        end
      else c1
  end.

(** [recover_missing_cards(trade_list)]: the client, [processed_count]
    and [error_count].  The rows carry the columns of [trades], which
    has no [image_path]; and the call [self.scan_image_for_cards(trade_data)]
    gives one argument to a method that requires two, a [TypeError]
    that the loop's [except] counts as an error. *)
Definition recover_one (s : Client * nat * nat) (trade_data : gmap string PyVal)
  : Client * nat * nat :=
  let '(c, processed_count, error_count) := s in
  let image_path := dict_get "image_path" trade_data in
  if negb (py_truthy image_path)
     || negb (match image_path with PyStr p => path_exists p | _ => false end)
  then (c, processed_count, S error_count)
  else (c, processed_count, S error_count).

Definition recover_missing_cards (trade_list : list (gmap string PyVal)) (c : Client)
  : Client * nat * nat :=
  fold_left recover_one trade_list (c, 0%nat, 0%nat).

(** [on_ready] *)
Definition on_ready (channel : option Channel) (now : Z) (c : Client) : Client :=
  with_initial_scan_done
    (if db_raises CountTrades then c
     else
       match trades (db_conn c) with
       | [] => perform_historical_scan_streaming channel c
       | _ =>
           let c1 :=
             if db_raises SelectReprocess then c
             else (recover_missing_cards
                     (map dict_of_row (trades_to_reprocess (db_conn c))) c).1.1 in
           let c2 := perform_incremental_scan_fast channel now c1 in
           perform_historical_scan_streaming channel c2
       end).

(** [on_message] *)
Definition on_message (message : Message) (c : Client) : Client :=
  if negb (initial_scan_done c) then c
  else if str_in SEARCH_STRING (content message)
       then (process_message_batch_fast [message] c).1
       else c.

(** A run of the engine: start-up, then the live messages in arrival
    order. *)
Definition run_session (channel : option Channel) (now : Z) (live : list Message)
           (c : Client) : Client :=
  fold_left (fun c' m => on_message m c') live (on_ready channel now c).

End WithOutside.

End TradeMonitorClient.

(** ** Concrete states used by the examples below *)

Module Samples.
Import Db MainWindow.

(** Account 3 holds five copies of card 7 and one of card 8. *)
Definition ledger1 : Ledger :=
  mkLedger [] [mkAccountRow 3 "acc" None None] 3 [] 0
           [mkInventoryRow 3 7 5; mkInventoryRow 3 8 1].

(** Card 7 detected for account 3 in message 1001. *)
Definition event1 : Event :=
  mkEvent (Some 7) (Some 3) (Some "1001") (9 # 10) (Some "http://img/1").

(** Card 9 detected for account 3 in message 1002. *)
Definition event2 : Event :=
  mkEvent (Some 9) (Some 3) (Some "1002") (8 # 10) None.

(** A tuple whose card id is [None]. *)
Definition event_no_card : Event :=
  mkEvent None (Some 3) (Some "1003") (8 # 10) None.

(** A tuple whose account id is [None]. *)
Definition event_no_account : Event :=
  mkEvent (Some 7) None (Some "1004") (8 # 10) None.

(** The oracle under which call number 3 on the connection raises: with
    [event1; event2] queued that is the log insert of [event2], after
    both statements of [event1] have run. *)
Definition raises_at_3 : nat -> bool := fun n => (n =? 3)%nat.

(** *** A stand-in for the imaging libraries

    A screenshot is given by its pixels (absent when the conversion to an
    OpenCV array raises) and by what each crop box holds: a crop that
    raises, or a card crop with the fingerprint the hash returns for it. *)

Inductive SlotContent :=
| CropRaises
| Fingerprint (h : option string).

Inductive TestImage :=
| Screenshot (pixels : option DetectLayout.CvImage)
             (slots : list (Z * Z * Z * Z * SlotContent))
| CardCrop (h : option string).

Definition test_crop (img : TestImage) (crop_box : Z * Z * Z * Z) : option TestImage :=
  match img with
  | Screenshot _ slots =>
      match List.find (fun s : Z * Z * Z * Z * SlotContent => bool_decide (s.1 = crop_box)) slots with
      | Some (_, Fingerprint h) => Some (CardCrop h)
      | _ => None
      end
  | CardCrop _ => None
  end.

(** A 240 x 180 screenshot of one colour. *)
Definition plain (p : DetectLayout.Pixel) : DetectLayout.CvImage :=
  repeat (repeat p 240) 180.

Definition six_boxes : list (Z * Z * Z * Z) :=
  default [] (CardRecognizer.LAYOUT_CROP_BOXES 6).

(** Scenario A: a black screenshot (both indicator boxes are card
    coloured, six slots) whose crops are at distance 0, 1, 8, 2, 6 and 0
    from the one template of eight bits. *)
Definition screenshot_a : TestImage :=
  Screenshot (Some (plain (0, 0, 0)))
    (zip six_boxes
         [Fingerprint (Some "00000000"); Fingerprint (Some "00000001");
          Fingerprint (Some "11111111"); Fingerprint (Some "00000011");
          Fingerprint (Some "00111111"); Fingerprint (Some "00000000")]).

(** The same screenshot with a crop that raises in slot 2 and a hash that
    fails in slot 5. *)
Definition screenshot_b : TestImage :=
  Screenshot (Some (plain (0, 0, 0)))
    (zip six_boxes
         [Fingerprint (Some "00000000"); CropRaises;
          Fingerprint (Some "11111111"); Fingerprint (Some "00000011");
          Fingerprint None; Fingerprint (Some "00000000")]).

(** A screenshot that cannot be converted to an OpenCV array. *)
Definition screenshot_undecodable : TestImage := Screenshot None [].

Definition bytes_a : list Byte.byte := [Byte.x01].
Definition bytes_undecodable : list Byte.byte := [Byte.x02].

Definition test_image_open (b : list Byte.byte) : option TestImage :=
  match b with
  | [Byte.x01] => Some screenshot_a
  | [Byte.x02] => Some screenshot_undecodable
  | _ => None
  end.

Definition test_imaging : Imaging := {|
  Image := TestImage;
  cvtColor_RGB2BGR img := match img with Screenshot pixels _ => pixels | CardCrop _ => None end;
  crop := test_crop;
  calculate_color_hash img := match img with CardCrop h => h | Screenshot _ _ => None end;
  image_open := test_image_open
|}.

Definition template1 : Matcher.Template :=
  Matcher.mkTemplate 7 "Pikachu" "001" "A1" None "00000000".

Definition no_details : Z -> Matcher.DetailsLookup := fun _ => Matcher.DetailsNoRow.

(** The recognizer the engine builds: threshold 75. *)
Definition recognizer1 : CardRecognizer.Recognizer :=
  CardRecognizer.mkRecognizer [template1] 75 no_details.

(** *** A quiet outside world

    No call on the database raises, nothing times out, credentials do not
    parse and no thumbnail is produced. *)
Definition quiet : TradeMonitorClient.Outside := {|
  TradeMonitorClient.extract_account_name := fun _ => "acc"%string;
  TradeMonitorClient.extract_cards_found_text := fun _ => ""%string;
  TradeMonitorClient.parse_device_credentials := fun _ => None;
  TradeMonitorClient._create_screenshot_thumbnail := fun _ => None;
  TradeMonitorClient.db_raises := fun _ => false;
  TradeMonitorClient.batch_insert_fault := fun _ => None;
  TradeMonitorClient.recognition_fault := fun _ => TradeMonitorClient.NoFault;
  TradeMonitorClient.path_exists := fun _ => true
|}.

Definition client_of (d : Db.Ledger) : TradeMonitorClient.Client :=
  TradeMonitorClient.mkClient d false false 0 0 recognizer1.

(** A trade message with the screenshot of scenario A attached. *)
Definition message (i : Z) : TradeMonitorClient.Message :=
  TradeMonitorClient.mkMessage i "Tradeable cards found"
    [TradeMonitorClient.mkAttachment "shot.png" "http://img/shot.png" (Some bytes_a)]
    "http://discord/jump".

(** A message without the marker. *)
Definition chatter (i : Z) : TradeMonitorClient.Message :=
  TradeMonitorClient.mkMessage i "hello" [] "http://discord/jump".

Definition channel1 : TradeMonitorClient.Channel :=
  TradeMonitorClient.mkChannel [message 1001; chatter 1002; message 1003; message 1001] true None.

(** A ledger left by an earlier run: message 1000 is Failed (status 2),
    message 999 Pending (status 0). *)
Definition ledger_interrupted : Db.Ledger :=
  Db.mkLedger
    [Db.mkTradeRow "1000" (Some 1) "acc" None (Some "http://img/shot.png") None
                   "http://discord/jump" "" 2 (Some []);
     Db.mkTradeRow "999" (Some 1) "acc" None (Some "http://img/shot.png") None
                   "http://discord/jump" "" 0 None]
    [Db.mkAccountRow 1 "acc" None None] 1 [] 0 [].

(** The channel still holds both messages, each with a screenshot that is
    recognised when scanned. *)
Definition channel_interrupted : TradeMonitorClient.Channel :=
  TradeMonitorClient.mkChannel [message 1000; message 999] true None.

(** A ledger whose one trade, message 1001, has just been inserted
    (Pending), and the dict of that message. *)
Definition ledger_pending : Db.Ledger :=
  Db.mkLedger
    [Db.mkTradeRow "1001" (Some 1) "acc" None (Some "http://img/shot.png") None
                   "http://discord/jump" "" 0 None]
    [Db.mkAccountRow 1 "acc" None None] 1 [] 0 [].

Definition trade_data_1001 : TradeMonitorClient.TradeData :=
  TradeMonitorClient.mkTradeData 1001 "acc" "" "http://discord/jump" None
                                 (Some "http://img/shot.png"%string).

End Samples.

(** ** The accounts table *)

Module Accounts.
Import Db.

(** The [account_name TEXT UNIQUE] constraint. *)
Definition accounts_unique (d : Ledger) : Prop :=
  NoDup (map acc_account_name (accounts d)).

(** [SELECT device_account, device_password FROM accounts WHERE account_name = ?] *)
Definition credentials_of (name : string) (d : Ledger)
  : list (option string * option string) :=
  map (fun r => (acc_device_account r, acc_device_password r))
      (List.filter (fun r => String.eqb (acc_account_name r) name) (accounts d)).

(** [SELECT account_id FROM accounts WHERE account_name = ?], all rows. *)
Definition ids_of (name : string) (d : Ledger) : list Z :=
  map acc_account_id
      (List.filter (fun r => String.eqb (acc_account_name r) name) (accounts d)).

End Accounts.

(** ** The inventory table *)

Module Inventory.
Import Db.

(** No row of [account_inventory] holds a quantity of zero or less. *)
Definition quantities_positive (inv : list InventoryRow) : Prop :=
  Forall (fun r => 0 < inv_quantity r) inv.

End Inventory.

(** ** Attachment names *)

Module Attachments.
Import TradeMonitorClient.

(** [att.filename.endswith('.xml')] *)
Definition is_xml (att : Attachment) : bool := endswith (filename att) ".xml".

(** [att.filename.endswith(('.png', '.jpg', '.jpeg', '.webp'))] *)
Definition is_image (att : Attachment) : bool :=
  endswith (filename att) ".png" || endswith (filename att) ".jpg"
  || endswith (filename att) ".jpeg" || endswith (filename att) ".webp".

End Attachments.

(** ** Marked messages *)

Module Ingestion.
Import TradeMonitorClient.

(** [SEARCH_STRING in message.content] *)
Definition marked (m : Message) : bool := str_in SEARCH_STRING (content m).

(** The keys under which the marked messages of a list are stored. *)
Definition marked_ids (msgs : list Message) : list string :=
  map (fun m => str (id m)) (List.filter marked msgs).

(** The messages of the channel the engine was given, if any. *)
Definition channel_messages (channel : option Channel) : list Message :=
  match channel with
  | Some ch => messages ch
  | None => []
  end.

End Ingestion.

(** ** The wishlist ([DatabaseManager.get_wishlist], [toggle_wishlist_status]) *)

Module Wishlist.

(** [wishlist]: [id INTEGER PRIMARY KEY AUTOINCREMENT],
    [card_id INTEGER NOT NULL UNIQUE]; the timestamps and the priority
    take their defaults and are never read. *)
Record WishRow := mkWishRow {
  w_id : Z;
  w_card_id : Z
}.

Record Store := mkStore {
  rows : list WishRow;
  rows_seq : Z
}.

(** Where the [try] block of [toggle_wishlist_status] raises, if it does:
    at the SELECT, or at the DELETE, the INSERT or the commit. *)
Inductive Fault :=
| NoFault
| SelectRaises
| WriteRaises.

(** The [card_id INTEGER NOT NULL UNIQUE] constraint. *)
Definition unique (w : Store) : Prop := NoDup (map w_card_id (rows w)).

(** [get_wishlist]: the set of card ids, the empty set when the query
    raises. *)
Definition get_wishlist (raises : bool) (w : Store) : gset Z :=
  if raises then ∅ else list_to_set (map w_card_id (rows w)).

(** [SELECT id FROM wishlist WHERE card_id = ?] then [fetchone()] *)
Definition select_id (card_id : Z) (w : Store) : option Z :=
  head (map w_id (List.filter (fun r => w_card_id r =? card_id) (rows w))).

(** [DELETE FROM wishlist WHERE card_id = ?] *)
Definition delete (card_id : Z) (w : Store) : Store :=
  mkStore (List.filter (fun r => negb (w_card_id r =? card_id)) (rows w)) (rows_seq w).

(** [INSERT INTO wishlist (card_id) VALUES (?)], on a card id that has no
    row. *)
Definition insert (card_id : Z) (w : Store) : Store :=
  mkStore (rows w ++ [mkWishRow (rows_seq w + 1) card_id]) (rows_seq w + 1).

(** [toggle_wishlist_status(card_id)]: the store and the returned boolean;
    [None] is an exception that leaves the method.  When the SELECT raises,
    [exists] is still unbound when the handler evaluates
    [exists is not None], which raises in turn.  A failing write is rolled
    back and the membership found by the SELECT is returned. *)
Definition toggle_wishlist_status (fault : Fault) (card_id : option Z) (w : Store)
  : Store * option bool :=
  match card_id with
  | None => (w, Some false)
  | Some card_id =>
      match fault with
      | SelectRaises => (w, None)
      | WriteRaises => (w, Some (bool_decide (is_Some (select_id card_id w))))
      | NoFault =>
          match select_id card_id w with
          | Some _ => (delete card_id w, Some false)
          | None => (insert card_id w, Some true)
          end
      end
  end.

End Wishlist.

(** ** The recognizer's file interface ([recognize], [batch_recognize], [set_threshold]) *)

Module RecognizerApi.
Import Db Matcher CardRecognizer.

(** [set_threshold(threshold)]: [None] is the [ValueError] raised for a
    threshold outside 0..100, in which case the recognizer is not
    changed. *)
Definition set_threshold (threshold : Q) (r : Recognizer) : option Recognizer :=
  if negb (Qle_bool 0 threshold && Qle_bool threshold 100) then None
  else Some (mkRecognizer (template_hashes r) threshold (card_details r)).

(** What [recognize] raises. *)
Inductive RecognizeFileError :=
| FileNotFoundError
| RuntimeError_open
| ValueError_of (e : RecognizeError).

Section WithFiles.
Context `{Imaging}.
(** [os.path.exists] and [Image.open(image_path)], [None] when it raises. *)
Variable path_exists : string -> bool.
Variable open_path : string -> option Image.

(** [recognize(image_path, save_to_db, account_name)] *)
Definition recognize (r : Recognizer) (image_path : string)
  : RecognizeFileError + list RecResult :=
  if negb (path_exists image_path) then inl FileNotFoundError
  else
    match open_path image_path with
    | None => inl RuntimeError_open
    | Some source_img =>
        match recognize_from_image r source_img with
        | inl e => inl (ValueError_of e)
        | inr results => inr results
        end
    end.

(** One iteration of the loop of [batch_recognize]: the results, or the
    empty list when [recognize] raises. *)
Definition batch_entry (r : Recognizer) (image_path : string) : list RecResult :=
  match recognize r image_path with
  | inr results => results
  | inl _ => []
  end.

(** [batch_recognize(image_paths, save_to_db, account_name)] *)
Definition batch_recognize (r : Recognizer) (image_paths : list string)
  : gmap string (list RecResult) :=
  fold_left (fun all_results image_path =>
               <[image_path := batch_entry r image_path]> all_results)
            image_paths ∅.

End WithFiles.

End RecognizerApi.

(** ** The wishlist cache ([wishlist_manager.py]) *)

Module WishlistManager.

Record Manager := mkManager {
  db : Wishlist.Store;
  wishlist_set : gset Z
}.

(** [load_wishlist]; [raises] is the oracle of [get_wishlist]. *)
Definition load_wishlist (raises : bool) (m : Manager) : Manager :=
  mkManager (db m) (Wishlist.get_wishlist raises (db m)).

(** [is_wished(card_id)] *)
Definition is_wished (card_id : Z) (m : Manager) : bool :=
  bool_decide (card_id ∈ wishlist_set m).

(** [toggle_wishlist(card_id)]: the manager and the returned state, [None]
    when [toggle_wishlist_status] raises (the cache is then not touched).
    [add] and [discard] of [None] leave a set of card ids as it is. *)
Definition toggle_wishlist (fault : Wishlist.Fault) (card_id : option Z) (m : Manager)
  : Manager * option bool :=
  let '(d, r) := Wishlist.toggle_wishlist_status fault card_id (db m) in
  match r with
  | None => (mkManager d (wishlist_set m), None)
  | Some new_state_is_wished =>
      (mkManager d
         (match card_id with
          | Some c => if new_state_is_wished then {[c]} ∪ wishlist_set m
                      else wishlist_set m ∖ {[c]}
          | None => wishlist_set m
          end),
       Some new_state_is_wished)
  end.

(** The cache holds what the table holds. *)
Definition coherent (m : Manager) : Prop :=
  wishlist_set m = Wishlist.get_wishlist false (db m).

End WishlistManager.

(** ** Downloads ([download_attachment_fast]) *)

Module Download.

Definition MAX_RETRIES : nat := 3.

(** What one [session.get] gives: a response with its status, and whether
    writing its body to the file went through; or an exception (timeout
    included). *)
Inductive Response :=
| Replied (status : Z) (saved : bool)
| Raised.

(** The returned pair, with the number of requests sent and of
    [asyncio.sleep(RETRY_DELAY)] calls made. *)
Record Outcome := mkOutcome {
  file_path : option string;
  status : string;
  requests : nat;
  sleeps : nat
}.

(** [for attempt in range(MAX_RETRIES)], from the attempts still to run. *)
Fixpoint attempts (get : nat -> Response) (path : string) (todo : list nat)
         (sent slept : nat) : Outcome :=
  match todo with
  | [] => mkOutcome None "failed" sent slept
  | attempt :: rest =>
      match get attempt with
      | Replied status saved =>
          if status =? 200 then
            if saved then mkOutcome (Some path) "downloaded" (S sent) slept
            else if (attempt =? MAX_RETRIES - 1)%nat
                 then mkOutcome None "failed" (S sent) slept
                 else attempts get path rest (S sent) (S slept)
          else if (attempt =? MAX_RETRIES - 1)%nat
               then mkOutcome None "failed" (S sent) slept
               else attempts get path rest (S sent) (S slept)
      | Raised =>
          if (attempt =? MAX_RETRIES - 1)%nat
          then mkOutcome None "failed" (S sent) slept
          else attempts get path rest (S sent) (S slept)
      end
  end.

(** [download_attachment_fast(session, attachment, sub_folder, filename)],
    once [os.makedirs] has returned; [join] is [os.path.join],
    [path_exists] is [os.path.exists]. *)
Definition download_attachment_fast (join : string -> string -> string)
           (path_exists : string -> bool) (get : nat -> Response)
           (sub_folder filename : string) : Outcome :=
  let path := join sub_folder filename in
  if path_exists path then mkOutcome (Some path) "skipped" 0 0
  else attempts get path (seq 0 MAX_RETRIES) 0 0.

(** An attempt that ends the loop with the file. *)
Definition succeeded (r : Response) : bool :=
  match r with
  | Replied status saved => (status =? 200) && saved
  | Raised => false
  end.

End Download.

(** ** Detections reaching the write queue ([MainWindow.on_card_found]) *)

Module CardFound.
Import Db MainWindow.

(** The keys of [card_data] that [on_card_found] reads; [None] is a
    missing key.  The engine fills "image_path" with the trade's image
    URL, which may itself be [None]. *)
Record CardData := mkCardData {
  cd_set_code : option string;
  cd_card_number : option string;
  cd_account_name : option string;
  cd_message_id : option string;
  cd_similarity : option Q;
  cd_image_path : option (option string)
}.

(** [MainWindow._get_or_create_account(account_name)]: the id of the row
    of that name, or that of a row it inserts.  [raises] is the oracle of
    its [try] block (the SELECT or the INSERT raising); it then returns
    [None]. *)
Definition _get_or_create_account (raises : bool) (account_name : string) (d : Ledger)
  : Ledger * option Z :=
  if raises then (d, None)
  else
    match accounts_lookup account_name d with
    | Some account_id => (d, Some account_id)
    | None =>
        let lastrowid := accounts_seq d + 1 in
        (mkLedger (trades d) (accounts d ++ [mkAccountRow lastrowid account_name None None])
                  lastrowid (found_cards d) (found_cards_seq d) (account_inventory d),
         Some lastrowid)
    end.

(** [on_card_found(card_data)], up to the write queue (the updates of the
    user interface that follow do not touch the store or the queue).
    [read_raises] is the oracle of the first [try] block; [card_lookup] is
    [SELECT id FROM cards WHERE set_code = ? AND card_number = ?]. *)
Definition on_card_found (read_raises account_raises : bool)
           (card_lookup : string -> string -> option Z)
           (card_data : CardData) (st : State) : State :=
  if read_raises then st
  else
    match cd_set_code card_data, cd_card_number card_data with
    | Some set_code, Some card_number =>
        let card_id := card_lookup set_code card_number in
        if negb (Py.truthy card_id) then st
        else
          match cd_account_name card_data with
          | None => st
          | Some account_name =>
              let '(d, account_id) :=
                _get_or_create_account account_raises account_name (db st) in
              if Py.truthy account_id
              then mkState d
                     (db_write_queue st
                      ++ [mkEvent card_id account_id (cd_message_id card_data)
                                  (default 0 (cd_similarity card_data) / 100)%Q
                                  (default (Some ""%string) (cd_image_path card_data))])
              else mkState d (db_write_queue st)
          end
    | _, _ => st
    end.

End CardFound.

(** ** The colour fingerprint ([trash/image_processing.py]) *)

Module ImageProcessing.

Definition HASH_SIZE : nat := 24.

(** ['1' if dct_reduced[y, x] > avg else '0'] *)
Definition bit (b : bool) : Ascii.ascii :=
  if b then Ascii.Ascii true false false false true true false false
  else Ascii.Ascii false false false false true true false false.

(** The three characters appended for the cell [(y, x)]; none for the
    cell [(0, 0)]. *)
Definition cell (above : nat -> nat -> nat -> bool) (y x : nat) : list Ascii.ascii :=
  if (x =? 0)%nat && (y =? 0)%nat then []
  else [bit (above 0%nat y x); bit (above 1%nat y x); bit (above 2%nat y x)].

(** [calculate_color_hash(image, hash_size)].  PIL, numpy and the DCT are
    outside the repository: [fails] says whether the conversion, the
    resize or the transform raises, and [above c y x] whether the
    coefficient [(y, x)] of channel [c] (0 red, 1 green, 2 blue) exceeds
    the channel's average.  With [hash_size < 4] the reduced matrices are
    empty and reading their cell [0, 0] raises.  Any exception gives
    [None]. *)
Definition calculate_color_hash (fails : bool) (above : nat -> nat -> nat -> bool)
           (hash_size : nat) : option string :=
  if fails then None
  else
    let freq_size := (hash_size / 4)%nat in
    if (freq_size =? 0)%nat then None
    else
      Some (String.string_of_list_ascii
              (concat (map (fun y => concat (map (cell above y) (seq 0 freq_size)))
                           (seq 0 freq_size)))).

End ImageProcessing.

(** ** The calls of a flush *)

Module Flush.
Import MainWindow.

(** The statements the loop of [process_db_write_queue] executes for one
    item: the log insert, and the inventory upsert when both ids are
    truthy. *)
Definition statements_of (e : Event) : nat :=
  match upsert_params e with
  | Some _ => 2%nat
  | None => 1%nat
  end.

Definition statements (items : list Event) : nat :=
  foldr (fun e n => (statements_of e + n)%nat) 0%nat items.

(** The calls of one transaction: the connect, the statements, the
    commit. *)
Definition calls (items : list Event) : nat := (1 + statements items + 1)%nat.

(** Whether one of the calls the transaction makes raises. *)
Definition some_call_raises (raises : nat -> bool) (items : list Event) : bool :=
  existsb raises (seq 0 (calls items)).

End Flush.

(** ** Further sample data *)

Module Scenarios.

(** An outside world in which every XML attachment parses to the device
    account "dev-1" with the password "secret". *)
Definition with_xml : TradeMonitorClient.Outside := {|
  TradeMonitorClient.extract_account_name := fun _ => "acc"%string;
  TradeMonitorClient.extract_cards_found_text := fun _ => ""%string;
  TradeMonitorClient.parse_device_credentials :=
    fun _ => Some (Some "dev-1"%string, Some "secret"%string);
  TradeMonitorClient._create_screenshot_thumbnail := fun _ => None;
  TradeMonitorClient.db_raises := fun _ => false;
  TradeMonitorClient.batch_insert_fault := fun _ => None;
  TradeMonitorClient.recognition_fault := fun _ => TradeMonitorClient.NoFault;
  TradeMonitorClient.path_exists := fun _ => true
|}.

End Scenarios.

(** * Properties *)

(** ** The inventory table *)

Section InventoryFacts.
Import Db.
Implicit Types (inv : list InventoryRow) (a c : Z).

Lemma inv_has_key_spec a c r :
  inv_has_key a c r = true <-> inv_key r = (a, c).
Proof.
  unfold inv_has_key, inv_key. rewrite andb_true_iff, !Z.eqb_eq.
  split; [intros [-> ->]; reflexivity | intros [= -> ->]; auto].
Qed.

Lemma inv_has_key_false a c r :
  inv_has_key a c r = false <-> inv_key r <> (a, c).
Proof.
  rewrite <- inv_has_key_spec. destruct (inv_has_key a c r); split; congruence.
Qed.

Lemma existsb_false_select a c inv :
  existsb (inv_has_key a c) inv = false <-> inv_select a c inv = [].
Proof.
  unfold inv_select. induction inv as [|r inv IH]; simpl; [tauto|].
  destruct (inv_has_key a c r); simpl; [split; discriminate | exact IH].
Qed.

Lemma existsb_false_key a c inv :
  existsb (inv_has_key a c) inv = false -> (a, c) ∉ map inv_key inv.
Proof.
  induction inv as [|r inv IH]; simpl; [intros _; apply not_elem_of_nil|].
  rewrite orb_false_iff. intros [Hr Hinv].
  rewrite not_elem_of_cons. split; [|auto].
  apply inv_has_key_false in Hr. congruence.
Qed.

(** Under the UNIQUE constraint a key selects at most one row. *)
Lemma inv_select_unique a c inv :
  inv_unique inv -> (length (inv_select a c inv) <= 1)%nat.
Proof.
  unfold inv_unique, inv_select.
  induction inv as [|r inv IH]; simpl; [lia|].
  rewrite NoDup_cons. intros [Hr Hnd].
  destruct (inv_has_key a c r) eqn:E; simpl; [|auto].
  apply inv_has_key_spec in E. rewrite E in Hr.
  destruct (existsb (inv_has_key a c) inv) eqn:Ex.
  - exfalso. apply Hr. apply existsb_exists in Ex as (r' & Hin & Hk).
    apply inv_has_key_spec in Hk. rewrite <- Hk.
    apply list_elem_of_In, in_map, Hin.
  - apply existsb_false_select in Ex. unfold inv_select in Ex.
    rewrite Ex. simpl. lia.
Qed.

Lemma inv_select_update a c (f : Z -> Z) inv :
  inv_select a c
    (map (fun r => if inv_has_key a c r
                   then mkInventoryRow a c (f (inv_quantity r)) else r) inv)
  = map f (inv_select a c inv).
Proof.
  unfold inv_select. induction inv as [|r inv IH]; simpl; [reflexivity|].
  destruct (inv_has_key a c r) eqn:E; simpl.
  - unfold inv_has_key at 1. simpl. rewrite !Z.eqb_refl. simpl.
    f_equal. exact IH.
  - rewrite E. exact IH.
Qed.

Lemma inv_key_update a c (f : Z -> Z) inv :
  map inv_key
    (map (fun r => if inv_has_key a c r
                   then mkInventoryRow a c (f (inv_quantity r)) else r) inv)
  = map inv_key inv.
Proof.
  induction inv as [|r inv IH]; simpl; [reflexivity|].
  rewrite IH. f_equal.
  destruct (inv_has_key a c r) eqn:E; [|reflexivity].
  apply inv_has_key_spec in E. rewrite E. reflexivity.
Qed.

(** The upsert on its own key: the proposed value when no row conflicts,
    the conflict action on the stored quantity otherwise. *)
Lemma inv_select_upsert a c v f inv :
  inv_unique inv ->
  inv_select a c (inv_upsert a c v f inv)
  = match inv_select a c inv with
    | [] => [v]
    | q :: _ => [f q]
    end.
Proof.
  intros Hu. unfold inv_upsert.
  destruct (existsb (inv_has_key a c) inv) eqn:Ex.
  - rewrite inv_select_update.
    pose proof (inv_select_unique a c inv Hu) as Hlen.
    destruct (inv_select a c inv) as [|q [|q' l]] eqn:Es; simpl in *; try lia.
    + apply existsb_false_select in Es. congruence.
    + reflexivity.
  - apply existsb_false_select in Ex. rewrite Ex.
    unfold inv_select in *. rewrite List.filter_app, List.map_app, Ex. simpl.
    unfold inv_has_key. simpl. rewrite !Z.eqb_refl. reflexivity.
Qed.

(** The upsert leaves every other key alone. *)
Lemma inv_select_upsert_other a c v f a' c' inv :
  (a', c') <> (a, c) ->
  inv_select a' c' (inv_upsert a c v f inv) = inv_select a' c' inv.
Proof.
  intros Hne. unfold inv_upsert.
  assert (Hnew : inv_has_key a' c' (mkInventoryRow a c v) = false)
    by (apply inv_has_key_false; unfold inv_key; simpl; congruence).
  destruct (existsb (inv_has_key a c) inv).
  - unfold inv_select. induction inv as [|r inv IH]; simpl; [reflexivity|].
    destruct (inv_has_key a c r) eqn:E.
    + assert (inv_has_key a' c' r = false) as ->.
      { apply inv_has_key_false. apply inv_has_key_spec in E. congruence. }
      assert (inv_has_key a' c' (mkInventoryRow a c (f (inv_quantity r))) = false) as ->.
      { apply inv_has_key_false. unfold inv_key; simpl; congruence. }
      exact IH.
    + destruct (inv_has_key a' c' r); simpl; [f_equal|]; exact IH.
  - unfold inv_select. rewrite List.filter_app, List.map_app. simpl. rewrite Hnew.
    simpl. apply app_nil_r.
Qed.

Lemma inv_upsert_unique a c v f inv :
  inv_unique inv -> inv_unique (inv_upsert a c v f inv).
Proof.
  unfold inv_unique, inv_upsert. intros Hu.
  destruct (existsb (inv_has_key a c) inv) eqn:Ex.
  - rewrite inv_key_update. exact Hu.
  - rewrite List.map_app. simpl. apply NoDup_app. split; [exact Hu|]. split.
    + intros k Hk Hin. apply list_elem_of_singleton in Hin. subst k.
      revert Hk. apply existsb_false_key, Ex.
    + apply NoDup_singleton.
Qed.

Lemma inv_select_delete a c inv :
  inv_select a c (inv_delete a c inv) = [].
Proof.
  unfold inv_select, inv_delete. induction inv as [|r inv IH]; simpl; [reflexivity|].
  destruct (inv_has_key a c r) eqn:E; simpl; [|rewrite E]; exact IH.
Qed.

Lemma inv_select_delete_other a c a' c' inv :
  (a', c') <> (a, c) ->
  inv_select a' c' (inv_delete a c inv) = inv_select a' c' inv.
Proof.
  intros Hne. unfold inv_select, inv_delete.
  induction inv as [|r inv IH]; simpl; [reflexivity|].
  destruct (inv_has_key a c r) eqn:E; simpl.
  - assert (inv_has_key a' c' r = false) as ->; [|exact IH].
    apply inv_has_key_false. apply inv_has_key_spec in E. congruence.
  - destruct (inv_has_key a' c' r); simpl; [f_equal|]; exact IH.
Qed.

Lemma inv_delete_unique a c inv :
  inv_unique inv -> inv_unique (inv_delete a c inv).
Proof.
  unfold inv_unique, inv_delete.
  induction inv as [|r inv IH]; simpl; [auto|].
  rewrite NoDup_cons. intros [Hr Hnd].
  destruct (negb (inv_has_key a c r)); simpl; [|auto].
  apply NoDup_cons. split; [|auto].
  intros Hin. apply Hr. apply list_elem_of_In in Hin. apply list_elem_of_In.
  apply in_map_iff in Hin as (r' & Hk & Hin). apply filter_In in Hin as [Hin _].
  rewrite <- Hk. apply in_map, Hin.
Qed.

End InventoryFacts.

(** ** The write batcher *)

Section BatcherFacts.
Import Db MainWindow.
Implicit Types (raises : nat -> bool) (e : Event) (s : Tx) (d : Ledger).

Lemma process_item_Some raises e s s' :
  process_item raises e s = Some s' -> s'.2 = apply_event e s.2.
Proof.
  unfold process_item, apply_event, execute.
  destruct (raises s.1); simpl; [discriminate|].
  destruct (upsert_params e) as [[a c]|]; simpl.
  - destruct (raises (S s.1)); [discriminate|]. intros [= <-]. reflexivity.
  - intros [= <-]. reflexivity.
Qed.

Lemma process_items_Some raises items s s' :
  process_items raises items s = Some s' -> s'.2 = apply_events items s.2.
Proof.
  revert s. induction items as [|e items IH]; simpl; intros s.
  - intros [= <-]. reflexivity.
  - destruct (process_item raises e s) as [s1|] eqn:E; simpl; [|discriminate].
    intros H. apply IH in H. apply process_item_Some in E.
    unfold apply_events in *. simpl. rewrite <- E. exact H.
Qed.

(** A transaction that commits has applied every drained event, in queue
    order. *)
Lemma transaction_Some raises items d d' :
  transaction raises items d = Some d' -> d' = apply_events items d.
Proof.
  unfold transaction, execute. simpl.
  destruct (raises 0%nat); simpl; [discriminate|].
  destruct (process_items raises items (1%nat, d)) as [s1|] eqn:E; simpl; [|discriminate].
  destruct (raises s1.1); simpl; [discriminate|].
  intros [= <-]. apply process_items_Some in E. exact E.
Qed.

Lemma process_items_never items s :
  exists n, process_items never items s = Some (n, apply_events items s.2).
Proof.
  revert s. induction items as [|e items IH]; simpl; intros [n d].
  - eexists; reflexivity.
  - unfold process_item, execute, never. simpl.
    unfold apply_events. simpl. unfold apply_event at 2.
    destruct (upsert_params e) as [[a c]|]; simpl; apply IH.
Qed.

Lemma transaction_never items d :
  transaction never items d = Some (apply_events items d).
Proof.
  unfold transaction. simpl.
  destruct (process_items_never items (1%nat, d)) as [n ->]. reflexivity.
Qed.

Lemma account_inventory_apply_event e d :
  account_inventory (apply_event e d)
  = match upsert_params e with
    | Some (a, c) => inv_upsert a c 1 (fun q => q + 1) (account_inventory d)
    | None => account_inventory d
    end.
Proof.
  unfold apply_event, sql_found_log, found_cards_insert_or_ignore, sql_inventory_upsert.
  destruct (upsert_params e) as [[a c]|]; destruct (ev_card_id e); reflexivity.
Qed.

Lemma found_cards_apply_event e d :
  map found_key (found_cards (apply_event e d))
  = map found_key (found_cards d) ++ option_list (event_key e).
Proof.
  unfold apply_event, sql_found_log, found_cards_insert_or_ignore,
    sql_inventory_upsert, event_key.
  destruct (upsert_params e) as [[a c]|]; destruct (ev_card_id e); simpl;
    rewrite ?List.map_app, ?app_nil_r; reflexivity.
Qed.

Lemma found_cards_apply_events items d :
  map found_key (found_cards (apply_events items d))
  = map found_key (found_cards d) ++ omap event_key items.
Proof.
  revert d. induction items as [|e items IH]; intros d; simpl.
  - rewrite app_nil_r. reflexivity.
  - unfold apply_events in *. simpl. rewrite IH, found_cards_apply_event.
    rewrite <- app_assoc. f_equal.
    destruct (event_key e); reflexivity.
Qed.

(** What a committed batch does to one inventory key. *)
Lemma inventory_apply_events a c items d :
  inv_unique (account_inventory d) ->
  let n := Z.of_nat (length (List.filter (targets a c) items)) in
  inv_unique (account_inventory (apply_events items d)) /\
  inv_select a c (account_inventory (apply_events items d))
  = if n =? 0 then inv_select a c (account_inventory d)
    else [quantity_of a c (account_inventory d) + n].
Proof.
  revert d. induction items as [|e items IH]; intros d Hu; simpl.
  - split; [exact Hu | reflexivity].
  - unfold apply_events in *. simpl.
    assert (Hu1 : inv_unique (account_inventory (apply_event e d))).
    { rewrite account_inventory_apply_event.
      destruct (upsert_params e) as [[a' c']|]; [apply inv_upsert_unique|]; exact Hu. }
    destruct (IH _ Hu1) as [IHu IHs]. split; [exact IHu|].
    rewrite IHs. clear IHs IHu IH.
    unfold quantity_of. rewrite account_inventory_apply_event.
    destruct (targets a c e) eqn:Et; unfold targets in Et.
    + apply bool_decide_eq_true in Et. rewrite Et. simpl length.
      rewrite inv_select_upsert by exact Hu.
      set (m := length (List.filter (targets a c) items)).
      replace (Z.of_nat (S m) =? 0) with false by (symmetry; apply Z.eqb_neq; lia).
      destruct (inv_select a c (account_inventory d)) as [|q l];
        destruct (Z.of_nat m =? 0) eqn:Em;
        try (apply Z.eqb_eq in Em; rewrite Em); f_equal; lia.
    + apply bool_decide_eq_false in Et.
      destruct (upsert_params e) as [[a' c']|]; [|reflexivity].
      rewrite inv_select_upsert_other by congruence. reflexivity.
Qed.

End BatcherFacts.

Section BatcherClaims.
Import Db MainWindow.

Lemma upsert_params_Some e a c :
  upsert_params e = Some (a, c)
  <-> ev_account_id e = Some a /\ ev_card_id e = Some c /\ a <> 0 /\ c <> 0.
Proof.
  unfold upsert_params, Py.truthy.
  destruct (ev_account_id e) as [a'|], (ev_card_id e) as [c'|]; simpl;
    rewrite ?andb_false_r;
    try (split; [discriminate | intros (? & ? & _); discriminate]).
  destruct (Z.eqb_spec a' 0), (Z.eqb_spec c' 0); simpl; split;
    try discriminate;
    try (intros ([= <-] & [= <-] & ? & ?); congruence);
    intros [= <- <-]; auto.
Qed.

Lemma upsert_params_None e :
  Py.truthy (ev_account_id e) && Py.truthy (ev_card_id e) = false ->
  upsert_params e = None.
Proof. unfold upsert_params. intros ->. reflexivity. Qed.

End BatcherClaims.

(** C9.  [set_inventory_quantity(account, card, q)], when the statement
    does not raise, returns [True] and leaves the (account, card) key with
    no row when [q <= 0], with a single row of quantity exactly [q] when
    [q > 0], whether the key had no row (a row is created) or had one (its
    quantity is overwritten, nothing is added to it); rows of other keys
    keep their quantities, and the UNIQUE constraint still holds. *)
Theorem set_inventory_quantity_exact (a c q : Z) (db : Db.Ledger) :
  Db.inv_unique (Db.account_inventory db) ->
  let r := DatabaseManager.set_inventory_quantity false (Some a) (Some c) q db in
  let inv := Db.account_inventory db in
  let inv' := Db.account_inventory r.1 in
  r.2 = true /\
  Db.inv_unique inv' /\
  (q <= 0 -> Db.inv_select a c inv' = []) /\
  (0 < q -> Db.inv_select a c inv = [] -> Db.inv_select a c inv' = [q]) /\
  (0 < q -> forall q0, Db.inv_select a c inv = [q0] -> Db.inv_select a c inv' = [q]) /\
  (forall a' c', (a', c') <> (a, c) ->
                 Db.inv_select a' c' inv' = Db.inv_select a' c' inv).
Proof.
  intros Hu. unfold DatabaseManager.set_inventory_quantity. simpl.
  destruct (Z.leb_spec q 0) as [Hq|Hq]; simpl.
  - split; [reflexivity|]. split.
    { apply inv_delete_unique, Hu. }
    split; [intros _; apply inv_select_delete|].
    split; [lia|]. split; [lia|].
    intros a' c' Hne. apply inv_select_delete_other, Hne.
  - split; [reflexivity|]. split; [apply inv_upsert_unique, Hu|].
    split; [lia|].
    split; [intros _ He; rewrite inv_select_upsert, He by exact Hu; reflexivity|].
    split; [intros _ q0 He; rewrite inv_select_upsert, He by exact Hu; reflexivity|].
    intros a' c' Hne. apply inv_select_upsert_other, Hne.
Qed.

(** Setting card 7 of account 3 to 2 in [Samples.ledger1], where it holds 5. *)
Lemma set_inventory_quantity_exact_witness :
  Db.inv_unique (Db.account_inventory Samples.ledger1) /\
  Db.inv_select 3 7 (Db.account_inventory
    (DatabaseManager.set_inventory_quantity false (Some 3) (Some 7) 2 Samples.ledger1).1)
  = [2].
Proof.
  assert (Hu : Db.inv_unique (Db.account_inventory Samples.ledger1)).
  { apply (bool_decide_unpack _). vm_compute. exact I. }
  split; [exact Hu|].
  destruct (set_inventory_quantity_exact 3 7 2 Samples.ledger1 Hu)
    as (_ & _ & _ & _ & Hover & _).
  apply (Hover ltac:(lia) 5). reflexivity.
Defined.

(** C4.  In a flush whose transaction commits, an event with non-missing
    account id [a] and card id [c] runs the inventory upsert on (a, c): the
    step inserts quantity 1 when the key has no row and adds exactly 1 to
    the stored quantity otherwise.  Over the whole batch the key ends with
    its former quantity (0 when absent) plus the number of such events, in
    a single row; in particular 100 events for one (account, card) with no
    row yet leave one row of quantity 100. *)
Theorem flush_upserts_inventory (raises : nat -> bool) (st : MainWindow.State) (a c : Z) :
  Db.inv_unique (Db.account_inventory (MainWindow.db st)) ->
  is_Some (MainWindow.transaction raises (MainWindow.db_write_queue st) (MainWindow.db st)) ->
  let inv := Db.account_inventory (MainWindow.db st) in
  let st' := MainWindow.process_db_write_queue raises st in
  let inv' := Db.account_inventory (MainWindow.db st') in
  let n := Z.of_nat (length (List.filter (MainWindow.targets a c) (MainWindow.db_write_queue st))) in
  (forall e s s',
      MainWindow.ev_account_id e = Some a -> MainWindow.ev_card_id e = Some c ->
      a <> 0 -> c <> 0 ->
      Db.inv_unique (Db.account_inventory s.2) ->
      MainWindow.process_item raises e s = Some s' ->
      Db.inv_select a c (Db.account_inventory s'.2)
      = match Db.inv_select a c (Db.account_inventory s.2) with
        | [] => [1]
        | q :: _ => [q + 1]
        end) /\
  Db.inv_unique inv' /\
  Db.inv_select a c inv'
  = (if n =? 0 then Db.inv_select a c inv
     else [MainWindow.quantity_of a c inv + n]) /\
  (forall e,
      MainWindow.ev_account_id e = Some a -> MainWindow.ev_card_id e = Some c ->
      a <> 0 -> c <> 0 ->
      MainWindow.db_write_queue st = repeat e 100 ->
      Db.inv_select a c inv = [] ->
      Db.inv_select a c inv' = [100]).
Proof.
  intros Hu [d Hd] inv st' inv' n.
  assert (Hst' : MainWindow.db st' = MainWindow.apply_events (MainWindow.db_write_queue st) (MainWindow.db st)).
  { subst st'. unfold MainWindow.process_db_write_queue.
    destruct (MainWindow.db_write_queue st) as [|e0 q0] eqn:Eq; [reflexivity|].
    rewrite Hd. simpl MainWindow.db. apply transaction_Some in Hd. exact Hd. }
  destruct (inventory_apply_events a c (MainWindow.db_write_queue st) (MainWindow.db st) Hu)
    as [Hu' Hsel].
  subst inv'. rewrite Hst'.
  split; [|split; [exact Hu'|split; [exact Hsel|]]].
  - intros e s s' Ha Hc Ha0 Hc0 Hus Hstep.
    apply process_item_Some in Hstep. rewrite Hstep.
    rewrite account_inventory_apply_event.
    assert (MainWindow.upsert_params e = Some (a, c)) as ->
      by (apply upsert_params_Some; auto).
    apply inv_select_upsert, Hus.
  - intros e Ha Hc Ha0 Hc0 Hq Hnone.
    rewrite Hsel. subst n. rewrite Hq.
    assert (Ht : MainWindow.targets a c e = true).
    { unfold MainWindow.targets. apply bool_decide_eq_true.
      apply upsert_params_Some; auto. }
    assert (Hf : List.filter (MainWindow.targets a c) (repeat e 100) = repeat e 100).
    { generalize 100%nat. intros k. induction k as [|k IH]; simpl; [reflexivity|].
      rewrite Ht, IH. reflexivity. }
    rewrite Hf, repeat_length. unfold MainWindow.quantity_of. subst inv.
    rewrite Hnone. reflexivity.
Qed.

(** A hundred copies of [Samples.event1] (card 7, account 3) flushed
    against the empty ledger. *)
Lemma flush_upserts_inventory_witness :
  Db.inv_unique (Db.account_inventory Db.empty) /\
  is_Some (MainWindow.transaction MainWindow.never (repeat Samples.event1 100) Db.empty) /\
  Db.inv_select 3 7
    (Db.account_inventory
       (MainWindow.db (MainWindow.process_db_write_queue MainWindow.never
          (MainWindow.mkState Db.empty (repeat Samples.event1 100)))))
  = [100].
Proof.
  assert (Hu : Db.inv_unique (Db.account_inventory Db.empty)) by apply NoDup_nil_2.
  assert (Hs : is_Some (MainWindow.transaction MainWindow.never
                          (repeat Samples.event1 100) Db.empty)).
  { rewrite transaction_never. eexists; reflexivity. }
  split; [exact Hu|]. split; [exact Hs|].
  destruct (flush_upserts_inventory MainWindow.never
              (MainWindow.mkState Db.empty (repeat Samples.event1 100)) 3 7 Hu Hs)
    as (_ & _ & _ & H100).
  apply (H100 Samples.event1); try reflexivity; lia.
Defined.

(** C2, as amended.  The log insert is ignore-on-conflict, but the only key
    of [found_cards] is its AUTOINCREMENT id: a flush that commits appends
    one log row for every drained event whose card id is not NULL, in queue
    order, whatever the log already holds; a flush that fails appends
    none.  An event tuple flushed twice is logged twice. *)
Theorem flush_appends_one_log_row_per_event (raises : nat -> bool) (st : MainWindow.State) :
  let st' := MainWindow.process_db_write_queue raises st in
  map MainWindow.found_key (Db.found_cards (MainWindow.db st'))
  = map MainWindow.found_key (Db.found_cards (MainWindow.db st))
    ++ match MainWindow.transaction raises (MainWindow.db_write_queue st) (MainWindow.db st) with
       | Some _ => omap MainWindow.event_key (MainWindow.db_write_queue st)
       | None => []
       end.
Proof.
  simpl. unfold MainWindow.process_db_write_queue.
  destruct (MainWindow.db_write_queue st) as [|e0 q0] eqn:Eq.
  - destruct (MainWindow.transaction raises [] (MainWindow.db st));
      simpl; rewrite app_nil_r; reflexivity.
  - destruct (MainWindow.transaction raises (e0 :: q0) (MainWindow.db st)) as [d|] eqn:Et.
    + apply transaction_Some in Et. subst d. cbn [MainWindow.db].
      apply found_cards_apply_events.
    + simpl. rewrite app_nil_r. reflexivity.
Qed.

(** C2 fails as stated: the same tuple enqueued and flushed twice, each
    flush committing, leaves two log rows with one (card, account, message)
    tuple. *)
Lemma same_event_flushed_twice_logged_twice :
  map MainWindow.found_key
      (Db.found_cards
         (MainWindow.db
            (MainWindow.process_db_write_queue MainWindow.never
               (MainWindow.mkState
                  (MainWindow.db
                     (MainWindow.process_db_write_queue MainWindow.never
                        (MainWindow.mkState Db.empty [Samples.event1])))
                  [Samples.event1]))))
  = [(7, Some 3, Some "1001"); (7, Some 3, Some "1001")].
Proof. vm_compute. reflexivity. Qed.

Section FlushFacts.
Import Db MainWindow Flush.



End FlushFacts.


(** A flush in which no call raises: [event1; event2] queued on
    [Samples.ledger1] are both logged, card 7 of account 3 goes from 5 to 6,
    card 9 gets its first row, and the queue is empty. *)
Example flush_commits_when_nothing_raises :
  Flush.some_call_raises MainWindow.never [Samples.event1; Samples.event2] = false /\
  MainWindow.db_write_queue
    (MainWindow.process_db_write_queue MainWindow.never
       (MainWindow.mkState Samples.ledger1 [Samples.event1; Samples.event2]))
  = [] /\
  map MainWindow.found_key
      (Db.found_cards
         (MainWindow.db
            (MainWindow.process_db_write_queue MainWindow.never
               (MainWindow.mkState Samples.ledger1 [Samples.event1; Samples.event2]))))
  = [(7, Some 3, Some "1001"%string); (9, Some 3, Some "1002"%string)] /\
  map (fun r => (Db.inv_key r, Db.inv_quantity r))
      (Db.account_inventory
         (MainWindow.db
            (MainWindow.process_db_write_queue MainWindow.never
               (MainWindow.mkState Samples.ledger1 [Samples.event1; Samples.event2]))))
  = [((3, 7), 6); ((3, 8), 1); ((3, 9), 1)].
Proof. repeat split; vm_compute; reflexivity. Qed.

(** A failure in the middle of a batch: with [event1; event2] queued on
    [Samples.ledger1], the third call raises after event1 was logged and
    counted inside the transaction.  Nothing of it reaches the store and
    both events are queued again. *)
Example flush_failure_midway :
  MainWindow.transaction Samples.raises_at_3 [Samples.event1; Samples.event2] Samples.ledger1
  = None /\
  MainWindow.process_db_write_queue Samples.raises_at_3
    (MainWindow.mkState Samples.ledger1 [Samples.event1; Samples.event2])
  = MainWindow.mkState Samples.ledger1 [Samples.event1; Samples.event2].
Proof. split; vm_compute; reflexivity. Qed.

(** C10, as amended.  An event whose account id or card id is falsy runs
    the log insert only: no inventory statement is executed for it and
    every [account_inventory] row is unchanged.  Its log row is inserted
    when the card id is not [None] (a card id of 0 or a missing account id
    is logged); with a [None] card id the NOT NULL column makes the
    ignore-on-conflict insert skip the row, so nothing is logged. *)
Theorem falsy_ids_leave_inventory_unchanged
        (raises : nat -> bool) (e : MainWindow.Event) (s : MainWindow.Tx) :
  Py.truthy (MainWindow.ev_account_id e) && Py.truthy (MainWindow.ev_card_id e) = false ->
  match MainWindow.process_item raises e s with
  | Some s' =>
      s'.1 = S s.1 /\
      Db.account_inventory s'.2 = Db.account_inventory s.2 /\
      Db.found_cards s'.2
      = Db.found_cards s.2
        ++ match MainWindow.ev_card_id e with
           | Some c => [Db.mkFoundRow (Db.found_cards_seq s.2 + 1) c
                          (MainWindow.ev_account_id e) (MainWindow.ev_message_id e)
                          (MainWindow.ev_confidence e) (MainWindow.ev_path e)]
           | None => []
           end
  | None => raises s.1 = true
  end.
Proof.
  intros Hf. unfold MainWindow.process_item, MainWindow.execute.
  rewrite (upsert_params_None e Hf).
  destruct (raises s.1); simpl; [reflexivity|].
  split; [reflexivity|].
  unfold MainWindow.sql_found_log, Db.found_cards_insert_or_ignore.
  destruct (MainWindow.ev_card_id e); simpl; rewrite ?app_nil_r; auto.
Qed.

(** [Samples.event_no_account] (card 7, account [None]) as the first item
    of a transaction on [Samples.ledger1]. *)
Lemma falsy_ids_leave_inventory_unchanged_witness :
  Py.truthy (MainWindow.ev_account_id Samples.event_no_account)
  && Py.truthy (MainWindow.ev_card_id Samples.event_no_account) = false /\
  match MainWindow.process_item MainWindow.never Samples.event_no_account (1%nat, Samples.ledger1) with
  | Some s' =>
      Db.account_inventory s'.2 = Db.account_inventory Samples.ledger1 /\
      length (Db.found_cards s'.2) = 1%nat
  | None => False
  end.
Proof.
  split; [reflexivity|].
  pose proof (falsy_ids_leave_inventory_unchanged MainWindow.never
                Samples.event_no_account (1%nat, Samples.ledger1) eq_refl) as H.
  destruct (MainWindow.process_item MainWindow.never Samples.event_no_account
              (1%nat, Samples.ledger1)) as [s'|].
  - destruct H as (_ & Hinv & Hlog). split; [exact Hinv|].
    rewrite Hlog. reflexivity.
  - discriminate H.
Defined.

(** C10 fails as stated: a drained event whose card id is [None] is
    falsy, its flush commits, and the log holds no row for it. *)
Lemma null_card_event_is_not_logged :
  Py.truthy (MainWindow.ev_card_id Samples.event_no_card) = false /\
  MainWindow.process_db_write_queue MainWindow.never
    (MainWindow.mkState Db.empty [Samples.event_no_card])
  = MainWindow.mkState Db.empty [] /\
  Db.found_cards
    (MainWindow.db
       (MainWindow.process_db_write_queue MainWindow.never
          (MainWindow.mkState Db.empty [Samples.event_no_card])))
  = [].
Proof. repeat split; vm_compute; reflexivity. Qed.

(** ** The matcher *)

Section MatcherFacts.
Import Matcher.

Lemma _load_templates_hashes rows ts :
  _load_templates rows = Some ts ->
  ts <> [] /\ Forall (fun t => t_hash t <> ""%string) ts.
Proof.
  unfold _load_templates.
  set (keep := fun t => negb (String.eqb (t_hash t) "")).
  intros Hl.
  assert (Hts : ts = List.filter keep rows).
  { destruct (List.filter keep rows); [discriminate | congruence]. }
  split.
  - intros ->. destruct (List.filter keep rows); discriminate.
  - subst ts. apply Forall_forall. intros t Hin.
    apply list_elem_of_In, filter_In in Hin as [_ Hk]. unfold keep in Hk.
    intros He. rewrite He in Hk. discriminate.
Qed.

Lemma similarity_of_is_Some source_hash t :
  t_hash t <> ""%string -> is_Some (similarity_of source_hash t).
Proof.
  unfold similarity_of. destruct (t_hash t) as [|a s] eqn:E; [congruence|].
  intros _. simpl. eexists; reflexivity.
Qed.

(** With no empty template hash the scan loop runs to its end. *)
Lemma scan_total source_hash ts acc :
  Forall (fun t => t_hash t <> ""%string) ts ->
  is_Some (fold_left (scan_step source_hash) ts (Some acc)).
Proof.
  revert acc. induction ts as [|t ts IH]; intros acc Hts; simpl.
  - eexists; reflexivity.
  - apply Forall_cons in Hts as [Ht Hts].
    destruct (similarity_of_is_Some source_hash t Ht) as [sim Hsim].
    destruct acc as [best_match max_similarity]. simpl. rewrite Hsim.
    apply IH, Hts.
Qed.

Lemma hamming_distance_mismatch hash1 hash2 :
  String.length hash1 <> String.length hash2 ->
  hamming_distance hash1 hash2 = String.length hash1.
Proof.
  intros Hne. unfold hamming_distance.
  destruct (Nat.eqb_spec (String.length hash1) (String.length hash2)); [contradiction|].
  reflexivity.
Qed.

(** Rounding to two decimals keeps a non-positive value non-positive. *)
Lemma round2_nonpos x : (x <= 0)%Q -> (round2 x <= 0)%Q.
Proof.
  intros Hx. unfold round2. rewrite Qred_correct.
  set (y := (x * 100)%Q). set (f := Qfloor y).
  assert (Hy : (y <= 0)%Q) by (unfold y; lra).
  assert (Hf : (inject_Z f <= y)%Q) by apply Qfloor_le.
  assert (Hf0 : f <= 0).
  { apply Z.le_ngt. intros Hpos.
    assert ((1 <= inject_Z f)%Q).
    { change 1%Q with (inject_Z 1). rewrite <- Zle_Qle. lia. }
    lra. }
  assert (Hn : forall n, n <= 0 -> (n # 100 <= 0)%Q).
  { intros n Hn. unfold Qle. simpl. lia. }
  destruct (Z.eq_dec f 0) as [E0|Hne].
  - assert (Hr : (y - inject_Z f <= 0)%Q) by (rewrite E0; change (inject_Z 0) with 0%Q; lra).
    destruct (Qle_bool (y - inject_Z f) (1 # 2)) eqn:E1.
    + destruct (Qle_bool (1 # 2) (y - inject_Z f)) eqn:E2.
      * apply Qle_bool_iff in E2. lra.
      * apply Hn. lia.
    + assert (Hle : (y - inject_Z f <= 1 # 2)%Q) by lra.
      apply Qle_bool_iff in Hle. congruence.
  - apply Hn.
    destruct (Qle_bool (y - inject_Z f) (1 # 2));
      [destruct (Qle_bool (1 # 2) (y - inject_Z f)); [destruct (Z.even f)|]|]; lia.
Qed.

(** A query longer than the template is at distance its own length, more
    than the template's: its similarity is not positive. *)
Lemma similarity_of_longer h t sim :
  (String.length (t_hash t) < String.length h)%nat ->
  similarity_of h t = Some sim -> (sim <= 0)%Q.
Proof.
  intros Hlt. unfold similarity_of.
  rewrite hamming_distance_mismatch by lia.
  destruct (String.length (t_hash t)) as [|m] eqn:Em; [discriminate|].
  intros [= <-]. rewrite Qred_correct.
  set (d := Z.of_nat (String.length h)). set (mm := Z.of_nat (S m)).
  assert (Hm : (0 < inject_Z mm)%Q).
  { change 0%Q with (inject_Z 0). rewrite <- Zlt_Qlt. unfold mm. lia. }
  assert (Hd : (inject_Z mm <= inject_Z d)%Q).
  { rewrite <- Zle_Qle. unfold mm, d. lia. }
  assert (H1 : (1 <= inject_Z d / inject_Z mm)%Q).
  { apply Qle_shift_div_l; [exact Hm|]. lra. }
  lra.
Qed.

Lemma scan_raised source_hash ts :
  fold_left (scan_step source_hash) ts None = None.
Proof. induction ts as [|t ts IH]; simpl; [reflexivity | exact IH]. Qed.

(** The best match the loop ends with is the one it started with or a
    template of the list, carrying that template's rounded similarity. *)
Lemma scan_best_from source_hash ts (acc : Best) t s mx :
  fold_left (scan_step source_hash) ts (Some acc) = Some (Some (t, s), mx) ->
  acc.1 = Some (t, s) \/
  (t ∈ ts /\ exists sim, similarity_of source_hash t = Some sim /\ s = round2 sim).
Proof.
  revert acc. induction ts as [|t0 ts IH]; intros [best_match max_similarity]; simpl.
  - intros [= -> _]. left. reflexivity.
  - destruct (similarity_of source_hash t0) as [sim|] eqn:Es.
    + intros Hf. apply IH in Hf as [Hacc | (Hin & sim' & Hs & ->)].
      * destruct (Qlt_bool max_similarity sim); simpl in Hacc.
        -- injection Hacc as <- <-. right. split; [apply list_elem_of_here|].
           exists sim. auto.
        -- left. exact Hacc.
      * right. split; [apply list_elem_of_further, Hin|]. exists sim'. auto.
    + rewrite scan_raised. discriminate.
Qed.

End MatcherFacts.

(** The part of the length-mismatch behaviour that holds.  A recognizer
    holds no empty template hash, so for every query fingerprint, of any
    length, [_find_best_match] returns (a match or [None]) and never
    raises.  On a mismatch the distance [hamming_distance] answers is the
    length of the query; a query longer than every template therefore has
    no positive similarity, and under a positive threshold
    [recognize_from_image] keeps no result for its slot. *)
Theorem find_best_match_never_raises
        `{Imaging} (rows : list Matcher.Template) (details : Z -> Matcher.DetailsLookup)
        (threshold : Q) (r : CardRecognizer.Recognizer) (source_hash : string) :
  CardRecognizer.new rows details threshold = Some r ->
  is_Some (Matcher._find_best_match (CardRecognizer.template_hashes r)
                                    (CardRecognizer.card_details r) source_hash) /\
  (forall t, t ∈ CardRecognizer.template_hashes r ->
             String.length source_hash <> String.length (Matcher.t_hash t) ->
             Matcher.hamming_distance source_hash (Matcher.t_hash t)
             = String.length source_hash) /\
  ((forall t, t ∈ CardRecognizer.template_hashes r ->
              (String.length (Matcher.t_hash t) < String.length source_hash)%nat) ->
   (forall m,
       Matcher._find_best_match (CardRecognizer.template_hashes r)
                                (CardRecognizer.card_details r) source_hash = Some (Some m) ->
       (Matcher.m_similarity m <= 0)%Q) /\
   ((0 < threshold)%Q ->
    forall source_img crop_box card_img,
      crop source_img crop_box = Some card_img ->
      calculate_color_hash card_img = Some source_hash ->
      CardRecognizer.accepted_match r source_img crop_box = None)).
Proof.
  unfold CardRecognizer.new. intros Hnew.
  destruct (Matcher._load_templates rows) as [ts|] eqn:El; [|discriminate].
  injection Hnew as <-. simpl.
  apply _load_templates_hashes in El as [_ Hts].
  assert (Hsim : (forall t, t ∈ ts ->
                            (String.length (Matcher.t_hash t) < String.length source_hash)%nat) ->
                 forall m, Matcher._find_best_match ts details source_hash = Some (Some m) ->
                           (Matcher.m_similarity m <= 0)%Q).
  { intros Hlong m. unfold Matcher._find_best_match, Matcher.scan_templates.
    destruct (fold_left _ ts _) as [[[[t s]|] mx]|] eqn:Ef; simpl; try discriminate.
    apply scan_best_from in Ef as [Habs | (Hin & sim & Hs & ->)]; [discriminate|].
    intros [= <-].
    assert (Matcher.m_similarity (Matcher.extend details (t, Matcher.round2 sim))
            = Matcher.round2 sim) as ->.
    { unfold Matcher.extend. simpl. destruct (details (Matcher.t_card_id t)); reflexivity. }
    apply round2_nonpos. eapply similarity_of_longer; [apply Hlong, Hin | exact Hs]. }
  split; [|split; [|intros Hlong; split]].
  - unfold Matcher._find_best_match, Matcher.scan_templates.
    destruct (scan_total source_hash ts (None, (-1)%Q) Hts) as [[b m] ->].
    eexists; reflexivity.
  - intros t _. apply hamming_distance_mismatch.
  - apply Hsim, Hlong.
  - intros Hpos source_img crop_box card_img Hc Hh.
    unfold CardRecognizer.accepted_match. rewrite Hc. simpl. rewrite Hh. simpl.
    destruct (String.eqb source_hash ""); [reflexivity|].
    destruct (Matcher._find_best_match ts details source_hash) as [[m|]|] eqn:Em;
      simpl; try reflexivity.
    specialize (Hsim Hlong m eq_refl).
    destruct (Qle_bool threshold (Matcher.m_similarity m)) eqn:E; [|reflexivity].
    apply Qle_bool_iff in E. lra.
Qed.

(** The recognizer of the samples, asked for a query of one character. *)
Lemma find_best_match_never_raises_witness :
  CardRecognizer.new [Samples.template1] Samples.no_details 75 = Some Samples.recognizer1 /\
  is_Some (Matcher._find_best_match [Samples.template1] Samples.no_details "1").
Proof.
  split; [reflexivity|].
  apply (@find_best_match_never_raises Samples.test_imaging
           [Samples.template1] Samples.no_details 75 Samples.recognizer1 "1" eq_refl).
Defined.

(** A query of nine characters against the eight-character corpus: no
    template reaches similarity -1 or more, and there is no match. *)
Example longer_query_is_rejected :
  Matcher._find_best_match [Samples.template1] Samples.no_details "000000000" = Some None.
Proof. vm_compute. reflexivity. Qed.

(** C6, what the code does instead.  On a length mismatch
    [hamming_distance] means to answer the maximum distance (its comment
    says so) but answers the length of the query.  Against a corpus of
    eight-character fingerprints the one-character query "1" is therefore
    not rejected: its distance is taken to be 1, its similarity
    100 - 100 * 1/8 = 87.5, and the template comes back as the match. *)
Theorem shorter_query_is_matched :
  String.length "1" <> String.length (Matcher.t_hash Samples.template1) /\
  Matcher._find_best_match [Samples.template1] Samples.no_details "1"
  = Some (Some (Matcher.mkMatch 7 "Pikachu" "001" "A1" None None "00000000" (175 # 2))) /\
  Matcher.hamming_distance "1" (Matcher.t_hash Samples.template1) = 1%nat /\
  String.length (Matcher.t_hash Samples.template1) = 8%nat /\
  Qle_bool (CardRecognizer.similarity_threshold Samples.recognizer1) (175 # 2) = true.
Proof. split; [discriminate | repeat split; vm_compute; reflexivity]. Qed.

(** ** Layout detection and the recognizer *)

Section RecognizerFacts.
Context `{Imaging}.
Import Db Matcher CardRecognizer.

Lemma cards_in_row_2_or_3 cv box :
  DetectLayout.cards_in_row cv box = 2 \/ DetectLayout.cards_in_row cv box = 3.
Proof.
  destruct box as [[[x1 y1] x2] y2]. unfold DetectLayout.cards_in_row.
  destruct (DetectLayout.is_color_in_range _ _ _); auto.
Qed.

Lemma _get_layout_logic_range cv :
  DetectLayout._get_layout_logic cv = 4 \/
  DetectLayout._get_layout_logic cv = 5 \/
  DetectLayout._get_layout_logic cv = 6.
Proof.
  unfold DetectLayout._get_layout_logic.
  destruct (cards_in_row_2_or_3 cv DetectLayout.TOP_ROW_CHECK_BOX) as [-> | ->],
           (cards_in_row_2_or_3 cv DetectLayout.BOTTOM_ROW_CHECK_BOX) as [-> | ->];
    auto.
Qed.

Lemma LAYOUT_CROP_BOXES_length l :
  l = 4 \/ l = 5 \/ l = 6 ->
  exists crop_boxes, LAYOUT_CROP_BOXES l = Some crop_boxes
                     /\ Z.of_nat (length crop_boxes) = l.
Proof. intros [-> | [-> | ->]]; eexists; split; reflexivity. Qed.

(** The loop only ever appends: its result is the accumulator followed by
    what each slot contributes on its own. *)
Lemma fold_process_position r img l pcs acc :
  fold_left (process_position r img l) pcs acc = acc ++ omap (slot_result r img l) pcs.
Proof.
  revert acc. induction pcs as [|pc pcs IH]; intros acc; simpl.
  - rewrite app_nil_r. reflexivity.
  - rewrite IH. unfold process_position, slot_result.
    destruct (accepted_match r img pc.2); simpl;
      [rewrite <- app_assoc|]; reflexivity.
Qed.







End RecognizerFacts.



(** The same screenshot with a crop that raises in slot 2 and a failed hash
    in slot 5: slots 1, 4 and 6 are returned, with their positions. *)
Example failed_slots_are_skipped :
  map Db.res_position
      (match @CardRecognizer.recognize_from_image Samples.test_imaging
               Samples.recognizer1 Samples.screenshot_b with
       | inr results => results
       | inl _ => []
       end)
  = [1; 4; 6]%nat.
Proof. vm_compute. reflexivity. Qed.

(** ** The trades table and the ingestion engine *)

Section TradesFacts.
Import Db.

Lemma trades_exists_iff mid d :
  trades_exists mid d = true <-> mid ∈ map tr_message_id (trades d).
Proof.
  unfold trades_exists. rewrite existsb_exists, list_elem_of_In, in_map_iff.
  split; intros (r & H1 & H2); exists r.
  - apply String.eqb_eq in H2. auto.
  - split; [exact H2|]. apply String.eqb_eq. exact H1.
Qed.

Lemma trades_insert_or_ignore_unique r d :
  trades_unique d -> trades_unique (trades_insert_or_ignore r d).
Proof.
  unfold trades_unique, trades_insert_or_ignore. intros Hu.
  destruct (trades_exists (tr_message_id r) d) eqn:E; [exact Hu|].
  simpl. rewrite List.map_app. simpl. apply NoDup_app. split; [exact Hu|]. split.
  - intros mid Hin Hnew. apply list_elem_of_singleton in Hnew. subst mid.
    apply trades_exists_iff in Hin. congruence.
  - apply NoDup_singleton.
Qed.

(** An insert whose key is present changes nothing. *)
Lemma trades_insert_or_ignore_present r d :
  trades_exists (tr_message_id r) d = true -> trades_insert_or_ignore r d = d.
Proof. unfold trades_insert_or_ignore. intros ->. reflexivity. Qed.

Lemma trades_update_scan_ids status results mid d :
  map tr_message_id (trades (trades_update_scan status results mid d))
  = map tr_message_id (trades d).
Proof.
  unfold trades_update_scan. simpl. rewrite List.map_map.
  apply List.map_ext. intros r. destruct (tr_has_id mid r); reflexivity.
Qed.

Lemma accounts_insert_or_ignore_trades name d :
  trades (accounts_insert_or_ignore name d) = trades d.
Proof.
  unfold accounts_insert_or_ignore. destruct (accounts_lookup name d); reflexivity.
Qed.

End TradesFacts.

Section EngineFacts.
Context `{Imaging} `{TradeMonitorClient.Outside}.
Import Db TradeMonitorClient.

Lemma fold_left_invariant {A B} (P : A -> Prop) (f : A -> B -> A) (l : list B) (a : A) :
  (forall a' x, P a' -> P (f a' x)) -> P a -> P (fold_left f l a).
Proof.
  intros Hstep. revert a. induction l as [|x l IH]; intros a Ha; simpl; auto.
Qed.

Lemma _get_or_create_account_trades name credentials d :
  trades (_get_or_create_account name credentials d).1 = trades d.
Proof.
  unfold _get_or_create_account.
  destruct (String.eqb name ""); [reflexivity|].
  destruct (db_raises (GetOrCreateAccount name)); [reflexivity|].
  destruct credentials as [[a p]|]; simpl; apply accounts_insert_or_ignore_trades.
Qed.

Lemma sync_credentials_trades name xml d :
  trades (sync_credentials name xml d).1 = trades d.
Proof.
  unfold sync_credentials.
  destruct (Py.truthy_seq xml); [|reflexivity].
  destruct (parse_device_credentials (default [] xml)) as [[[a|] [p|]]|]; try reflexivity.
  destruct (negb (String.eqb a "") && negb (String.eqb p "")); [|reflexivity].
  apply _get_or_create_account_trades.
Qed.

Lemma store_scan_ids status results mid c :
  ids (store_scan status results mid c) = ids c.
Proof.
  unfold store_scan, ids. destruct (db_raises (UpdateScan mid)); [reflexivity|].
  simpl. apply trades_update_scan_ids.
Qed.

(** A scan rewrites the status and results of rows; it adds and removes
    none. *)
Lemma scan_image_for_cards_ids trade_data image_bytes c :
  ids (scan_image_for_cards trade_data image_bytes c) = ids c.
Proof.
  unfold scan_image_for_cards.
  destruct (executor_shutdown c || negb (Py.truthy_seq (Some image_bytes))); [reflexivity|].
  destruct (run_recognition c image_bytes); try reflexivity; apply store_scan_ids.
Qed.

Lemma batch_message_trades b m :
  trades (b_db (batch_message b m)) = trades (b_db b).
Proof.
  unfold batch_message.
  destruct (negb (str_in SEARCH_STRING (content m))); [reflexivity|].
  destruct (db_raises (DupCheck (str (id m)))); [reflexivity|].
  destruct (trades_exists (str (id m)) (b_db b)); [reflexivity|].
  destruct (extract_trade_data_fast m) as [[trade_data xml_att] img_att].
  destruct (read_attachments xml_att img_att) as [[xml_bytes image_bytes]|]; [|reflexivity].
  destruct (sync_credentials (td_account_name trade_data) xml_bytes (b_db b))
    as [d1 xml_path] eqn:Es.
  destruct (_get_or_create_account (td_account_name trade_data) None d1)
    as [d2 account_id] eqn:Ea.
  simpl.
  change d2 with (d2, account_id).1. rewrite <- Ea, _get_or_create_account_trades.
  change d1 with (d1, xml_path).1. rewrite <- Es. apply sync_credentials_trades.
Qed.

Lemma insert_batch_unique rows d :
  trades_unique d -> trades_unique (insert_batch rows d).
Proof.
  unfold insert_batch.
  apply (fold_left_invariant trades_unique).
  intros d' r. apply trades_insert_or_ignore_unique.
Qed.

Lemma unique_of_ids c c' : ids c' = ids c -> unique c -> unique c'.
Proof. unfold unique, trades_unique, ids. intros ->. auto. Qed.

Lemma process_message_batch_fast_unique msgs c :
  unique c -> unique (process_message_batch_fast msgs c).1.
Proof.
  intros Hu. unfold process_message_batch_fast.
  destruct msgs as [|m msgs]; [exact Hu|].
  cbn [fst].
  apply (fold_left_invariant unique).
  - intros c' task. apply unique_of_ids, scan_image_for_cards_ids.
  - unfold unique. cbn [db_conn with_db]. apply insert_batch_unique.
    unfold trades_unique.
    assert (Hb : forall l b, trades (b_db (fold_left batch_message l b)) = trades (b_db b)).
    { induction l as [|x l IH]; intros b; simpl; [reflexivity|].
      rewrite IH. apply batch_message_trades. }
    rewrite Hb. exact Hu.
Qed.

Lemma historical_message_unique c m :
  unique c -> unique (historical_message c m).
Proof.
  intros Hu. unfold historical_message.
  destruct (negb (str_in SEARCH_STRING (content m))); [exact Hu|].
  destruct (extract_trade_data_fast m) as [[trade_data xml_att] img_att].
  destruct (read_attachments xml_att img_att) as [[xml_bytes image_bytes]|]; [|exact Hu].
  destruct (sync_credentials (td_account_name trade_data) xml_bytes (db_conn c))
    as [d1 xml_path] eqn:Es.
  destruct (_get_or_create_account (td_account_name trade_data) None d1)
    as [d2 account_id] eqn:Ea.
  assert (Hd2 : trades d2 = trades (db_conn c)).
  { change d2 with (d2, account_id).1. rewrite <- Ea, _get_or_create_account_trades.
    change d1 with (d1, xml_path).1. rewrite <- Es. apply sync_credentials_trades. }
  assert (Hu2 : trades_unique d2) by (unfold trades_unique; rewrite Hd2; exact Hu).
  destruct (db_raises (InsertTrade (str (id m)))); [exact Hu2|].
  match goal with
  | |- context [trades_insert_or_ignore ?r d2] =>
      assert (Hu3 : unique (with_db (trades_insert_or_ignore r d2) c))
        by (apply trades_insert_or_ignore_unique, Hu2)
  end.
  destruct (Py.truthy_seq image_bytes); [|exact Hu3].
  eapply unique_of_ids; [apply scan_image_for_cards_ids | exact Hu3].
Qed.

Lemma with_initial_scan_done_unique c : unique c -> unique (with_initial_scan_done c).
Proof. auto. Qed.

Lemma perform_historical_scan_streaming_unique channel c :
  unique c -> unique (perform_historical_scan_streaming channel c).
Proof.
  intros Hu. unfold perform_historical_scan_streaming.
  destruct channel as [ch|]; [|exact Hu].
  destruct (negb (read_message_history ch)); [exact Hu|].
  apply (fold_left_invariant unique); [|exact Hu].
  intros c' m. apply historical_message_unique.
Qed.

Lemma perform_incremental_scan_fast_unique channel now c :
  unique c -> unique (perform_incremental_scan_fast channel now c).
Proof.
  intros Hu. unfold perform_incremental_scan_fast.
  destruct channel as [ch|]; [|exact Hu].
  match goal with
  | |- context [if ?cond then ?a else c] =>
      assert (Hc1 : unique (if cond then a else c))
        by (destruct cond; [destruct (db_raises SelectMax)|]; exact Hu);
      generalize dependent (if cond then a else c)
  end.
  intros c1 Hc1.
  destruct (0 <? last_message_id_cache c1); [|exact Hc1].
  destruct (fetch_fault ch); [exact Hc1|].
  assert (Hs : unique (fold_left incremental_step
                         (history ch None (Some (last_message_id_cache c1))) ([], c1)).2).
  { apply (fold_left_invariant (fun s : list Message * Client => unique s.2)); [|exact Hc1].
    intros s m Hs. unfold incremental_step.
    destruct (BATCH_SIZE <=? length (s.1 ++ [m]))%nat; [|exact Hs].
    apply process_message_batch_fast_unique, Hs. }
  destruct (fold_left incremental_step _ _).1; [exact Hs|].
  apply process_message_batch_fast_unique, Hs.
Qed.

(** [recover_missing_cards] scans nothing: every row is counted as an
    error and the client is what it was. *)
Lemma recover_missing_cards_skips_all trade_list c :
  recover_missing_cards trade_list c = (c, 0%nat, length trade_list).
Proof.
  unfold recover_missing_cards.
  assert (Hg : forall l p e, fold_left recover_one l (c, p, e) = (c, p, (e + length l)%nat)).
  { induction l as [|x l IH]; intros p e; simpl.
    - f_equal. lia.
    - destruct (negb (py_truthy (dict_get "image_path" x))
                || negb match dict_get "image_path" x with
                        | PyStr p0 => path_exists p0
                        | _ => false
                        end);
        rewrite IH; f_equal; lia. }
  apply Hg.
Qed.

Lemma dict_of_row_has_no_image_path r :
  dict_get "image_path" (dict_of_row r) = PyNone.
Proof.
  unfold dict_get, dict_of_row.
  rewrite !lookup_insert_ne by discriminate. rewrite lookup_empty. reflexivity.
Qed.

Lemma on_ready_unique channel now c :
  unique c -> unique (on_ready channel now c).
Proof.
  intros Hu. unfold on_ready. apply with_initial_scan_done_unique.
  destruct (db_raises CountTrades); [exact Hu|].
  destruct (trades (db_conn c)) eqn:Et.
  - apply perform_historical_scan_streaming_unique, Hu.
  - apply perform_historical_scan_streaming_unique,
      perform_incremental_scan_fast_unique.
    destruct (db_raises SelectReprocess); [exact Hu|].
    rewrite recover_missing_cards_skips_all. exact Hu.
Qed.

Lemma on_message_unique m c : unique c -> unique (on_message m c).
Proof.
  intros Hu. unfold on_message.
  destruct (negb (initial_scan_done c)); [exact Hu|].
  destruct (str_in SEARCH_STRING (content m)); [|exact Hu].
  apply process_message_batch_fast_unique, Hu.
Qed.

Lemma run_session_unique channel now live c :
  unique c -> unique (run_session channel now live c).
Proof.
  intros Hu. unfold run_session.
  apply (fold_left_invariant unique).
  - intros c' m. apply on_message_unique.
  - apply on_ready_unique, Hu.
Qed.

Lemma batch_message_present b m :
  trades_exists (str (id m)) (b_db b) = true -> batch_message b m = b.
Proof.
  intros He. unfold batch_message.
  destruct (negb (str_in SEARCH_STRING (content m))); [reflexivity|].
  destruct (db_raises (DupCheck (str (id m)))); [reflexivity|].
  rewrite He. reflexivity.
Qed.

(** A message whose id is in the table is dropped by the duplicate check
    of the batch path: the table is left as it is. *)
Lemma process_message_batch_fast_present m c :
  trades_exists (str (id m)) (db_conn c) = true ->
  trades (db_conn (process_message_batch_fast [m] c).1) = trades (db_conn c).
Proof.
  intros He.
  unfold process_message_batch_fast. cbn [fold_left fst].
  rewrite batch_message_present by exact He.
  cbn [trades_to_insert tasks_to_run b_db fold_left db_conn with_db].
  unfold insert_batch. destruct (batch_insert_fault []) as [k|]; [|reflexivity].
  destruct k; reflexivity.
Qed.

Lemma on_message_present m c :
  trades_exists (str (id m)) (db_conn c) = true ->
  trades (db_conn (on_message m c)) = trades (db_conn c).
Proof.
  intros He. unfold on_message.
  destruct (negb (initial_scan_done c)); [reflexivity|].
  destruct (str_in SEARCH_STRING (content m)); [|reflexivity].
  apply process_message_batch_fast_present, He.
Qed.

(** In the historical scan a message whose id is in the table inserts no
    row: the insert is ignored and the scan only rewrites the row. *)
Lemma historical_message_present m c :
  trades_exists (str (id m)) (db_conn c) = true ->
  ids (historical_message c m) = ids c.
Proof.
  intros He. unfold historical_message.
  destruct (negb (str_in SEARCH_STRING (content m))); [reflexivity|].
  destruct (extract_trade_data_fast m) as [[trade_data xml_att] img_att] eqn:Ex.
  assert (Hid : td_message_id trade_data = id m).
  { unfold extract_trade_data_fast in Ex. injection Ex as <- _ _. reflexivity. }
  destruct (read_attachments xml_att img_att) as [[xml_bytes image_bytes]|]; [|reflexivity].
  destruct (sync_credentials (td_account_name trade_data) xml_bytes (db_conn c))
    as [d1 xml_path] eqn:Es.
  destruct (_get_or_create_account (td_account_name trade_data) None d1)
    as [d2 account_id] eqn:Ea.
  assert (Hd2 : trades d2 = trades (db_conn c)).
  { change d2 with (d2, account_id).1. rewrite <- Ea, _get_or_create_account_trades.
    change d1 with (d1, xml_path).1. rewrite <- Es. apply sync_credentials_trades. }
  destruct (db_raises (InsertTrade (str (id m)))).
  { unfold ids. cbn [db_conn with_db]. rewrite Hd2. reflexivity. }
  rewrite trades_insert_or_ignore_present.
  2:{ unfold trade_row. cbn [tr_message_id td_message_id]. rewrite Hid.
      unfold trades_exists in *. rewrite Hd2. exact He. }
  destruct (Py.truthy_seq image_bytes).
  - rewrite scan_image_for_cards_ids. unfold ids. cbn [db_conn with_db].
    rewrite Hd2. reflexivity.
  - unfold ids. cbn [db_conn with_db]. rewrite Hd2. reflexivity.
Qed.

End EngineFacts.

(** C1.  Whatever the outside world does, every ingestion path keeps the
    primary key of [trades]: from a table with no two rows of one
    message id, the historical backfill, the incremental catch-up (in
    batches), a live message, and a whole session made of a start-up
    followed by any live messages, all end in a table with no two rows of
    one message id.  A message whose id already has a row inserts no second
    row: the batch and live paths leave the table untouched, the historical
    path keeps the same rows' ids. *)
Theorem ingestion_never_duplicates_trade_rows
        `{Imaging} `{TradeMonitorClient.Outside} (c : TradeMonitorClient.Client) :
  Db.trades_unique (TradeMonitorClient.db_conn c) ->
  (forall channel,
      Db.trades_unique (TradeMonitorClient.db_conn
        (TradeMonitorClient.perform_historical_scan_streaming channel c))) /\
  (forall channel now,
      Db.trades_unique (TradeMonitorClient.db_conn
        (TradeMonitorClient.perform_incremental_scan_fast channel now c))) /\
  (forall msgs,
      Db.trades_unique (TradeMonitorClient.db_conn
        (TradeMonitorClient.process_message_batch_fast msgs c).1)) /\
  (forall m,
      Db.trades_unique (TradeMonitorClient.db_conn (TradeMonitorClient.on_message m c))) /\
  (forall channel now live,
      Db.trades_unique (TradeMonitorClient.db_conn
        (TradeMonitorClient.run_session channel now live c))) /\
  (forall m,
      Db.trades_exists (TradeMonitorClient.str (TradeMonitorClient.id m))
                       (TradeMonitorClient.db_conn c) = true ->
      Db.trades (TradeMonitorClient.db_conn (TradeMonitorClient.on_message m c))
      = Db.trades (TradeMonitorClient.db_conn c) /\
      Db.trades (TradeMonitorClient.db_conn
                   (TradeMonitorClient.process_message_batch_fast [m] c).1)
      = Db.trades (TradeMonitorClient.db_conn c) /\
      TradeMonitorClient.ids (TradeMonitorClient.historical_message c m)
      = TradeMonitorClient.ids c).
Proof.
  intros Hu. repeat split.
  - intros channel. apply perform_historical_scan_streaming_unique, Hu.
  - intros channel now. apply perform_incremental_scan_fast_unique, Hu.
  - intros msgs. apply process_message_batch_fast_unique, Hu.
  - intros m. apply on_message_unique, Hu.
  - intros channel now live. apply run_session_unique, Hu.
  - apply on_message_present. assumption.
  - apply process_message_batch_fast_present. assumption.
  - apply historical_message_present. assumption.
Qed.

(** A session on the empty ledger: the channel of [Samples] holds message
    1001 twice, and the live stream repeats 1003 and brings 1005 twice. *)
Lemma ingestion_never_duplicates_trade_rows_witness :
  Db.trades_unique (TradeMonitorClient.db_conn (Samples.client_of Db.empty)) /\
  Db.trades_unique
    (TradeMonitorClient.db_conn
       (@TradeMonitorClient.run_session Samples.test_imaging Samples.quiet
          (Some Samples.channel1) 100
          [Samples.message 1003; Samples.message 1005; Samples.message 1005]
          (Samples.client_of Db.empty))).
Proof.
  assert (Hu : Db.trades_unique (TradeMonitorClient.db_conn (Samples.client_of Db.empty)))
    by apply NoDup_nil_2.
  split; [exact Hu|].
  destruct (@ingestion_never_duplicates_trade_rows Samples.test_imaging Samples.quiet
              (Samples.client_of Db.empty) Hu) as (_ & _ & _ & _ & Hsession & _).
  apply Hsession.
Defined.

(** The rows that session leaves: one per message id, each recognised. *)
Example session_rows :
  map (fun r => (Db.tr_message_id r, Db.tr_scan_status r))
      (Db.trades
         (TradeMonitorClient.db_conn
            (@TradeMonitorClient.run_session Samples.test_imaging Samples.quiet
               (Some Samples.channel1) 100
               [Samples.message 1003; Samples.message 1005; Samples.message 1005]
               (Samples.client_of Db.empty))))
  = [("1003"%string, 1); ("1001"%string, 1); ("1005"%string, 1)].
Proof. vm_compute. reflexivity. Qed.

(** At start-up the rows in Pending or Failed status are handed to
    [recover_missing_cards], which re-processes none of them: it looks for
    an 'image_path' key that no row of [trades] has, so every row is
    counted as an error, [processed_count] stays 0 and the ledger is not
    touched. *)
Lemma startup_recovery_rescans_nothing
        `{Imaging} `{TradeMonitorClient.Outside} (c : TradeMonitorClient.Client) :
  let rows := Db.trades_to_reprocess (TradeMonitorClient.db_conn c) in
  Forall (fun r => TradeMonitorClient.dict_get "image_path" (TradeMonitorClient.dict_of_row r)
                   = TradeMonitorClient.PyNone) rows /\
  TradeMonitorClient.recover_missing_cards (map TradeMonitorClient.dict_of_row rows) c
  = (c, 0%nat, length rows).
Proof.
  simpl. split.
  - apply Forall_forall. intros r _. apply dict_of_row_has_no_image_path.
  - rewrite recover_missing_cards_skips_all, length_map. reflexivity.
Qed.

(** C5, what the code does instead.  The engine is started on
    [Samples.ledger_interrupted] (message 1000 Failed, message 999 Pending)
    while the channel still holds both messages with recognisable
    screenshots: both rows are selected for recovery, and both are left as
    they were, neither re-processed nor moved to Succeeded.  Scanned as a
    new message, the same screenshot succeeds. *)
Theorem interrupted_trades_are_not_retried :
  Db.trades_to_reprocess Samples.ledger_interrupted = Db.trades Samples.ledger_interrupted /\
  map (fun r => (Db.tr_message_id r, Db.tr_scan_status r))
      (Db.trades
         (TradeMonitorClient.db_conn
            (@TradeMonitorClient.on_ready Samples.test_imaging Samples.quiet
               (Some Samples.channel_interrupted) 100
               (Samples.client_of Samples.ledger_interrupted))))
  = [("1000"%string, 2); ("999"%string, 0)] /\
  map (fun r => (Db.tr_message_id r, Db.tr_scan_status r))
      (Db.trades
         (TradeMonitorClient.db_conn
            (@TradeMonitorClient.on_ready Samples.test_imaging Samples.quiet
               (Some Samples.channel_interrupted) 100
               (Samples.client_of Db.empty))))
  = [("1000"%string, 1); ("999"%string, 1)].
Proof. repeat split; vm_compute; reflexivity. Qed.

(** C8.  Layout detection never raises: when the screenshot cannot be
    turned into a pixel array it returns [None], otherwise each indicator
    row counts 2 or 3 cards and the total is 4, 5 or 6.  With the layout
    unknown [recognize_from_image] returns no result list: it signals
    [ValueError] for the layout [None], which the engine catches, storing
    the trade as Failed (status 2) with an empty result set. *)
Theorem layout_is_unknown_or_4_5_6
        `{Imaging} `{TradeMonitorClient.Outside}
        (c : TradeMonitorClient.Client) (trade_data : TradeMonitorClient.TradeData)
        (image_bytes : list Byte.byte) (source_img : Image) :
  match cvtColor_RGB2BGR source_img with
  | None =>
      CardRecognizer.get_layout_from_image source_img = None /\
      CardRecognizer.recognize_from_image (TradeMonitorClient.card_recognizer c) source_img
      = inl (CardRecognizer.ValueError_layout None)
  | Some cv =>
      let top := DetectLayout.cards_in_row cv DetectLayout.TOP_ROW_CHECK_BOX in
      let bottom := DetectLayout.cards_in_row cv DetectLayout.BOTTOM_ROW_CHECK_BOX in
      (top = 2 \/ top = 3) /\ (bottom = 2 \/ bottom = 3) /\
      CardRecognizer.get_layout_from_image source_img = Some (top + bottom) /\
      (top + bottom = 4 \/ top + bottom = 5 \/ top + bottom = 6) /\
      exists results,
        CardRecognizer.recognize_from_image (TradeMonitorClient.card_recognizer c) source_img
        = inr results
  end /\
  (image_open image_bytes = Some source_img ->
   TradeMonitorClient.recognition_fault image_bytes = TradeMonitorClient.NoFault ->
   CardRecognizer.get_layout_from_image source_img = None ->
   TradeMonitorClient.run_recognition c image_bytes = TradeMonitorClient.Caught /\
   TradeMonitorClient.scan_image_for_cards trade_data image_bytes c
   = if TradeMonitorClient.executor_shutdown c || negb (Py.truthy_seq (Some image_bytes))
     then c
     else TradeMonitorClient.store_scan 2 []
            (TradeMonitorClient.str (TradeMonitorClient.td_message_id trade_data)) c).
Proof.
  split.
  - destruct (cvtColor_RGB2BGR source_img) as [cv|] eqn:Ecv.
    + cbv zeta.
      assert (Hl : CardRecognizer.get_layout_from_image source_img
                   = Some (DetectLayout._get_layout_logic cv)).
      { unfold CardRecognizer.get_layout_from_image. rewrite Ecv. reflexivity. }
      pose proof (_get_layout_logic_range cv) as Hrange.
      split; [apply cards_in_row_2_or_3|]. split; [apply cards_in_row_2_or_3|].
      split; [exact Hl|]. split; [exact Hrange|].
      destruct (LAYOUT_CROP_BOXES_length _ Hrange) as (boxes & Hb & _).
      unfold CardRecognizer.recognize_from_image. rewrite Hl, Hb.
      eexists; reflexivity.
    + assert (Hl : CardRecognizer.get_layout_from_image source_img = None).
      { unfold CardRecognizer.get_layout_from_image. rewrite Ecv. reflexivity. }
      split; [exact Hl|].
      unfold CardRecognizer.recognize_from_image. rewrite Hl. reflexivity.
  - intros Hopen Hfault Hl.
    assert (Hrun : TradeMonitorClient.run_recognition c image_bytes = TradeMonitorClient.Caught).
    { unfold TradeMonitorClient.run_recognition. rewrite Hopen, Hfault.
      unfold CardRecognizer.recognize_from_image. rewrite Hl. reflexivity. }
    split; [exact Hrun|].
    unfold TradeMonitorClient.scan_image_for_cards. rewrite Hrun. reflexivity.
Qed.

(** The undecodable screenshot of [Samples] scanned for the pending trade
    1001: the row becomes Failed with the empty result list. *)
Lemma layout_is_unknown_or_4_5_6_witness :
  map (fun r => (Db.tr_message_id r, Db.tr_scan_status r, Db.tr_scan_results_json r))
      (Db.trades
         (TradeMonitorClient.db_conn
            (@TradeMonitorClient.scan_image_for_cards Samples.test_imaging Samples.quiet
               Samples.trade_data_1001 Samples.bytes_undecodable
               (Samples.client_of Samples.ledger_pending))))
  = [("1001"%string, 2, Some [])].
Proof.
  destruct (@layout_is_unknown_or_4_5_6 Samples.test_imaging Samples.quiet
              (Samples.client_of Samples.ledger_pending) Samples.trade_data_1001
              Samples.bytes_undecodable Samples.screenshot_undecodable)
    as [_ Hengine].
  destruct (Hengine eq_refl eq_refl eq_refl) as [_ ->].
  vm_compute. reflexivity.
Defined.

(** * Further properties of the modelled code *)

(** ** Hamming distance *)

Section HammingFacts.
Import Matcher.

(** The number of positions at which two character lists differ, as the
    equal-length branch of [hamming_distance] counts them. *)
Local Abbreviation mismatches l1 l2 :=
  (length (List.filter (fun cc : Ascii.ascii * Ascii.ascii => negb (Ascii.eqb cc.1 cc.2))
                       (zip l1 l2))).

Lemma length_list_ascii_of_string s :
  length (String.list_ascii_of_string s) = String.length s.
Proof. induction s as [|a s IH]; simpl; [reflexivity | f_equal; exact IH]. Qed.

Lemma list_ascii_of_string_inj s1 s2 :
  String.list_ascii_of_string s1 = String.list_ascii_of_string s2 -> s1 = s2.
Proof.
  revert s2. induction s1 as [|a s1 IH]; intros [|b s2]; simpl; try discriminate.
  - reflexivity.
  - intros [= -> Hs]. f_equal. apply IH, Hs.
Qed.

Lemma mismatches_sym (l1 l2 : list Ascii.ascii) :
  mismatches l1 l2 = mismatches l2 l1.
Proof.
  revert l2. induction l1 as [|a l1 IH]; intros [|b l2]; simpl; try reflexivity.
  rewrite (Ascii.eqb_sym b a). destruct (Ascii.eqb a b); simpl; rewrite IH; reflexivity.
Qed.

Lemma mismatches_le (l1 l2 : list Ascii.ascii) :
  (mismatches l1 l2 <= length l1)%nat.
Proof.
  revert l2. induction l1 as [|a l1 IH]; intros [|b l2]; simpl; try lia.
  specialize (IH l2). destruct (Ascii.eqb a b); simpl; lia.
Qed.

Lemma mismatches_refl (l : list Ascii.ascii) : mismatches l l = 0%nat.
Proof.
  induction l as [|a l IH]; simpl; [reflexivity|].
  rewrite Ascii.eqb_refl. simpl. exact IH.
Qed.

Lemma mismatches_zero (l1 l2 : list Ascii.ascii) :
  length l1 = length l2 -> mismatches l1 l2 = 0%nat -> l1 = l2.
Proof.
  revert l2. induction l1 as [|a l1 IH]; intros [|b l2]; simpl; try discriminate.
  - reflexivity.
  - intros [= Hlen]. destruct (Ascii.eqb_spec a b) as [->|Hne]; simpl.
    + intros H0. f_equal. apply IH; assumption.
    + discriminate.
Qed.

Lemma mismatches_triangle (l1 l2 l3 : list Ascii.ascii) :
  length l1 = length l2 -> length l2 = length l3 ->
  (mismatches l1 l3 <= mismatches l1 l2 + mismatches l2 l3)%nat.
Proof.
  revert l2 l3. induction l1 as [|a l1 IH]; intros [|b l2] [|c l3]; simpl; try lia.
  intros [= H12] [= H23]. specialize (IH l2 l3 H12 H23).
  destruct (Ascii.eqb_spec a c), (Ascii.eqb_spec a b), (Ascii.eqb_spec b c);
    simpl; try lia; congruence.
Qed.

Lemma hamming_distance_equal_length h1 h2 :
  String.length h1 = String.length h2 ->
  hamming_distance h1 h2
  = mismatches (String.list_ascii_of_string h1) (String.list_ascii_of_string h2).
Proof.
  intros Hlen. unfold hamming_distance. rewrite Hlen, Nat.eqb_refl. reflexivity.
Qed.

End HammingFacts.

(** X1.  On fingerprints of one length [hamming_distance] is a metric: it is
    symmetric, at most the length, zero exactly between equal fingerprints,
    and satisfies the triangle inequality. *)
Theorem hamming_distance_is_a_metric (h1 h2 h3 : string) :
  String.length h1 = String.length h2 ->
  String.length h2 = String.length h3 ->
  Matcher.hamming_distance h1 h2 = Matcher.hamming_distance h2 h1 /\
  (Matcher.hamming_distance h1 h2 <= String.length h1)%nat /\
  (Matcher.hamming_distance h1 h2 = 0%nat <-> h1 = h2) /\
  (Matcher.hamming_distance h1 h3
   <= Matcher.hamming_distance h1 h2 + Matcher.hamming_distance h2 h3)%nat.
Proof.
  intros H12 H23.
  assert (H13 : String.length h1 = String.length h3) by congruence.
  rewrite !hamming_distance_equal_length by congruence.
  repeat split.
  - apply mismatches_sym.
  - rewrite <- length_list_ascii_of_string. apply mismatches_le.
  - intros H0. apply list_ascii_of_string_inj, mismatches_zero; [|exact H0].
    rewrite !length_list_ascii_of_string. exact H12.
  - intros ->. apply mismatches_refl.
  - apply mismatches_triangle; rewrite !length_list_ascii_of_string; assumption.
Qed.

(** Three fingerprints of four bits. *)
Lemma hamming_distance_is_a_metric_witness :
  String.length "0011" = String.length "0101" /\
  String.length "0101" = String.length "1111" /\
  (Matcher.hamming_distance "0011" "1111"
   <= Matcher.hamming_distance "0011" "0101" + Matcher.hamming_distance "0101" "1111")%nat.
Proof.
  split; [reflexivity|]. split; [reflexivity|].
  destruct (hamming_distance_is_a_metric "0011" "0101" "1111" eq_refl eq_refl)
    as (_ & _ & _ & Htri).
  exact Htri.
Defined.

(** ** The best match *)

Section BestMatchFacts.
Import Matcher.

Lemma Qlt_bool_iff x y : Qlt_bool x y = true <-> (x < y)%Q.
Proof.
  unfold Qlt_bool. destruct (Qle_bool y x) eqn:E; simpl.
  - apply Qle_bool_iff in E. split; [discriminate | intros; lra].
  - split; [intros _|reflexivity].
    destruct (Qlt_le_dec x y) as [Hlt|Hle]; [exact Hlt|].
    apply Qle_bool_iff in Hle. congruence.
Qed.

(** What the scan loop ends with: either nothing beat the state it started
    from, or the winner is a template of the list that beats everything
    before it strictly and everything after it weakly. *)
Lemma scan_best_max source_hash ts (acc : Best) bm mx :
  fold_left (scan_step source_hash) ts (Some acc) = Some (bm, mx) ->
  (bm = acc.1 /\ mx = acc.2 /\
   forall t sim, t ∈ ts -> similarity_of source_hash t = Some sim -> (sim <= acc.2)%Q)
  \/
  (exists pre t post sim,
      ts = pre ++ t :: post /\
      similarity_of source_hash t = Some sim /\
      bm = Some (t, round2 sim) /\ mx = sim /\ (acc.2 < sim)%Q /\
      (forall t' sim', t' ∈ pre -> similarity_of source_hash t' = Some sim' -> (sim' < sim)%Q) /\
      (forall t' sim', t' ∈ post -> similarity_of source_hash t' = Some sim' -> (sim' <= sim)%Q)).
Proof.
  revert acc. induction ts as [|t0 ts IH]; intros [bm0 mx0]; simpl.
  - intros [= <- <-]. left. repeat split. intros t sim Hin. inversion Hin.
  - destruct (similarity_of source_hash t0) as [sim0|] eqn:Es;
      [|rewrite scan_raised; discriminate].
    destruct (Qlt_bool mx0 sim0) eqn:El; intros Hf; apply IH in Hf; simpl in Hf.
    + apply Qlt_bool_iff in El. right.
      destruct Hf as [(-> & -> & Hrest) | (pre & t & post & sim & -> & Hs & -> & -> & Hlt & Hpre & Hpost)].
      * exists [], t0, ts, sim0. repeat split; auto.
        intros t' sim' Hin. inversion Hin.
      * exists (t0 :: pre), t, post, sim. repeat split; auto; [lra|].
        intros t' sim' Hin Hs'. apply elem_of_cons in Hin as [->|Hin];
          [|eapply Hpre; eassumption].
        rewrite Es in Hs'. injection Hs' as <-. exact Hlt.
    + assert (Hle : (sim0 <= mx0)%Q).
      { destruct (Qlt_le_dec mx0 sim0) as [Hlt|Hle]; [|exact Hle].
        apply Qlt_bool_iff in Hlt. congruence. }
      destruct Hf as [(-> & -> & Hrest) | (pre & t & post & sim & -> & Hs & -> & -> & Hlt & Hpre & Hpost)].
      * left. repeat split. intros t sim Hin Hs.
        apply elem_of_cons in Hin as [->|Hin]; [|eapply Hrest; eassumption].
        rewrite Es in Hs. injection Hs as <-. exact Hle.
      * right. exists (t0 :: pre), t, post, sim. repeat split; auto.
        intros t' sim' Hin Hs'. apply elem_of_cons in Hin as [->|Hin];
          [|eapply Hpre; eassumption].
        rewrite Es in Hs'. injection Hs' as <-. lra.
Qed.

Lemma m_similarity_extend details (b : Template * Q) :
  m_similarity (extend details b) = b.2.
Proof. unfold extend. destruct (details (t_card_id b.1)); reflexivity. Qed.

Lemma m_hash_extend details (b : Template * Q) :
  m_hash (extend details b) = t_hash b.1.
Proof. unfold extend. destruct (details (t_card_id b.1)); reflexivity. Qed.

(** A similarity never exceeds 100. *)
Lemma similarity_of_le_100 source_hash t sim :
  similarity_of source_hash t = Some sim -> (sim <= 100)%Q.
Proof.
  unfold similarity_of.
  destruct (String.length (t_hash t)) as [|m] eqn:Em; [discriminate|].
  intros [= <-]. rewrite Qred_correct.
  set (d := Z.of_nat (hamming_distance source_hash (t_hash t))).
  set (mm := Z.of_nat (S m)).
  assert (Hm : (0 < inject_Z mm)%Q).
  { change 0%Q with (inject_Z 0). rewrite <- Zlt_Qlt. unfold mm. lia. }
  assert (Hd : (0 <= inject_Z d)%Q).
  { change 0%Q with (inject_Z 0). rewrite <- Zle_Qle. unfold d. lia. }
  assert (H0 : (0 <= inject_Z d / inject_Z mm)%Q).
  { apply Qle_shift_div_l; [exact Hm|]. lra. }
  lra.
Qed.

(** The similarity of a fingerprint to itself is exactly 100. *)
Lemma similarity_of_self t :
  t_hash t <> ""%string -> similarity_of (t_hash t) t = Some 100%Q.
Proof.
  intros Hne. unfold similarity_of.
  rewrite hamming_distance_equal_length, mismatches_refl by reflexivity.
  destruct (String.length (t_hash t)) as [|m] eqn:Em.
  - destruct (t_hash t); [congruence | discriminate].
  - f_equal. transitivity (Qred 100); [|reflexivity].
    apply Qred_complete. change (inject_Z (Z.of_nat 0)) with 0%Q.
    unfold Qdiv. rewrite Qmult_0_l. ring.
Qed.

End BestMatchFacts.

Section BestMatchMore.
Import Matcher.

Lemma similarity_of_canonical source_hash t sim :
  similarity_of source_hash t = Some sim -> Qred sim = sim.
Proof.
  unfold similarity_of. destruct (String.length (t_hash t)); [discriminate|].
  intros [= <-]. apply Qred_complete, Qred_correct.
Qed.

(** Similarity 100 means distance 0. *)
Lemma similarity_100_distance source_hash t :
  similarity_of source_hash t = Some 100%Q ->
  hamming_distance source_hash (t_hash t) = 0%nat.
Proof.
  unfold similarity_of.
  destruct (String.length (t_hash t)) as [|m] eqn:Em; [discriminate|].
  intros [= Hs].
  destruct (hamming_distance source_hash (t_hash t)) as [|d]; [reflexivity|].
  exfalso.
  assert (Hq : (Qred (100 - inject_Z (Z.of_nat (S d)) / inject_Z (Z.of_nat (S m)) * 100)
                == 100)%Q) by (rewrite Hs; reflexivity).
  rewrite Qred_correct in Hq.
  assert (Hm : (0 < inject_Z (Z.of_nat (S m)))%Q).
  { change 0%Q with (inject_Z 0). rewrite <- Zlt_Qlt. lia. }
  assert (Hd : (0 < inject_Z (Z.of_nat (S d)))%Q).
  { change 0%Q with (inject_Z 0). rewrite <- Zlt_Qlt. lia. }
  assert (Hpos : (0 < inject_Z (Z.of_nat (S d)) / inject_Z (Z.of_nat (S m)))%Q).
  { apply Qlt_shift_div_l; [exact Hm|]. lra. }
  lra.
Qed.

Lemma distance_zero_equal source_hash h :
  source_hash <> ""%string -> hamming_distance source_hash h = 0%nat -> source_hash = h.
Proof.
  intros Hne H0.
  destruct (Nat.eq_dec (String.length source_hash) (String.length h)) as [Hlen|Hlen].
  - rewrite hamming_distance_equal_length in H0 by exact Hlen.
    apply list_ascii_of_string_inj, mismatches_zero; [|exact H0].
    rewrite !length_list_ascii_of_string. exact Hlen.
  - rewrite hamming_distance_mismatch in H0 by exact Hlen.
    destruct source_hash; [congruence | discriminate].
Qed.

End BestMatchMore.

(** X2.  When [_find_best_match] returns a match, it is the template of
    greatest similarity, and among templates of that similarity the first
    of the corpus: every earlier template is strictly less similar, every
    later one at most as similar.  The match carries that template's
    fingerprint and its similarity rounded to two decimals, and the
    similarity exceeds -1. *)
Theorem best_match_is_first_maximum
        (ts : list Matcher.Template) (details : Z -> Matcher.DetailsLookup)
        (source_hash : string) (m : Matcher.Match) :
  Matcher._find_best_match ts details source_hash = Some (Some m) ->
  exists pre t post sim,
    ts = pre ++ t :: post /\
    Matcher.similarity_of source_hash t = Some sim /\
    Matcher.m_hash m = Matcher.t_hash t /\
    Matcher.m_similarity m = Matcher.round2 sim /\
    (-1 < sim)%Q /\
    (forall t' sim', t' ∈ pre -> Matcher.similarity_of source_hash t' = Some sim' ->
                     (sim' < sim)%Q) /\
    (forall t' sim', t' ∈ post -> Matcher.similarity_of source_hash t' = Some sim' ->
                     (sim' <= sim)%Q).
Proof.
  unfold Matcher._find_best_match, Matcher.scan_templates.
  destruct (fold_left _ ts _) as [[bm mx]|] eqn:Ef; [|discriminate].
  apply scan_best_max in Ef
      as [(-> & _ & _) | (pre & t & post & sim & -> & Hs & -> & _ & Hlt & Hpre & Hpost)];
    simpl; [discriminate|].
  intros [= <-]. exists pre, t, post, sim.
  rewrite m_similarity_extend, m_hash_extend. simpl. repeat split; auto.
Qed.

(** Two templates at the same distance from the query: the first one is
    returned. *)
Lemma best_match_is_first_maximum_witness :
  exists m,
    Matcher._find_best_match
      [Samples.template1; Matcher.mkTemplate 8 "Raichu" "002" "A1" None "00000011"]
      Samples.no_details "00000001" = Some (Some m) /\
    Matcher.m_card_id m = 7.
Proof.
  eexists. split; [vm_compute; reflexivity|].
  destruct (best_match_is_first_maximum
              [Samples.template1; Matcher.mkTemplate 8 "Raichu" "002" "A1" None "00000011"]
              Samples.no_details "00000001" _ eq_refl) as (pre & t & post & sim & _).
  reflexivity.
Defined.

(** X3.  With no empty template fingerprint, [_find_best_match] answers
    "no match" exactly when no template's similarity exceeds -1; in
    particular it does so on the empty corpus. *)
Theorem no_match_iff_nothing_above_minus_one
        (ts : list Matcher.Template) (details : Z -> Matcher.DetailsLookup)
        (source_hash : string) :
  Forall (fun t => Matcher.t_hash t <> ""%string) ts ->
  (Matcher._find_best_match ts details source_hash = Some None
   <-> forall t sim, t ∈ ts -> Matcher.similarity_of source_hash t = Some sim ->
                     (sim <= -1)%Q) /\
  Matcher._find_best_match [] details source_hash = Some None.
Proof.
  intros Hts. split; [|reflexivity].
  unfold Matcher._find_best_match, Matcher.scan_templates.
  destruct (scan_total source_hash ts (None, (-1)%Q) Hts) as [[bm mx] Ef].
  rewrite Ef.
  apply scan_best_max in Ef
      as [(-> & _ & Hall) | (pre & t & post & sim & -> & Hs & -> & _ & Hlt & Hpre & Hpost)];
    simpl in *.
  - split; [intros _; exact Hall | reflexivity].
  - split; [discriminate|]. intros Hall. exfalso.
    assert (sim <= -1)%Q; [|lra].
    apply (Hall t); [|exact Hs]. apply elem_of_app. right. apply list_elem_of_here.
Qed.

(** A nine-character query against the eight-character corpus. *)
Lemma no_match_iff_nothing_above_minus_one_witness :
  Forall (fun t => Matcher.t_hash t <> ""%string) [Samples.template1] /\
  Matcher._find_best_match [] Samples.no_details "000000000" = Some None.
Proof.
  assert (Hf : Forall (fun t => Matcher.t_hash t <> ""%string) [Samples.template1])
    by (repeat constructor; discriminate).
  split; [exact Hf|].
  apply (no_match_iff_nothing_above_minus_one [Samples.template1] Samples.no_details
           "000000000" Hf).
Defined.

(** X4.  A query equal to the fingerprint of a template of the corpus is
    matched at similarity exactly 100, to a template with that very
    fingerprint. *)
Theorem exact_fingerprint_matches_at_100
        (ts : list Matcher.Template) (details : Z -> Matcher.DetailsLookup)
        (t : Matcher.Template) :
  Forall (fun t' => Matcher.t_hash t' <> ""%string) ts ->
  t ∈ ts ->
  exists m,
    Matcher._find_best_match ts details (Matcher.t_hash t) = Some (Some m) /\
    Matcher.m_similarity m = 100%Q /\
    Matcher.m_hash m = Matcher.t_hash t.
Proof.
  intros Hts Hin.
  assert (Hne : Matcher.t_hash t <> ""%string)
    by (rewrite Forall_forall in Hts; apply Hts, Hin).
  pose proof (similarity_of_self t Hne) as Hself.
  unfold Matcher._find_best_match, Matcher.scan_templates.
  destruct (scan_total (Matcher.t_hash t) ts (None, (-1)%Q) Hts) as [[bm mx] Ef].
  rewrite Ef.
  apply scan_best_max in Ef
      as [(-> & _ & Hall) | (pre & t' & post & sim & -> & Hs & -> & _ & Hlt & Hpre & Hpost)];
    simpl in *.
  - exfalso. specialize (Hall t 100%Q Hin Hself). lra.
  - assert (Hge : (100 <= sim)%Q).
    { apply elem_of_app in Hin as [Hin|Hin].
      - specialize (Hpre t 100%Q Hin Hself).
        pose proof (similarity_of_le_100 _ _ _ Hs). lra.
      - apply elem_of_cons in Hin as [->|Hin].
        + rewrite Hself in Hs. injection Hs as <-. lra.
        + apply (Hpost t 100%Q Hin Hself). }
    pose proof (similarity_of_le_100 _ _ _ Hs) as Hle.
    assert (Hsim : sim = 100%Q).
    { rewrite <- (similarity_of_canonical _ _ _ Hs).
      transitivity (Qred 100); [|reflexivity].
      apply Qred_complete. lra. }
    subst sim.
    eexists. split; [reflexivity|].
    rewrite m_similarity_extend, m_hash_extend. simpl. split; [reflexivity|].
    symmetry. apply distance_zero_equal; [exact Hne|].
    apply similarity_100_distance, Hs.
Qed.

(** The fingerprint of the template of [Samples] as the query. *)
Lemma exact_fingerprint_matches_at_100_witness :
  Samples.template1 ∈ [Samples.template1] /\
  exists m,
    Matcher._find_best_match [Samples.template1] Samples.no_details "00000000"
    = Some (Some m) /\
    Matcher.m_similarity m = 100%Q.
Proof.
  assert (Hin : Samples.template1 ∈ [Samples.template1]) by apply list_elem_of_here.
  split; [exact Hin|].
  destruct (exact_fingerprint_matches_at_100 [Samples.template1] Samples.no_details
              Samples.template1 ltac:(repeat constructor; discriminate) Hin)
    as (m & Hm & H100 & _).
  exists m. split; [exact Hm | exact H100].
Defined.

(** ** Layout detection on small and on uniform images *)

Section LayoutFacts.
Import DetectLayout.

Lemma drop_repeat {A} (x : A) (n m : nat) : drop n (repeat x m) = repeat x (m - n).
Proof.
  revert m. induction n as [|n IH]; intros [|m]; simpl; try reflexivity.
  apply IH.
Qed.

Lemma take_repeat {A} (x : A) (n m : nat) : take n (repeat x m) = repeat x (Nat.min n m).
Proof.
  revert m. induction n as [|n IH]; intros [|m]; simpl; try reflexivity.
  f_equal. apply IH.
Qed.

Lemma slice_repeat {A} (x : A) (i j m : nat) :
  (j <= m)%nat -> slice i j (repeat x m) = repeat x (j - i).
Proof.
  intros Hj. unfold slice. rewrite drop_repeat, take_repeat. f_equal. lia.
Qed.

Lemma cards_in_row_empty cv (box : nat * nat * nat * nat) :
  roi cv box.1.1.1 box.1.1.2 box.1.2 box.2 = [] -> cards_in_row cv box = 3.
Proof.
  destruct box as [[[x1 y1] x2] y2]. simpl. unfold cards_in_row. intros ->. reflexivity.
Qed.

Lemma roi_short cv x1 y1 x2 y2 :
  (length cv <= y1)%nat -> roi cv x1 y1 x2 y2 = [].
Proof.
  intros Hlen. unfold roi, slice. rewrite drop_ge by exact Hlen.
  rewrite take_nil. reflexivity.
Qed.

Lemma roi_narrow cv x1 y1 x2 y2 :
  Forall (fun row => (length row <= x1)%nat) cv -> roi cv x1 y1 x2 y2 = [].
Proof.
  intros Hrows. unfold roi.
  assert (Hs : Forall (fun row => (length row <= x1)%nat) (slice y1 y2 cv)).
  { unfold slice. apply Forall_take, Forall_drop, Hrows. }
  induction Hs as [|row rows Hrow _ IH]; simpl; [reflexivity|].
  rewrite IH, app_nil_r. unfold slice. rewrite drop_ge by exact Hrow.
  apply take_nil.
Qed.

(** The mean of a region of one colour, compared with integer bounds. *)
Lemma in_range_uniform (p : Pixel) (n : nat) :
  (0 < n)%nat ->
  is_color_in_range (mean (repeat p n)) TARGET_GRAY_BGR COLOR_TOLERANCE
  = (239 <=? p.1.1) && (p.1.1 <=? 245)
    && ((229 <=? p.1.2) && (p.1.2 <=? 235))
    && ((219 <=? p.2) && (p.2 <=? 225)).
Proof.
  intros Hn. destruct n as [|n]; [lia|].
  assert (Hsum : forall k m, foldr Z.add 0 (map (fun q => nth k (channels q) 0) (repeat p m))
                             = Z.of_nat m * nth k (channels p) 0).
  { intros k m. induction m as [|m IH]; [reflexivity|].
    change (repeat p (S m)) with (p :: repeat p m). cbn [map foldr]. rewrite IH. lia. }
  assert (Hch : forall k lo hi,
             match mean_channel k (repeat p (S n)) with
             | Some avg => Qle_bool (inject_Z lo) avg && Qle_bool avg (inject_Z hi)
             | None => false
             end = (lo <=? nth k (channels p) 0) && (nth k (channels p) 0 <=? hi)).
  { intros k lo hi. unfold mean_channel.
    change (repeat p (S n)) with (p :: repeat p n) at 1.
    rewrite Hsum, repeat_length.
    set (v := nth k (channels p) 0).
    assert (Hv : (Qred (Z.of_nat (S n) * v # Pos.of_nat (S n)) == inject_Z v)%Q).
    { rewrite Qred_correct. unfold Qeq, inject_Z. cbn [Qnum Qden].
      rewrite <- Pos.of_nat_succ, Zpos_P_of_succ_nat. lia. }
    rewrite Hv.
    f_equal.
    - destruct (Z.leb_spec lo v) as [Hle|Hgt].
      + apply Qle_bool_iff. rewrite <- Zle_Qle. exact Hle.
      + destruct (Qle_bool (inject_Z lo) (inject_Z v)) eqn:E; [|reflexivity].
        apply Qle_bool_iff in E. rewrite <- Zle_Qle in E. lia.
    - destruct (Z.leb_spec v hi) as [Hle|Hgt].
      + apply Qle_bool_iff. rewrite <- Zle_Qle. exact Hle.
      + destruct (Qle_bool (inject_Z v) (inject_Z hi)) eqn:E; [|reflexivity].
        apply Qle_bool_iff in E. rewrite <- Zle_Qle in E. lia. }
  unfold is_color_in_range, mean, TARGET_GRAY_BGR, COLOR_TOLERANCE.
  cbn [zip_with forallb fst snd].
  rewrite (Hch 0%nat (242 - 3) (242 + 3)), (Hch 1%nat (232 - 3) (232 + 3)),
    (Hch 2%nat (222 - 3) (222 + 3)).
  destruct p as [[b g] r]. cbn [channels nth fst snd].
  rewrite andb_true_r, !andb_assoc. reflexivity.
Qed.

Lemma roi_uniform (p : Pixel) (w h x1 y1 x2 y2 : nat) :
  (x2 <= w)%nat -> (y2 <= h)%nat ->
  roi (repeat (repeat p w) h) x1 y1 x2 y2 = repeat p ((y2 - y1) * (x2 - x1)).
Proof.
  intros Hw Hh. unfold roi. rewrite slice_repeat by exact Hh.
  induction (y2 - y1)%nat as [|k IH]; simpl; [reflexivity|].
  rewrite IH, slice_repeat by exact Hw. symmetry. apply repeat_app.
Qed.

End LayoutFacts.

(** X5.  A screenshot too small to contain the indicator boxes, fewer than
    28 rows or no row wider than 119 pixels, is classified as six cards:
    both regions are empty and an empty region is never background
    coloured. *)
Theorem small_image_is_six_cards (cv : DetectLayout.CvImage) :
  (length cv <= 27)%nat \/ Forall (fun row => (length row <= 119)%nat) cv ->
  DetectLayout._get_layout_logic cv = 6.
Proof.
  intros Hsmall. unfold DetectLayout._get_layout_logic.
  rewrite !cards_in_row_empty; [reflexivity| |]; simpl;
    (destruct Hsmall as [Hrows|Hcols];
     [apply roi_short; lia | apply roi_narrow; exact Hcols]).
Qed.

(** The empty pixel array. *)
Lemma small_image_is_six_cards_witness :
  ((length ([] : DetectLayout.CvImage) <= 27)%nat
   \/ Forall (fun row : list DetectLayout.Pixel => (length row <= 119)%nat) [])
  /\ DetectLayout._get_layout_logic [] = 6.
Proof.
  assert (Hs : (length ([] : DetectLayout.CvImage) <= 27)%nat
               \/ Forall (fun row : list DetectLayout.Pixel => (length row <= 119)%nat) [])
    by (left; simpl; lia).
  split; [exact Hs|]. apply (small_image_is_six_cards [] Hs).
Defined.

(** X6.  A screenshot of one colour, at least 123 pixels wide and 147 high,
    is classified as four cards when each channel of the colour is within
    3 of the background tone (B 242, G 232, R 222), bounds included, and as
    six cards otherwise. *)
Theorem uniform_image_layout (b g r : Z) (w h : nat) :
  (123 <= w)%nat -> (147 <= h)%nat ->
  DetectLayout._get_layout_logic (repeat (repeat (b, g, r) w) h)
  = if (239 <=? b) && (b <=? 245) && ((229 <=? g) && (g <=? 235))
       && ((219 <=? r) && (r <=? 225))
    then 4 else 6.
Proof.
  intros Hw Hh. unfold DetectLayout._get_layout_logic, DetectLayout.cards_in_row,
    DetectLayout.TOP_ROW_CHECK_BOX, DetectLayout.BOTTOM_ROW_CHECK_BOX.
  rewrite !roi_uniform by lia.
  rewrite !in_range_uniform by lia. simpl fst. simpl snd.
  destruct ((239 <=? b) && (b <=? 245) && ((229 <=? g) && (g <=? 235))
            && ((219 <=? r) && (r <=? 225))); reflexivity.
Qed.

(** A 240 x 180 screenshot at the upper bound of the tolerance on every
    channel. *)
Lemma uniform_image_layout_witness :
  (123 <= 240)%nat /\ (147 <= 180)%nat /\
  DetectLayout._get_layout_logic (repeat (repeat (245, 235, 225) 240) 180) = 4.
Proof.
  split; [lia|]. split; [lia|].
  rewrite (uniform_image_layout 245 235 225 240 180) by lia. reflexivity.
Defined.

(** ** Message ids as text *)

(** X7.  The text stored as a trade's key determines the message id:
    casting [str(message.id)] back to an integer, as the MIN and MAX
    queries do, gives the id again, so distinct ids are stored under
    distinct keys. *)
Theorem message_id_text_round_trip (z : Z) :
  TradeMonitorClient.cast_integer (TradeMonitorClient.str z) = z /\
  (forall z', TradeMonitorClient.str z = TradeMonitorClient.str z' -> z = z').
Proof.
  assert (Hrt : forall x, TradeMonitorClient.cast_integer (TradeMonitorClient.str x) = x).
  { intros x. unfold TradeMonitorClient.cast_integer, TradeMonitorClient.str.
    rewrite NilZero.isi.
    - apply DecimalZ.of_to.
    - destruct x; simpl; try discriminate.
      intros [= E]. revert E. apply Unsigned.to_uint_nonnil.
    - destruct x; simpl; try discriminate.
      intros [= E]. revert E. apply Unsigned.to_uint_nonnil. }
  split; [apply Hrt|].
  intros z' E. rewrite <- (Hrt z), <- (Hrt z'), E. reflexivity.
Qed.

(** ** Scans, batches and accounts *)

Section ScanFacts.
Context `{Imaging} `{TradeMonitorClient.Outside}.
Import Db TradeMonitorClient.

Lemma trades_update_scan_row status results mid d r :
  r ∈ trades (trades_update_scan status results mid d) ->
  tr_message_id r = mid ->
  tr_scan_status r = status /\ tr_scan_results_json r = Some results.
Proof.
  unfold trades_update_scan. simpl. intros Hin Hid.
  apply list_elem_of_In, in_map_iff in Hin as (r0 & Hr & _).
  unfold tr_has_id in Hr. destruct (String.eqb_spec (tr_message_id r0) mid) as [E|E].
  - subst r. auto.
  - subst r. contradiction.
Qed.

Lemma trades_update_scan_frame status results mid d :
  List.filter (fun r => negb (tr_has_id mid r)) (trades (trades_update_scan status results mid d))
  = List.filter (fun r => negb (tr_has_id mid r)) (trades d).
Proof.
  unfold trades_update_scan. simpl.
  induction (trades d) as [|r l IH]; simpl; [reflexivity|].
  destruct (tr_has_id mid r) eqn:E; simpl.
  - unfold tr_has_id in *. simpl. rewrite E. simpl. exact IH.
  - rewrite E. simpl. f_equal. exact IH.
Qed.

(** With the executor running and no error on the UPDATE, a scan that
    returns or times out ends in [store_scan] with status 1 or 2. *)
Lemma scan_image_for_cards_stores trade_data image_bytes c :
  executor_shutdown c = false ->
  image_bytes <> [] ->
  recognition_fault image_bytes = NoFault \/ recognition_fault image_bytes = TimeoutError ->
  exists status results,
    (status = 1 \/ status = 2) /\
    (recognition_fault image_bytes = TimeoutError -> status = 2 /\ results = []) /\
    scan_image_for_cards trade_data image_bytes c
    = store_scan status results (str (td_message_id trade_data)) c.
Proof.
  intros Hrun Hbytes Hfault. unfold scan_image_for_cards. rewrite Hrun.
  destruct image_bytes as [|b0 bs]; [congruence|]. cbn [Py.truthy_seq negb orb].
  unfold run_recognition.
  destruct (image_open (b0 :: bs)) as [img|].
  - destruct Hfault as [-> | ->].
    + destruct (CardRecognizer.recognize_from_image (card_recognizer c) img) as [e|results].
      * exists 2, []. repeat split; auto.
      * exists 1, results. repeat split; auto; discriminate.
    + exists 2, []. repeat split; auto.
  - exists 2, []. repeat split; auto.
Qed.

Lemma fold_batch_message_trades msgs b :
  trades (b_db (fold_left batch_message msgs b)) = trades (b_db b).
Proof.
  revert b. induction msgs as [|m msgs IH]; intros b; simpl; [reflexivity|].
  rewrite IH. apply batch_message_trades.
Qed.

(** Every row the batch loop queues comes from a message that carries the
    marker, under that message's id. *)
Lemma batch_message_rows (P : TradeRow -> Prop) b m :
  (forall r, str_in SEARCH_STRING (content m) = true ->
             tr_message_id r = str (id m) -> P r) ->
  Forall P (trades_to_insert b) -> Forall P (trades_to_insert (batch_message b m)).
Proof.
  intros HP Hb. unfold batch_message.
  destruct (str_in SEARCH_STRING (content m)) eqn:Em; [|exact Hb]. cbn [negb].
  destruct (db_raises (DupCheck (str (id m)))); [exact Hb|].
  destruct (trades_exists (str (id m)) (b_db b)); [exact Hb|].
  destruct (extract_trade_data_fast m) as [[trade_data xml_att] img_att] eqn:Ex.
  assert (Hid : td_message_id trade_data = id m).
  { unfold extract_trade_data_fast in Ex. injection Ex as <- _ _. reflexivity. }
  destruct (read_attachments xml_att img_att) as [[xml_bytes image_bytes]|]; [|exact Hb].
  destruct (sync_credentials _ _ _) as [d1 xml_path].
  destruct (_get_or_create_account _ _ _) as [d2 account_id].
  cbn [trades_to_insert]. apply Forall_app. split; [exact Hb|].
  constructor; [|constructor]. apply HP; [reflexivity|].
  unfold trade_row. cbn [tr_message_id td_message_id]. rewrite Hid. reflexivity.
Qed.

Lemma insert_rows_ids rows d mid :
  mid ∈ map tr_message_id (trades (fold_left (fun d' r => trades_insert_or_ignore r d') rows d)) ->
  mid ∈ map tr_message_id (trades d) \/ mid ∈ map tr_message_id rows.
Proof.
  revert d. induction rows as [|r rows IH]; intros d; simpl; [auto|].
  intros Hin. apply IH in Hin as [Hin|Hin]; [|right; apply list_elem_of_further, Hin].
  unfold trades_insert_or_ignore in Hin.
  destruct (trades_exists (tr_message_id r) d); [left; exact Hin|].
  simpl in Hin. rewrite List.map_app in Hin. apply elem_of_app in Hin as [Hin|Hin].
  - left. exact Hin.
  - right. simpl in Hin. apply list_elem_of_singleton in Hin. subst mid.
    apply list_elem_of_here.
Qed.

Lemma fold_scans_ids tasks c :
  ids (fold_left (fun c' (task : TradeData * list Byte.byte) =>
                    scan_image_for_cards task.1 task.2 c') tasks c) = ids c.
Proof.
  revert c. induction tasks as [|task tasks IH]; intros c; simpl; [reflexivity|].
  rewrite IH. apply scan_image_for_cards_ids.
Qed.

End ScanFacts.

(** X8.  While the executor runs and the UPDATE does not fail, a scan that
    returns or times out settles its trade: every row of that message id
    ends with status 1 or 2 and a stored result list, never Pending; after
    a timeout the status is 2 and the result list is empty.  Rows of other
    messages are not touched, and no row is added or removed. *)
Theorem scan_settles_the_trade
        `{Imaging} `{TradeMonitorClient.Outside}
        (trade_data : TradeMonitorClient.TradeData) (image_bytes : list Byte.byte)
        (c : TradeMonitorClient.Client) :
  TradeMonitorClient.executor_shutdown c = false ->
  image_bytes <> [] ->
  TradeMonitorClient.recognition_fault image_bytes = TradeMonitorClient.NoFault
  \/ TradeMonitorClient.recognition_fault image_bytes = TradeMonitorClient.TimeoutError ->
  TradeMonitorClient.db_raises
    (TradeMonitorClient.UpdateScan
       (TradeMonitorClient.str (TradeMonitorClient.td_message_id trade_data))) = false ->
  let mid := TradeMonitorClient.str (TradeMonitorClient.td_message_id trade_data) in
  let c' := TradeMonitorClient.scan_image_for_cards trade_data image_bytes c in
  (forall r, r ∈ Db.trades (TradeMonitorClient.db_conn c') ->
             Db.tr_message_id r = mid ->
             (Db.tr_scan_status r = 1 \/ Db.tr_scan_status r = 2) /\
             is_Some (Db.tr_scan_results_json r) /\
             (TradeMonitorClient.recognition_fault image_bytes = TradeMonitorClient.TimeoutError ->
              Db.tr_scan_status r = 2 /\ Db.tr_scan_results_json r = Some [])) /\
  List.filter (fun r => negb (Db.tr_has_id mid r)) (Db.trades (TradeMonitorClient.db_conn c'))
  = List.filter (fun r => negb (Db.tr_has_id mid r)) (Db.trades (TradeMonitorClient.db_conn c)) /\
  TradeMonitorClient.ids c' = TradeMonitorClient.ids c.
Proof.
  intros Hrun Hbytes Hfault Hupd mid c'.
  destruct (scan_image_for_cards_stores trade_data image_bytes c Hrun Hbytes Hfault)
    as (status & results & Hst & Htimeout & Hscan).
  subst c' mid. rewrite Hscan. unfold TradeMonitorClient.store_scan. rewrite Hupd.
  cbn [TradeMonitorClient.db_conn TradeMonitorClient.with_db].
  split; [|split].
  - intros r Hin Hid.
    destruct (trades_update_scan_row _ _ _ _ _ Hin Hid) as [Hs Hr].
    rewrite Hs, Hr. split; [exact Hst|]. split; [eexists; reflexivity|].
    intros Ht. destruct (Htimeout Ht) as [-> ->]. auto.
  - apply trades_update_scan_frame.
  - unfold TradeMonitorClient.ids. cbn [TradeMonitorClient.db_conn TradeMonitorClient.with_db].
    apply trades_update_scan_ids.
Qed.

(** The pending trade 1001 of [Samples] scanned with the screenshot of
    scenario A. *)
Lemma scan_settles_the_trade_witness :
  TradeMonitorClient.executor_shutdown (Samples.client_of Samples.ledger_pending) = false /\
  TradeMonitorClient.ids
    (@TradeMonitorClient.scan_image_for_cards Samples.test_imaging Samples.quiet
       Samples.trade_data_1001 Samples.bytes_a
       (Samples.client_of Samples.ledger_pending))
  = TradeMonitorClient.ids (Samples.client_of Samples.ledger_pending) /\
  map Db.tr_scan_status
      (Db.trades
         (TradeMonitorClient.db_conn
            (@TradeMonitorClient.scan_image_for_cards Samples.test_imaging Samples.quiet
               Samples.trade_data_1001 Samples.bytes_a
               (Samples.client_of Samples.ledger_pending))))
  = [1].
Proof.
  split; [reflexivity|]. split; [|vm_compute; reflexivity].
  apply (@scan_settles_the_trade Samples.test_imaging Samples.quiet
           Samples.trade_data_1001 Samples.bytes_a
           (Samples.client_of Samples.ledger_pending)
           eq_refl ltac:(discriminate) (or_introl eq_refl) eq_refl).
Defined.

(** X9.  A batch never stores a trade for a message without the marker:
    every message id in the table after [process_message_batch_fast] was
    there before or is the id of a message of the batch whose text contains
    the search string. *)
Theorem only_marked_messages_are_stored
        `{Imaging} `{TradeMonitorClient.Outside}
        (msgs : list TradeMonitorClient.Message) (c : TradeMonitorClient.Client)
        (mid : string) :
  mid ∈ TradeMonitorClient.ids (TradeMonitorClient.process_message_batch_fast msgs c).1 ->
  mid ∈ TradeMonitorClient.ids c \/
  exists m, m ∈ msgs /\
            TradeMonitorClient.str_in TradeMonitorClient.SEARCH_STRING
                                      (TradeMonitorClient.content m) = true /\
            mid = TradeMonitorClient.str (TradeMonitorClient.id m).
Proof.
  unfold TradeMonitorClient.process_message_batch_fast.
  destruct msgs as [|m0 msgs0] eqn:Emsgs; [auto|]. rewrite <- Emsgs. clear Emsgs.
  cbn [fst]. rewrite fold_scans_ids. unfold TradeMonitorClient.ids.
  cbn [TradeMonitorClient.db_conn TradeMonitorClient.with_db].
  unfold TradeMonitorClient.insert_batch.
  set (b := fold_left TradeMonitorClient.batch_message msgs _).
  intros Hin. apply insert_rows_ids in Hin as [Hin|Hin].
  - left. subst b. rewrite fold_batch_message_trades in Hin. exact Hin.
  - right.
    set (P := fun r : Db.TradeRow =>
                exists m, m ∈ msgs /\
                          TradeMonitorClient.str_in TradeMonitorClient.SEARCH_STRING
                                                    (TradeMonitorClient.content m) = true /\
                          Db.tr_message_id r = TradeMonitorClient.str (TradeMonitorClient.id m)).
    assert (Hrows : Forall P (TradeMonitorClient.trades_to_insert b)).
    { subst b.
      assert (Hg : forall l b0, (forall m, m ∈ l -> m ∈ msgs) ->
                                Forall P (TradeMonitorClient.trades_to_insert b0) ->
                                Forall P (TradeMonitorClient.trades_to_insert
                                            (fold_left TradeMonitorClient.batch_message l b0))).
      { induction l as [|m l IH]; intros b0 Hsub Hb0; simpl; [exact Hb0|].
        apply IH; [intros m' Hm'; apply Hsub, list_elem_of_further, Hm'|].
        apply batch_message_rows; [|exact Hb0].
        intros r Hmark Hid. exists m. split; [apply Hsub, list_elem_of_here|]. auto. }
      apply Hg; [auto | constructor]. }
    assert (Hsel : Forall P (match TradeMonitorClient.batch_insert_fault
                                     (TradeMonitorClient.trades_to_insert b) with
                             | Some k => take k (TradeMonitorClient.trades_to_insert b)
                             | None => TradeMonitorClient.trades_to_insert b
                             end)).
    { destruct (TradeMonitorClient.batch_insert_fault _); [apply Forall_take|]; exact Hrows. }
    apply list_elem_of_In, in_map_iff in Hin as (r & Hr & Hrin).
    rewrite Forall_forall in Hsel. apply list_elem_of_In, Hsel in Hrin.
    destruct Hrin as (m & Hm & Hmark & Hid). exists m. repeat split; auto. congruence.
Qed.

(** A batch of a marked message and an unmarked one on the empty ledger:
    the stored id is the marked message's. *)
Lemma only_marked_messages_are_stored_witness :
  "1001"%string
  ∈ TradeMonitorClient.ids
      (@TradeMonitorClient.process_message_batch_fast Samples.test_imaging Samples.quiet
         [Samples.message 1001; Samples.chatter 1002] (Samples.client_of Db.empty)).1 /\
  exists m, m ∈ [Samples.message 1001; Samples.chatter 1002] /\
            "1001"%string = TradeMonitorClient.str (TradeMonitorClient.id m).
Proof.
  assert (Hin : "1001"%string
                ∈ TradeMonitorClient.ids
                    (@TradeMonitorClient.process_message_batch_fast
                       Samples.test_imaging Samples.quiet
                       [Samples.message 1001; Samples.chatter 1002]
                       (Samples.client_of Db.empty)).1).
  { vm_compute. apply list_elem_of_here. }
  split; [exact Hin|].
  destruct (@only_marked_messages_are_stored Samples.test_imaging Samples.quiet
              _ _ _ Hin) as [Habs | (m & Hm & _ & Hid)].
  - inversion Habs.
  - exists m. auto.
Defined.

Section AccountFacts.
Import Db Accounts.

Local Abbreviation named name := (fun r : AccountRow => String.eqb (acc_account_name r) name).
Local Abbreviation with_credentials name d_acc d_pass :=
  (fun r : AccountRow =>
     if String.eqb (acc_account_name r) name
     then mkAccountRow (acc_account_id r) name (Some d_acc) (Some d_pass)
     else r).

Lemma named_absent name (l : list AccountRow) :
  name ∉ map acc_account_name l -> List.filter (named name) l = [].
Proof.
  induction l as [|r l IH]; simpl; intros Hn; [reflexivity|].
  destruct (String.eqb_spec (acc_account_name r) name) as [E|E].
  - exfalso. apply Hn. rewrite E. apply list_elem_of_here.
  - apply IH. intros Hin. apply Hn, list_elem_of_further, Hin.
Qed.

Lemma named_present name (l : list AccountRow) :
  List.filter (named name) l = [] -> name ∉ map acc_account_name l.
Proof.
  induction l as [|r l IH]; simpl; intros Hf Hin; [inversion Hin|].
  destruct (String.eqb_spec (acc_account_name r) name) as [E|E]; [discriminate|].
  apply elem_of_cons in Hin as [Hin|Hin]; [congruence|]. exact (IH Hf Hin).
Qed.

Lemma named_unique name (l : list AccountRow) r rest :
  NoDup (map acc_account_name l) ->
  List.filter (named name) l = r :: rest -> rest = [].
Proof.
  induction l as [|r0 l IH]; simpl; intros Hu Hf; [discriminate|].
  apply NoDup_cons in Hu as [Hr0 Hu].
  destruct (String.eqb_spec (acc_account_name r0) name) as [E|E].
  - injection Hf as _ <-. apply named_absent. rewrite <- E. exact Hr0.
  - exact (IH Hu Hf).
Qed.

Lemma with_credentials_names name d_acc d_pass (l : list AccountRow) :
  map acc_account_name (map (with_credentials name d_acc d_pass) l)
  = map acc_account_name l.
Proof.
  rewrite List.map_map. apply List.map_ext. intros r.
  destruct (String.eqb_spec (acc_account_name r) name) as [E|E]; simpl; auto.
Qed.

Lemma with_credentials_named name d_acc d_pass (l : list AccountRow) :
  List.filter (named name) (map (with_credentials name d_acc d_pass) l)
  = map (fun r => mkAccountRow (acc_account_id r) name (Some d_acc) (Some d_pass))
        (List.filter (named name) l).
Proof.
  induction l as [|r l IH]; simpl; [reflexivity|].
  destruct (String.eqb_spec (acc_account_name r) name) as [E|E]; simpl.
  - rewrite String.eqb_refl. simpl. f_equal. exact IH.
  - destruct (String.eqb_spec (acc_account_name r) name); [contradiction|]. exact IH.
Qed.

Lemma with_credentials_other name d_acc d_pass other (l : list AccountRow) :
  other <> name ->
  List.filter (named other) (map (with_credentials name d_acc d_pass) l)
  = List.filter (named other) l.
Proof.
  intros Hne. induction l as [|r l IH]; simpl; [reflexivity|].
  destruct (String.eqb_spec (acc_account_name r) name) as [E|E]; simpl.
  - destruct (String.eqb_spec name other) as [E1|E1]; [congruence|].
    destruct (String.eqb_spec (acc_account_name r) other) as [E2|E2]; [congruence|].
    exact IH.
  - destruct (String.eqb_spec (acc_account_name r) other); [f_equal|]; exact IH.
Qed.

Lemma with_credentials_twice name d_acc d_pass (l : list AccountRow) :
  map (with_credentials name d_acc d_pass) (map (with_credentials name d_acc d_pass) l)
  = map (with_credentials name d_acc d_pass) l.
Proof.
  rewrite List.map_map. apply List.map_ext. intros r.
  destruct (String.eqb_spec (acc_account_name r) name) as [E|E]; simpl.
  - rewrite String.eqb_refl. reflexivity.
  - destruct (String.eqb_spec (acc_account_name r) name); [contradiction|reflexivity].
Qed.

(** After the insert there is exactly one row of that name. *)
Lemma accounts_insert_or_ignore_named name d :
  accounts_unique d ->
  exists r, List.filter (named name) (accounts (accounts_insert_or_ignore name d)) = [r] /\
            (acc_account_name r = name) /\
            (accounts_lookup name d = None ->
             acc_device_account r = None /\ acc_device_password r = None) /\
            (accounts_lookup name d <> None ->
             List.filter (named name) (accounts d) = [r]).
Proof.
  intros Hu. unfold accounts_insert_or_ignore, accounts_lookup.
  destruct (List.filter (named name) (accounts d)) as [|r rest] eqn:Ef.
  - eexists. cbn [accounts]. rewrite List.filter_app, Ef. simpl.
    rewrite String.eqb_refl. split; [reflexivity|]. split; [reflexivity|].
    split; [auto | congruence].
  - exists r. pose proof (named_unique _ _ _ _ Hu Ef) as ->.
    split; [exact Ef|]. split.
    + assert (Hin : In r (List.filter (named name) (accounts d))) by (rewrite Ef; left; auto).
      apply List.filter_In in Hin as [_ Hin]. apply String.eqb_eq in Hin. exact Hin.
    + split; [discriminate | auto].
Qed.

Lemma accounts_insert_or_ignore_other name other d :
  other <> name ->
  List.filter (named other) (accounts (accounts_insert_or_ignore name d))
  = List.filter (named other) (accounts d).
Proof.
  intros Hne. unfold accounts_insert_or_ignore.
  destruct (accounts_lookup name d); [reflexivity|].
  cbn [accounts]. rewrite List.filter_app. simpl.
  destruct (String.eqb_spec name other); [congruence|]. apply app_nil_r.
Qed.

Lemma accounts_insert_or_ignore_unique name d :
  accounts_unique d -> accounts_unique (accounts_insert_or_ignore name d).
Proof.
  unfold accounts_unique, accounts_insert_or_ignore, accounts_lookup. intros Hu.
  destruct (List.filter (named name) (accounts d)) as [|r rest] eqn:Ef; [|exact Hu].
  cbn [accounts]. rewrite List.map_app. simpl. apply NoDup_app. split; [exact Hu|]. split.
  - intros x Hin Hx. apply list_elem_of_singleton in Hx. subst x.
    exact (named_present _ _ Ef Hin).
  - apply NoDup_singleton.
Qed.

Lemma accounts_insert_or_ignore_again name d :
  accounts_insert_or_ignore name (accounts_insert_or_ignore name d)
  = accounts_insert_or_ignore name d.
Proof.
  unfold accounts_insert_or_ignore at 1.
  destruct (accounts_lookup name (accounts_insert_or_ignore name d)) eqn:E; [reflexivity|].
  exfalso. revert E. unfold accounts_insert_or_ignore, accounts_lookup.
  destruct (List.filter (named name) (accounts d)) as [|r rest] eqn:Ef.
  - cbn [accounts]. rewrite List.filter_app, Ef. simpl. rewrite String.eqb_refl. discriminate.
  - rewrite Ef. discriminate.
Qed.

Lemma accounts_update_credentials_again name d_acc d_pass d :
  accounts_update_credentials name d_acc d_pass
    (accounts_update_credentials name d_acc d_pass d)
  = accounts_update_credentials name d_acc d_pass d.
Proof.
  unfold accounts_update_credentials. cbn [trades accounts accounts_seq found_cards
                                            found_cards_seq account_inventory].
  rewrite with_credentials_twice. reflexivity.
Qed.

Lemma accounts_insert_or_ignore_present name d :
  accounts_lookup name d <> None -> accounts_insert_or_ignore name d = d.
Proof.
  unfold accounts_insert_or_ignore. destruct (accounts_lookup name d); congruence.
Qed.

End AccountFacts.

(** X10.  [_get_or_create_account] with a non-empty name and no database
    error returns the id of the one row of that name: account names stay
    unique, the returned id is that of the single row carrying the name,
    a second call with the same arguments changes nothing and returns the
    same id, and the rows of every other name are as before. *)
Theorem get_or_create_account_returns_the_one_row
        `{TradeMonitorClient.Outside}
        (account_name : string) (credentials : option (string * string)) (d : Db.Ledger) :
  account_name <> ""%string ->
  TradeMonitorClient.db_raises (TradeMonitorClient.GetOrCreateAccount account_name) = false ->
  Accounts.accounts_unique d ->
  let r := TradeMonitorClient._get_or_create_account account_name credentials d in
  Accounts.accounts_unique r.1 /\
  (exists account_id, r.2 = Some account_id /\ Accounts.ids_of account_name r.1 = [account_id]) /\
  TradeMonitorClient._get_or_create_account account_name credentials r.1 = r /\
  (forall other, other <> account_name ->
                 Accounts.ids_of other r.1 = Accounts.ids_of other d /\
                 Accounts.credentials_of other r.1 = Accounts.credentials_of other d).
Proof.
  intros Hname Hraise Hu r. subst r. unfold TradeMonitorClient._get_or_create_account.
  destruct (String.eqb_spec account_name "") as [E|_]; [contradiction|]. rewrite Hraise.
  cbn [fst snd].
  destruct (accounts_insert_or_ignore_named account_name d Hu) as (row & Hrow & _).
  pose proof (accounts_insert_or_ignore_unique account_name d Hu) as Hu1.
  destruct credentials as [[d_acc d_pass]|].
  - split; [|split; [|split]].
    + unfold Accounts.accounts_unique, Db.accounts_update_credentials. cbn [Db.accounts].
      rewrite with_credentials_names. exact Hu1.
    + unfold Accounts.ids_of, Db.accounts_lookup, Db.accounts_update_credentials.
      cbn [Db.accounts]. rewrite with_credentials_named, Hrow.
      eexists; split; reflexivity.
    + rewrite accounts_insert_or_ignore_present.
      * rewrite accounts_update_credentials_again.
        unfold Db.accounts_update_credentials, Db.accounts_lookup. cbn [Db.accounts].
        rewrite with_credentials_named, Hrow. reflexivity.
      * unfold Db.accounts_update_credentials, Db.accounts_lookup. cbn [Db.accounts].
        rewrite with_credentials_named, Hrow. discriminate.
    + intros other Hne.
      unfold Accounts.ids_of, Accounts.credentials_of, Db.accounts_update_credentials.
      cbn [Db.accounts].
      rewrite (with_credentials_other _ _ _ _ _ Hne),
              (accounts_insert_or_ignore_other _ _ _ Hne). auto.
  - unfold Accounts.ids_of, Accounts.credentials_of, Db.accounts_lookup. rewrite Hrow.
    split; [exact Hu1|]. split; [eexists; split; reflexivity|]. split.
    + rewrite accounts_insert_or_ignore_again, Hrow. reflexivity.
    + intros other Hne. rewrite (accounts_insert_or_ignore_other _ _ _ Hne). auto.
Qed.

(** The account "Rocket01" asked for twice on the empty ledger: one row,
    id 1. *)
Lemma get_or_create_account_returns_the_one_row_witness :
  Accounts.accounts_unique Db.empty /\
  (@TradeMonitorClient._get_or_create_account Samples.quiet "Rocket01" None Db.empty).2
  = Some 1 /\
  @TradeMonitorClient._get_or_create_account Samples.quiet "Rocket01" None
    (@TradeMonitorClient._get_or_create_account Samples.quiet "Rocket01" None Db.empty).1
  = @TradeMonitorClient._get_or_create_account Samples.quiet "Rocket01" None Db.empty.
Proof.
  assert (Hu : Accounts.accounts_unique Db.empty) by apply NoDup_nil_2.
  split; [exact Hu|]. split; [reflexivity|].
  apply (@get_or_create_account_returns_the_one_row Samples.quiet "Rocket01" None Db.empty
           ltac:(discriminate) eq_refl Hu).
Defined.

(** X11.  Credentials round trip: when the XML of a message yields a
    non-empty device account and password, the accounts table afterwards
    holds exactly that pair for the message's account (created if it was
    missing, overwritten if it was there) and the trade is marked
    "DB_STORED"; the credentials of every other account are untouched. *)
Theorem synced_credentials_are_stored
        `{TradeMonitorClient.Outside}
        (account_name d_acc d_pass : string) (xml_content_bytes : list Byte.byte)
        (d : Db.Ledger) :
  account_name <> ""%string ->
  xml_content_bytes <> [] ->
  TradeMonitorClient.parse_device_credentials xml_content_bytes = Some (Some d_acc, Some d_pass) ->
  d_acc <> ""%string -> d_pass <> ""%string ->
  TradeMonitorClient.db_raises (TradeMonitorClient.GetOrCreateAccount account_name) = false ->
  Accounts.accounts_unique d ->
  let r := TradeMonitorClient.sync_credentials account_name (Some xml_content_bytes) d in
  Accounts.credentials_of account_name r.1 = [(Some d_acc, Some d_pass)] /\
  r.2 = Some "DB_STORED"%string /\
  (forall other, other <> account_name ->
                 Accounts.credentials_of other r.1 = Accounts.credentials_of other d).
Proof.
  intros Hname Hbytes Hparse Hacc Hpass Hraise Hu r. subst r.
  unfold TradeMonitorClient.sync_credentials.
  destruct xml_content_bytes as [|b0 bs]; [congruence|].
  change (default [] (Some (b0 :: bs))) with (b0 :: bs).
  change (Py.truthy_seq (Some (b0 :: bs))) with true. cbv iota. rewrite Hparse.
  destruct (String.eqb_spec d_acc "") as [E|_]; [contradiction|].
  destruct (String.eqb_spec d_pass "") as [E|_]; [contradiction|].
  cbn [negb andb fst snd].
  unfold TradeMonitorClient._get_or_create_account.
  destruct (String.eqb_spec account_name "") as [E|_]; [contradiction|]. rewrite Hraise.
  cbn [fst snd].
  destruct (accounts_insert_or_ignore_named account_name d Hu) as (row & Hrow & _).
  unfold Accounts.credentials_of, Db.accounts_update_credentials. cbn [Db.accounts].
  rewrite with_credentials_named, Hrow. split; [reflexivity|]. split; [reflexivity|].
  intros other Hne.
  rewrite (with_credentials_other _ _ _ _ _ Hne),
          (accounts_insert_or_ignore_other _ _ _ Hne). reflexivity.
Qed.

(** The account "acc" of [Samples.ledger_pending], which has no
    credentials yet, after the XML of a message was read. *)
Lemma synced_credentials_are_stored_witness :
  Accounts.credentials_of "acc" Samples.ledger_pending = [(None, None)] /\
  Accounts.credentials_of "acc"
    (@TradeMonitorClient.sync_credentials Scenarios.with_xml "acc"
       (Some Samples.bytes_a) Samples.ledger_pending).1
  = [(Some "dev-1"%string, Some "secret"%string)].
Proof.
  split; [reflexivity|].
  apply (@synced_credentials_are_stored Scenarios.with_xml "acc" "dev-1" "secret"
           Samples.bytes_a Samples.ledger_pending);
    try discriminate; try reflexivity.
  vm_compute. repeat constructor. inversion 1.
Defined.

(** ** Manual edits and flushes together *)

Section InventoryMore.
Import Db MainWindow Inventory.

Lemma process_db_write_queue_commit raises st :
  is_Some (transaction raises (db_write_queue st) (db st)) ->
  process_db_write_queue raises st
  = mkState (apply_events (db_write_queue st) (db st)) [] \/
  (db_write_queue st = [] /\ process_db_write_queue raises st = st).
Proof.
  intros [d Hd]. unfold process_db_write_queue.
  destruct (db_write_queue st) as [|e0 q0] eqn:Eq; [right; auto|].
  left. rewrite Hd. apply transaction_Some in Hd. rewrite Hd. reflexivity.
Qed.

Lemma process_db_write_queue_db raises st :
  is_Some (transaction raises (db_write_queue st) (db st)) ->
  db (process_db_write_queue raises st) = apply_events (db_write_queue st) (db st).
Proof.
  intros Hs. destruct (process_db_write_queue_commit raises st Hs) as [->|[Hq ->]].
  - reflexivity.
  - rewrite Hq. reflexivity.
Qed.

Lemma process_db_write_queue_abort raises st :
  transaction raises (db_write_queue st) (db st) = None ->
  process_db_write_queue raises st = st.
Proof.
  intros Hn. unfold process_db_write_queue.
  destruct st as [d q]. cbn [db_write_queue db] in *.
  destruct q as [|e0 q0]; [reflexivity|]. rewrite Hn. reflexivity.
Qed.

Lemma process_db_write_queue_committed raises st :
  is_Some (transaction raises (db_write_queue st) (db st)) ->
  process_db_write_queue raises st = process_db_write_queue never st.
Proof.
  intros [d Hd]. unfold process_db_write_queue.
  destruct (db_write_queue st) as [|e0 q0] eqn:Eq; [reflexivity|].
  rewrite Hd, transaction_never. apply transaction_Some in Hd. rewrite Hd. reflexivity.
Qed.

Lemma process_db_write_queue_empty raises st :
  db_write_queue st = [] -> process_db_write_queue raises st = st.
Proof. unfold process_db_write_queue. intros ->. reflexivity. Qed.

Lemma process_db_write_queue_never_queue st :
  db_write_queue (process_db_write_queue never st) = [].
Proof.
  unfold process_db_write_queue.
  destruct (db_write_queue st) as [|e0 q0] eqn:Eq; [exact Eq|].
  rewrite transaction_never. reflexivity.
Qed.

Lemma inv_upsert_positive a c v f inv :
  0 < v -> (forall q, 0 < q -> 0 < f q) ->
  quantities_positive inv -> quantities_positive (inv_upsert a c v f inv).
Proof.
  unfold quantities_positive, inv_upsert. intros Hv Hf Hp.
  destruct (existsb (inv_has_key a c) inv).
  - induction Hp as [|r l Hr Hl IH]; simpl; constructor; [|exact IH].
    destruct (inv_has_key a c r); simpl; auto.
  - apply Forall_app. split; [exact Hp|]. constructor; [exact Hv|constructor].
Qed.

Lemma inv_delete_positive a c inv :
  quantities_positive inv -> quantities_positive (inv_delete a c inv).
Proof.
  unfold quantities_positive, inv_delete. intros Hp.
  induction Hp as [|r l Hr Hl IH]; simpl; [constructor|].
  destruct (negb (inv_has_key a c r)); [constructor|]; assumption.
Qed.

Lemma apply_events_positive items d :
  quantities_positive (account_inventory d) ->
  quantities_positive (account_inventory (apply_events items d)).
Proof.
  revert d. induction items as [|e items IH]; intros d Hp; [exact Hp|].
  unfold apply_events in *. simpl. apply IH.
  rewrite account_inventory_apply_event.
  destruct (upsert_params e) as [[a c]|]; [|exact Hp].
  apply inv_upsert_positive; [lia | intros; lia | exact Hp].
Qed.

Lemma flush_unique raises st :
  inv_unique (account_inventory (db st)) ->
  inv_unique (account_inventory (db (process_db_write_queue raises st))).
Proof.
  intros Hu.
  destruct (transaction raises (db_write_queue st) (db st)) as [d|] eqn:Et.
  - rewrite process_db_write_queue_db by (rewrite Et; eexists; reflexivity).
    apply (inventory_apply_events 0 0), Hu.
  - rewrite process_db_write_queue_abort by exact Et. exact Hu.
Qed.

End InventoryMore.

(** X12.  A manual edit and a flush compose, and do not commute.  Setting
    the quantity of (account, card) to [q] and then committing a flush with
    [n] events on that key leaves the key at [max q 0 + n] (no row when
    both are zero); flushing first and setting afterwards leaves exactly
    [q] (no row when [q <= 0]), whatever the flush did. *)
Theorem manual_edit_and_flush_compose
        (raises : nat -> bool) (st : MainWindow.State) (a c q : Z) :
  Db.inv_unique (Db.account_inventory (MainWindow.db st)) ->
  let edited := (DatabaseManager.set_inventory_quantity false (Some a) (Some c) q
                                                        (MainWindow.db st)).1 in
  is_Some (MainWindow.transaction raises (MainWindow.db_write_queue st) edited) ->
  let n := Z.of_nat (length (List.filter (MainWindow.targets a c)
                                         (MainWindow.db_write_queue st))) in
  Db.inv_select a c
    (Db.account_inventory
       (MainWindow.db (MainWindow.process_db_write_queue raises
                         (MainWindow.mkState edited (MainWindow.db_write_queue st)))))
  = (if (q <=? 0) && (n =? 0) then [] else [Z.max q 0 + n]) /\
  Db.inv_select a c
    (Db.account_inventory
       (DatabaseManager.set_inventory_quantity false (Some a) (Some c) q
          (MainWindow.db (MainWindow.process_db_write_queue raises st))).1)
  = (if q <=? 0 then [] else [q]).
Proof.
  intros Hu edited Hs n. split.
  - rewrite process_db_write_queue_db by exact Hs. cbn [MainWindow.db MainWindow.db_write_queue].
    assert (Hue : Db.inv_unique (Db.account_inventory edited)).
    { subst edited. unfold DatabaseManager.set_inventory_quantity. simpl.
      destruct (q <=? 0); simpl; [apply inv_delete_unique | apply inv_upsert_unique]; exact Hu. }
    destruct (inventory_apply_events a c (MainWindow.db_write_queue st) edited Hue) as [_ Hsel].
    rewrite Hsel. fold n. unfold MainWindow.quantity_of.
    assert (Hed : Db.inv_select a c (Db.account_inventory edited)
                  = if q <=? 0 then [] else [q]).
    { subst edited. unfold DatabaseManager.set_inventory_quantity. simpl.
      destruct (q <=? 0); simpl; [apply inv_select_delete|].
      rewrite inv_select_upsert by exact Hu.
      destruct (Db.inv_select a c (Db.account_inventory (MainWindow.db st))); reflexivity. }
    rewrite Hed.
    destruct (Z.leb_spec q 0) as [Hq|Hq]; destruct (Z.eqb_spec n 0) as [Hn|Hn]; simpl;
      try reflexivity; f_equal; lia.
  - pose proof (flush_unique raises st Hu) as Hu'.
    unfold DatabaseManager.set_inventory_quantity. simpl.
    destruct (q <=? 0); simpl; [apply inv_select_delete|].
    rewrite inv_select_upsert by exact Hu'.
    destruct (Db.inv_select a c _); reflexivity.
Qed.

(** Card 7 of account 3 in [Samples.ledger1] (quantity 5): set to 2 and
    then one detection flushed gives 3; the detection flushed first and
    then set to 2 gives 2. *)
Lemma manual_edit_and_flush_compose_witness :
  Db.inv_select 3 7
    (Db.account_inventory
       (MainWindow.db (MainWindow.process_db_write_queue MainWindow.never
          (MainWindow.mkState
             (DatabaseManager.set_inventory_quantity false (Some 3) (Some 7) 2
                                                     Samples.ledger1).1
             [Samples.event1]))))
  = [3] /\
  Db.inv_select 3 7
    (Db.account_inventory
       (DatabaseManager.set_inventory_quantity false (Some 3) (Some 7) 2
          (MainWindow.db (MainWindow.process_db_write_queue MainWindow.never
                            (MainWindow.mkState Samples.ledger1 [Samples.event1])))).1)
  = [2].
Proof.
  assert (Hu : Db.inv_unique (Db.account_inventory Samples.ledger1)).
  { apply (bool_decide_unpack _). vm_compute. exact I. }
  apply (manual_edit_and_flush_compose MainWindow.never
           (MainWindow.mkState Samples.ledger1 [Samples.event1]) 3 7 2 Hu).
  rewrite transaction_never. eexists; reflexivity.
Defined.

(** X13.  A flush that fails can simply be retried: after a flush whose
    transaction raised, a second flush that commits leaves the store and
    the queue exactly as a flush of the original state in which nothing
    raises; and any flush right after that finds an empty queue and does
    nothing, whether or not its calls would raise. *)
Theorem failed_flush_can_be_retried (raises raises' raises'' : nat -> bool)
        (st : MainWindow.State) :
  MainWindow.transaction raises (MainWindow.db_write_queue st) (MainWindow.db st) = None ->
  is_Some (MainWindow.transaction raises' (MainWindow.db_write_queue st) (MainWindow.db st)) ->
  let retried :=
    MainWindow.process_db_write_queue raises' (MainWindow.process_db_write_queue raises st) in
  retried = MainWindow.process_db_write_queue MainWindow.never st /\
  MainWindow.db retried
  = MainWindow.apply_events (MainWindow.db_write_queue st) (MainWindow.db st) /\
  MainWindow.db_write_queue retried = [] /\
  MainWindow.process_db_write_queue raises'' retried = retried.
Proof.
  intros Hfail Hok retried. subst retried.
  rewrite (process_db_write_queue_abort raises st Hfail).
  rewrite (process_db_write_queue_committed raises' st Hok).
  split; [reflexivity|]. split; [|split].
  - apply process_db_write_queue_db. rewrite transaction_never. eexists; reflexivity.
  - apply process_db_write_queue_never_queue.
  - apply process_db_write_queue_empty, process_db_write_queue_never_queue.
Qed.

(** Two events flushed against [Samples.ledger1]: the first attempt raises
    at call 3, the retry commits. *)
Lemma failed_flush_can_be_retried_witness :
  MainWindow.transaction Samples.raises_at_3 [Samples.event1; Samples.event2] Samples.ledger1
  = None /\
  Db.inv_select 3 7
    (Db.account_inventory
       (MainWindow.db
          (MainWindow.process_db_write_queue MainWindow.never
             (MainWindow.process_db_write_queue Samples.raises_at_3
                (MainWindow.mkState Samples.ledger1 [Samples.event1; Samples.event2])))))
  = [6] /\
  MainWindow.process_db_write_queue MainWindow.never
    (MainWindow.process_db_write_queue Samples.raises_at_3
       (MainWindow.mkState Samples.ledger1 [Samples.event1; Samples.event2]))
  = MainWindow.process_db_write_queue MainWindow.never
      (MainWindow.mkState Samples.ledger1 [Samples.event1; Samples.event2]).
Proof.
  split; [reflexivity|]. split; [reflexivity|].
  apply (failed_flush_can_be_retried Samples.raises_at_3 MainWindow.never MainWindow.never
           (MainWindow.mkState Samples.ledger1 [Samples.event1; Samples.event2]) eq_refl).
  rewrite transaction_never. eexists; reflexivity.
Defined.

(** X14.  Quantities stay positive.  If no inventory row holds a quantity
    of zero or less, none does after a flush (committed or failed) nor
    after [set_inventory_quantity] with any new quantity, raising or not:
    a non-positive quantity deletes the row instead of storing it. *)
Theorem inventory_quantities_stay_positive
        (raises : nat -> bool) (edit_raises : bool) (st : MainWindow.State)
        (account_id card_id : option Z) (new_quantity : Z) :
  Inventory.quantities_positive (Db.account_inventory (MainWindow.db st)) ->
  Inventory.quantities_positive
    (Db.account_inventory (MainWindow.db (MainWindow.process_db_write_queue raises st))) /\
  Inventory.quantities_positive
    (Db.account_inventory
       (DatabaseManager.set_inventory_quantity edit_raises account_id card_id new_quantity
                                               (MainWindow.db st)).1).
Proof.
  intros Hp. split.
  - destruct (MainWindow.transaction raises (MainWindow.db_write_queue st) (MainWindow.db st))
      as [d|] eqn:Et.
    + rewrite process_db_write_queue_db by (rewrite Et; eexists; reflexivity).
      apply apply_events_positive, Hp.
    + rewrite process_db_write_queue_abort by exact Et. exact Hp.
  - unfold DatabaseManager.set_inventory_quantity.
    destruct account_id as [a|], card_id as [c|]; try exact Hp.
    destruct edit_raises; [exact Hp|].
    destruct (Z.leb_spec new_quantity 0) as [Hq|Hq]; simpl.
    + apply inv_delete_positive, Hp.
    + apply inv_upsert_positive; [lia | intros; lia | exact Hp].
Qed.

(** [Samples.ledger1] holds quantities 5 and 1; setting card 8 to 0
    removes its row. *)
Lemma inventory_quantities_stay_positive_witness :
  Inventory.quantities_positive (Db.account_inventory Samples.ledger1) /\
  map Db.inv_quantity
      (Db.account_inventory
         (DatabaseManager.set_inventory_quantity false (Some 3) (Some 8) 0 Samples.ledger1).1)
  = [5] /\
  Inventory.quantities_positive
    (Db.account_inventory
       (DatabaseManager.set_inventory_quantity false (Some 3) (Some 8) 0 Samples.ledger1).1).
Proof.
  assert (Hp : Inventory.quantities_positive (Db.account_inventory Samples.ledger1)).
  { repeat constructor. }
  split; [exact Hp|]. split; [reflexivity|].
  apply (inventory_quantities_stay_positive MainWindow.never false
           (MainWindow.mkState Samples.ledger1 []) (Some 3) (Some 8) 0 Hp).
Defined.

(** ** Attachments and completeness of the batch path *)

Section AttachmentFacts.
Import TradeMonitorClient Attachments.

Lemma endswith_last s suffix :
  endswith s suffix = true -> suffix <> ""%string ->
  String.get (String.length s - 1) s = String.get (String.length suffix - 1) suffix.
Proof.
  unfold endswith. intros He Hne.
  apply andb_true_iff in He as [Hle He].
  apply Nat.leb_le in Hle. apply String.eqb_eq in He.
  assert (Hpos : (0 < String.length suffix)%nat).
  { destruct suffix; [congruence | simpl; lia]. }
  rewrite <- He at 2.
  rewrite String.substring_correct1 by lia. f_equal. lia.
Qed.

(** A name that ends in ".xml" has no image extension. *)
Lemma is_xml_not_image att : is_xml att = true -> is_image att = false.
Proof.
  unfold is_xml, is_image. intros Hx.
  pose proof (endswith_last _ _ Hx ltac:(discriminate)) as Hl.
  assert (Hno : forall ext : string,
             String.get (String.length ext - 1) ext
             <> String.get (String.length ".xml" - 1) ".xml" ->
             ext <> ""%string -> endswith (filename att) ext = false).
  { intros ext Hext Hne. destruct (endswith (filename att) ext) eqn:E; [|reflexivity].
    exfalso. apply Hext. rewrite <- (endswith_last _ _ E Hne). exact Hl. }
  rewrite !Hno by (simpl; discriminate). reflexivity.
Qed.

Lemma fold_pick_attachment l acc :
  fold_left pick_attachment l acc
  = (match acc.1 with
     | Some x => Some x
     | None => head (List.filter is_xml l)
     end,
     match acc.2 with
     | Some i => Some i
     | None => head (List.filter is_image l)
     end).
Proof.
  revert acc. induction l as [|att l IH]; intros [[x|] [i|]]; simpl; try reflexivity;
    rewrite IH; unfold pick_attachment; fold (is_xml att); fold (is_image att).
  - reflexivity.
  - destruct (is_image att); reflexivity.
  - destruct (is_xml att); reflexivity.
  - destruct (is_xml att) eqn:Ex.
    + rewrite (is_xml_not_image att Ex). reflexivity.
    + destruct (is_image att); reflexivity.
Qed.

Lemma head_filter_elem {A} (f : A -> bool) (l : list A) (a : A) :
  head (List.filter f l) = Some a -> a ∈ l /\ f a = true.
Proof.
  intros Hh. assert (Hin : In a (List.filter f l)).
  { destruct (List.filter f l); [discriminate|]. injection Hh as ->. left; reflexivity. }
  apply List.filter_In in Hin as [Hin Hf]. split; [apply list_elem_of_In, Hin | exact Hf].
Qed.

End AttachmentFacts.

(** X15.  [extract_trade_data_fast] picks the first attachment whose name
    ends in ".xml" as the XML and the first one with an image extension
    (.png, .jpg, .jpeg, .webp) as the screenshot, wherever they stand in
    the list; the two are never the same attachment, and the message id of
    the dict is the message's. *)
Theorem first_xml_and_first_image_are_picked
        `{Imaging} `{TradeMonitorClient.Outside} (message : TradeMonitorClient.Message) :
  let r := TradeMonitorClient.extract_trade_data_fast message in
  r.1.2 = head (List.filter Attachments.is_xml (TradeMonitorClient.attachments message)) /\
  r.2 = head (List.filter Attachments.is_image (TradeMonitorClient.attachments message)) /\
  TradeMonitorClient.td_message_id r.1.1 = TradeMonitorClient.id message /\
  (forall a b, r.1.2 = Some a -> r.2 = Some b ->
               Attachments.is_xml a = true /\ Attachments.is_xml b = false).
Proof.
  intros r. subst r. unfold TradeMonitorClient.extract_trade_data_fast.
  rewrite fold_pick_attachment. cbn [fst snd].
  split; [reflexivity|]. split; [reflexivity|]. split; [reflexivity|].
  intros a b Ha Hb.
  apply head_filter_elem in Ha as [_ Ha]. apply head_filter_elem in Hb as [_ Hb].
  split; [exact Ha|].
  destruct (Attachments.is_xml b) eqn:E; [|reflexivity].
  rewrite (is_xml_not_image b E) in Hb. discriminate.
Qed.

Section CompletenessFacts.
Context `{Imaging} `{TradeMonitorClient.Outside}.
Import Db TradeMonitorClient Attachments.

(** When every attachment of the message can be read, so can the two the
    extraction picks. *)
Lemma read_attachments_readable m :
  (forall a, a ∈ attachments m -> is_Some (read a)) ->
  is_Some (read_attachments (extract_trade_data_fast m).1.2 (extract_trade_data_fast m).2).
Proof.
  intros Hread. unfold extract_trade_data_fast. rewrite fold_pick_attachment. cbn [fst snd].
  unfold read_attachments.
  destruct (head (List.filter is_xml (attachments m))) as [x|] eqn:Ex;
    destruct (head (List.filter is_image (attachments m))) as [i|] eqn:Ei;
    try (apply head_filter_elem in Ex as [Ex _]; destruct (Hread x Ex) as [bx ->]);
    try (apply head_filter_elem in Ei as [Ei _]; destruct (Hread i Ei) as [bi ->]);
    eexists; reflexivity.
Qed.

Lemma batch_message_keeps_rows b m :
  exists rows, trades_to_insert (batch_message b m) = trades_to_insert b ++ rows.
Proof.
  unfold batch_message.
  destruct (negb (str_in SEARCH_STRING (content m))); [exists []; symmetry; apply app_nil_r|].
  destruct (db_raises (DupCheck (str (id m)))); [exists []; symmetry; apply app_nil_r|].
  destruct (trades_exists (str (id m)) (b_db b)); [exists []; symmetry; apply app_nil_r|].
  destruct (extract_trade_data_fast m) as [[trade_data xml_att] img_att].
  destruct (read_attachments xml_att img_att) as [[xml_bytes image_bytes]|];
    [|exists []; symmetry; apply app_nil_r].
  destruct (sync_credentials _ _ _) as [d1 xml_path].
  destruct (_get_or_create_account _ _ _) as [d2 account_id].
  eexists. reflexivity.
Qed.

Lemma fold_batch_message_keeps_rows msgs b mid :
  mid ∈ map tr_message_id (trades_to_insert b) ->
  mid ∈ map tr_message_id (trades_to_insert (fold_left batch_message msgs b)).
Proof.
  revert b. induction msgs as [|m msgs IH]; intros b Hin; simpl; [exact Hin|].
  apply IH. destruct (batch_message_keeps_rows b m) as [rows ->].
  rewrite List.map_app. apply elem_of_app. left. exact Hin.
Qed.

(** A marked, readable message is queued by the loop unless its id is in
    the table. *)
Lemma batch_message_queues b m :
  str_in SEARCH_STRING (content m) = true ->
  db_raises (DupCheck (str (id m))) = false ->
  (forall a, a ∈ attachments m -> is_Some (read a)) ->
  trades_exists (str (id m)) (b_db b) = true \/
  str (id m) ∈ map tr_message_id (trades_to_insert (batch_message b m)).
Proof.
  intros Hmark Hdup Hread. unfold batch_message. rewrite Hmark, Hdup. cbn [negb].
  destruct (trades_exists (str (id m)) (b_db b)); [left; reflexivity|]. right.
  pose proof (read_attachments_readable m Hread) as Hr.
  destruct (extract_trade_data_fast m) as [[trade_data xml_att] img_att] eqn:Ex.
  assert (Hid : td_message_id trade_data = id m).
  { unfold extract_trade_data_fast in Ex. injection Ex as <- _ _. reflexivity. }
  cbn [fst snd] in Hr. destruct Hr as [[xml_bytes image_bytes] ->].
  destruct (sync_credentials _ _ _) as [d1 xml_path].
  destruct (_get_or_create_account _ _ _) as [d2 account_id].
  cbn [trades_to_insert]. rewrite List.map_app. apply elem_of_app. right.
  unfold trade_row. cbn [map tr_message_id td_message_id]. rewrite Hid.
  apply list_elem_of_here.
Qed.

Lemma fold_batch_message_queues msgs b m :
  m ∈ msgs ->
  str_in SEARCH_STRING (content m) = true ->
  db_raises (DupCheck (str (id m))) = false ->
  (forall a, a ∈ attachments m -> is_Some (read a)) ->
  str (id m) ∈ map tr_message_id (trades (b_db b)) \/
  str (id m) ∈ map tr_message_id (trades_to_insert (fold_left batch_message msgs b)).
Proof.
  intros Hin Hmark Hdup Hread. revert b.
  induction msgs as [|m0 msgs IH]; intros b; [inversion Hin|].
  apply elem_of_cons in Hin as [->|Hin]; simpl.
  - destruct (batch_message_queues b m0 Hmark Hdup Hread) as [He|Hq].
    + left. apply trades_exists_iff, He.
    + right. apply fold_batch_message_keeps_rows, Hq.
  - destruct (IH Hin (batch_message b m0)) as [He|Hq]; [left|right; exact Hq].
    rewrite batch_message_trades in He. exact He.
Qed.

Lemma insert_rows_ids_present rows d mid :
  mid ∈ map tr_message_id (trades d) \/ mid ∈ map tr_message_id rows ->
  mid ∈ map tr_message_id (trades (fold_left (fun d' r => trades_insert_or_ignore r d') rows d)).
Proof.
  revert d. induction rows as [|r rows IH]; intros d; simpl.
  - intros [Hin|Hin]; [exact Hin | inversion Hin].
  - intros Hin. apply IH.
    assert (Hins : forall x, x ∈ map tr_message_id (trades d) \/ x = tr_message_id r ->
                             x ∈ map tr_message_id (trades (trades_insert_or_ignore r d))).
    { intros x Hx. unfold trades_insert_or_ignore.
      destruct (trades_exists (tr_message_id r) d) eqn:He.
      - destruct Hx as [Hx| ->]; [exact Hx | apply trades_exists_iff, He].
      - simpl. rewrite List.map_app. apply elem_of_app.
        destruct Hx as [Hx| ->]; [left; exact Hx | right; apply list_elem_of_here]. }
    destruct Hin as [Hin|Hin].
    + left. apply Hins. left. exact Hin.
    + apply elem_of_cons in Hin as [->|Hin]; [left; apply Hins; right; reflexivity|].
      right. exact Hin.
Qed.

End CompletenessFacts.

(** X16.  The batch path misses no trade: a message of the batch that
    carries the marker and whose attachments can all be read has a row in
    [trades] after [process_message_batch_fast], provided its duplicate
    check and the batch insert do not raise; whatever the scans then do,
    the row stays.  The same holds for a live message once the initial
    scan is done. *)
Theorem marked_messages_of_a_batch_are_stored
        `{Imaging} `{TradeMonitorClient.Outside}
        (msgs : list TradeMonitorClient.Message) (c : TradeMonitorClient.Client)
        (m : TradeMonitorClient.Message) :
  m ∈ msgs ->
  TradeMonitorClient.str_in TradeMonitorClient.SEARCH_STRING
                            (TradeMonitorClient.content m) = true ->
  TradeMonitorClient.db_raises
    (TradeMonitorClient.DupCheck (TradeMonitorClient.str (TradeMonitorClient.id m))) = false ->
  (forall a, a ∈ TradeMonitorClient.attachments m -> is_Some (TradeMonitorClient.read a)) ->
  (forall rows, TradeMonitorClient.batch_insert_fault rows = None) ->
  TradeMonitorClient.str (TradeMonitorClient.id m)
  ∈ TradeMonitorClient.ids (TradeMonitorClient.process_message_batch_fast msgs c).1 /\
  (TradeMonitorClient.initial_scan_done c = true ->
   TradeMonitorClient.str (TradeMonitorClient.id m)
   ∈ TradeMonitorClient.ids (TradeMonitorClient.on_message m c)).
Proof.
  intros Hin Hmark Hdup Hread Hfault.
  assert (Hbatch : forall l, m ∈ l ->
            TradeMonitorClient.str (TradeMonitorClient.id m)
            ∈ TradeMonitorClient.ids (TradeMonitorClient.process_message_batch_fast l c).1).
  { intros l Hl. unfold TradeMonitorClient.process_message_batch_fast.
    destruct l as [|m0 l0] eqn:El; [inversion Hl|]. rewrite <- El in *. clear El.
    cbn [fst]. rewrite fold_scans_ids. unfold TradeMonitorClient.ids.
    cbn [TradeMonitorClient.db_conn TradeMonitorClient.with_db].
    unfold TradeMonitorClient.insert_batch. rewrite Hfault.
    apply insert_rows_ids_present.
    destruct (fold_batch_message_queues l
                (TradeMonitorClient.mkBatch (TradeMonitorClient.db_conn c) [] [])
                m Hl Hmark Hdup Hread) as [He|Hq].
    - left. rewrite fold_batch_message_trades. exact He.
    - right. exact Hq. }
  split; [apply Hbatch, Hin|].
  intros Hdone. unfold TradeMonitorClient.on_message. rewrite Hdone, Hmark. cbn [negb].
  apply Hbatch, list_elem_of_here.
Qed.

(** The batch of [Samples]: message 1001 carries the marker and a readable
    screenshot, and ends in the table. *)
Lemma marked_messages_of_a_batch_are_stored_witness :
  TradeMonitorClient.str_in TradeMonitorClient.SEARCH_STRING
    (TradeMonitorClient.content (Samples.message 1001)) = true /\
  "1001"%string
  ∈ TradeMonitorClient.ids
      (@TradeMonitorClient.process_message_batch_fast Samples.test_imaging Samples.quiet
         [Samples.chatter 1002; Samples.message 1001] (Samples.client_of Db.empty)).1.
Proof.
  split; [reflexivity|].
  apply (@marked_messages_of_a_batch_are_stored Samples.test_imaging Samples.quiet
           [Samples.chatter 1002; Samples.message 1001] (Samples.client_of Db.empty)
           (Samples.message 1001)).
  - apply list_elem_of_further, list_elem_of_here.
  - reflexivity.
  - reflexivity.
  - intros a Ha. apply list_elem_of_singleton in Ha. subst a. eexists; reflexivity.
  - reflexivity.
Defined.

(** ** What a session stores *)

Section SessionFacts.
Context `{Imaging} `{TradeMonitorClient.Outside}.
Import Db TradeMonitorClient Ingestion.

Lemma marked_ids_elem msgs m :
  m ∈ msgs -> marked m = true -> str (id m) ∈ marked_ids msgs.
Proof.
  intros Hin Hm. unfold marked_ids. apply list_elem_of_In, in_map_iff.
  exists m. split; [reflexivity|]. apply List.filter_In. split; [apply list_elem_of_In, Hin|exact Hm].
Qed.

Lemma marked_ids_mono msgs msgs' :
  (forall m, m ∈ msgs -> m ∈ msgs') -> marked_ids msgs ⊆ marked_ids msgs'.
Proof.
  intros Hsub mid Hin. unfold marked_ids in *.
  apply list_elem_of_In, in_map_iff in Hin as (m & <- & Hm).
  apply List.filter_In in Hm as [Hm Hmark].
  apply marked_ids_elem; [apply Hsub, list_elem_of_In, Hm | exact Hmark].
Qed.

Lemma history_messages ch before after m :
  m ∈ history ch before after -> m ∈ messages ch.
Proof.
  unfold history. rewrite merge_sort_Permutation. intros Hin.
  apply list_elem_of_In, List.filter_In in Hin as [Hin _]. apply list_elem_of_In, Hin.
Qed.

(** The ids after a batch: those before and those of marked messages of
    the batch. *)
Lemma process_message_batch_fast_sourced pool msgs c :
  (forall m, m ∈ msgs -> m ∈ pool) ->
  ids (process_message_batch_fast msgs c).1 ⊆ ids c ++ marked_ids pool.
Proof.
  intros Hsub mid. unfold process_message_batch_fast.
  destruct msgs as [|m0 msgs0] eqn:Emsgs; [intros Hin; apply elem_of_app; left; exact Hin|].
  rewrite <- Emsgs in *. clear Emsgs.
  cbn [fst]. rewrite fold_scans_ids. unfold ids. cbn [db_conn with_db].
  unfold insert_batch. set (b := fold_left batch_message msgs _).
  intros Hin. apply elem_of_app. apply insert_rows_ids in Hin as [Hin|Hin].
  - left. subst b. rewrite fold_batch_message_trades in Hin. exact Hin.
  - right.
    assert (Hrows : Forall (fun r => tr_message_id r ∈ marked_ids pool) (trades_to_insert b)).
    { subst b.
      assert (Hg : forall l b0, (forall m, m ∈ l -> m ∈ pool) ->
                 Forall (fun r => tr_message_id r ∈ marked_ids pool) (trades_to_insert b0) ->
                 Forall (fun r => tr_message_id r ∈ marked_ids pool)
                        (trades_to_insert (fold_left batch_message l b0))).
      { induction l as [|m l IH]; intros b0 Hl Hb0; simpl; [exact Hb0|].
        apply IH; [intros m' Hm'; apply Hl, list_elem_of_further, Hm'|].
        apply batch_message_rows; [|exact Hb0].
        intros r Hmark ->. apply marked_ids_elem; [apply Hl, list_elem_of_here|exact Hmark]. }
      apply Hg; [exact Hsub | constructor]. }
    assert (Hsel : Forall (fun r => tr_message_id r ∈ marked_ids pool)
                          (match batch_insert_fault (trades_to_insert b) with
                           | Some k => take k (trades_to_insert b)
                           | None => trades_to_insert b
                           end)).
    { destruct (batch_insert_fault _); [apply Forall_take|]; exact Hrows. }
    apply list_elem_of_In, in_map_iff in Hin as (r & <- & Hrin).
    rewrite Forall_forall in Hsel. apply Hsel, list_elem_of_In, Hrin.
Qed.

Lemma historical_message_sourced pool c m :
  m ∈ pool -> ids (historical_message c m) ⊆ ids c ++ marked_ids pool.
Proof.
  intros Hpool mid. unfold historical_message.
  destruct (str_in SEARCH_STRING (content m)) eqn:Hmark; cbn [negb];
    [|intros Hin; apply elem_of_app; left; exact Hin].
  destruct (extract_trade_data_fast m) as [[trade_data xml_att] img_att] eqn:Ex.
  assert (Hid : td_message_id trade_data = id m).
  { unfold extract_trade_data_fast in Ex. injection Ex as <- _ _. reflexivity. }
  destruct (read_attachments xml_att img_att) as [[xml_bytes image_bytes]|];
    [|intros Hin; apply elem_of_app; left; exact Hin].
  destruct (sync_credentials (td_account_name trade_data) xml_bytes (db_conn c))
    as [d1 xml_path] eqn:Es.
  destruct (_get_or_create_account (td_account_name trade_data) None d1)
    as [d2 account_id] eqn:Ea.
  assert (Hd2 : trades d2 = trades (db_conn c)).
  { change d2 with (d2, account_id).1. rewrite <- Ea, _get_or_create_account_trades.
    change d1 with (d1, xml_path).1. rewrite <- Es. apply sync_credentials_trades. }
  destruct (db_raises (InsertTrade (str (id m)))).
  { unfold ids. cbn [db_conn with_db]. rewrite Hd2. intros Hin.
    apply elem_of_app; left; exact Hin. }
  assert (Hins : forall r, tr_message_id r = str (id m) ->
            map tr_message_id (trades (trades_insert_or_ignore r d2))
            ⊆ ids c ++ marked_ids pool).
  { intros r Hr x Hx. apply elem_of_app.
    apply (insert_rows_ids [r] d2 x) in Hx as [Hx|Hx].
    - left. unfold ids. rewrite <- Hd2. exact Hx.
    - right. apply list_elem_of_singleton in Hx. subst x. rewrite Hr.
      apply marked_ids_elem; [exact Hpool | exact Hmark]. }
  destruct (Py.truthy_seq image_bytes).
  - rewrite scan_image_for_cards_ids. unfold ids at 1. cbn [db_conn with_db].
    apply Hins. unfold trade_row. cbn [tr_message_id td_message_id]. rewrite Hid. reflexivity.
  - unfold ids at 1. cbn [db_conn with_db].
    apply Hins. unfold trade_row. cbn [tr_message_id td_message_id]. rewrite Hid. reflexivity.
Qed.

(** Chaining: what is sourced from [c] on top of a client sourced from
    [c0] is sourced from [c0]. *)
Lemma sourced_trans pool (c0 c c' : Client) :
  ids c ⊆ ids c0 ++ marked_ids pool ->
  ids c' ⊆ ids c ++ marked_ids pool ->
  ids c' ⊆ ids c0 ++ marked_ids pool.
Proof.
  intros H1 H2 mid Hin. apply H2, elem_of_app in Hin as [Hin|Hin].
  - apply H1, Hin.
  - apply elem_of_app. right. exact Hin.
Qed.

Lemma sourced_refl pool (c : Client) : ids c ⊆ ids c ++ marked_ids pool.
Proof. intros mid Hin. apply elem_of_app. left. exact Hin. Qed.

Lemma perform_historical_scan_streaming_sourced channel c :
  ids (perform_historical_scan_streaming channel c)
  ⊆ ids c ++ marked_ids (channel_messages channel).
Proof.
  unfold perform_historical_scan_streaming.
  destruct channel as [ch|]; [|exact (sourced_refl _ c)].
  destruct (negb (read_message_history ch)); [exact (sourced_refl _ c)|].
  cbn [channel_messages].
  set (oldest := if db_raises SelectMin then None else _).
  assert (Hy : forall m, m ∈ match fetch_fault ch with
                            | Some k => take k (history ch oldest None)
                            | None => history ch oldest None
                            end -> m ∈ messages ch).
  { intros m Hm. apply (history_messages ch oldest None).
    destruct (fetch_fault ch); [|exact Hm].
    apply elem_of_take in Hm as (i & Hi & _). eapply list_elem_of_lookup_2, Hi. }
  revert Hy. generalize (match fetch_fault ch with
                         | Some k => take k (history ch oldest None)
                         | None => history ch oldest None
                         end).
  intros l Hl.
  assert (Hg : forall l' c', (forall m, m ∈ l' -> m ∈ messages ch) ->
             ids c' ⊆ ids c ++ marked_ids (messages ch) ->
             ids (fold_left historical_message l' c') ⊆ ids c ++ marked_ids (messages ch)).
  { induction l' as [|m l' IH]; intros c' Hl' Hc'; simpl; [exact Hc'|].
    apply IH; [intros m' Hm'; apply Hl', list_elem_of_further, Hm'|].
    eapply sourced_trans; [exact Hc'|].
    apply historical_message_sourced, Hl', list_elem_of_here. }
  apply Hg; [exact Hl | apply sourced_refl].
Qed.

Lemma perform_incremental_scan_fast_sourced channel now c :
  ids (perform_incremental_scan_fast channel now c)
  ⊆ ids c ++ marked_ids (channel_messages channel).
Proof.
  unfold perform_incremental_scan_fast.
  destruct channel as [ch|]; [|exact (sourced_refl _ c)]. cbn [channel_messages].
  match goal with
  | |- context [if ?cond then ?a else c] =>
      assert (Hc1 : ids (if cond then a else c) = ids c)
        by (destruct cond; [destruct (db_raises SelectMax)|]; reflexivity);
      generalize dependent (if cond then a else c)
  end.
  intros c1 Hc1. rewrite <- Hc1.
  destruct (0 <? last_message_id_cache c1); [|apply sourced_refl].
  destruct (fetch_fault ch); [apply sourced_refl|].
  set (new_messages := history ch None (Some (last_message_id_cache c1))).
  assert (Hnew : forall m, m ∈ new_messages -> m ∈ messages ch).
  { intros m. apply history_messages. }
  assert (Hg : forall l s, (forall m, m ∈ l -> m ∈ messages ch) ->
             (forall m, m ∈ s.1 -> m ∈ messages ch) ->
             ids s.2 ⊆ ids c1 ++ marked_ids (messages ch) ->
             (forall m, m ∈ (fold_left incremental_step l s).1 -> m ∈ messages ch) /\
             ids (fold_left incremental_step l s).2 ⊆ ids c1 ++ marked_ids (messages ch)).
  { induction l as [|m l IH]; intros s Hl Hs1 Hs2; simpl; [auto|].
    assert (Hb : forall m', m' ∈ s.1 ++ [m] -> m' ∈ messages ch).
    { intros m' Hm'. apply elem_of_app in Hm' as [Hm'|Hm']; [apply Hs1, Hm'|].
      apply list_elem_of_singleton in Hm'. subst m'. apply Hl, list_elem_of_here. }
    apply IH; [intros m' Hm'; apply Hl, list_elem_of_further, Hm' | |];
      unfold incremental_step; destruct (BATCH_SIZE <=? length (s.1 ++ [m]))%nat; cbn [fst snd].
    - intros m' Hm'. inversion Hm'.
    - exact Hb.
    - eapply sourced_trans; [exact Hs2|].
      apply process_message_batch_fast_sourced, Hb.
    - exact Hs2. }
  destruct (Hg new_messages ([], c1) Hnew) as [Hs1 Hs2];
    [intros m Hm; inversion Hm | apply sourced_refl |].
  destruct (fold_left incremental_step new_messages ([], c1)).1 as [|m0 l0] eqn:El;
    [exact Hs2|].
  eapply sourced_trans; [exact Hs2|].
  apply process_message_batch_fast_sourced. exact Hs1.
Qed.

Lemma on_ready_sourced channel now c :
  ids (on_ready channel now c) ⊆ ids c ++ marked_ids (channel_messages channel).
Proof.
  unfold on_ready.
  change (ids (with_initial_scan_done ?x)) with (ids x).
  destruct (db_raises CountTrades); [apply sourced_refl|].
  destruct (trades (db_conn c)) eqn:Et.
  - apply perform_historical_scan_streaming_sourced.
  - eapply sourced_trans; [|apply perform_historical_scan_streaming_sourced].
    eapply sourced_trans; [|apply perform_incremental_scan_fast_sourced].
    destruct (db_raises SelectReprocess); [apply sourced_refl|].
    rewrite recover_missing_cards_skips_all. apply sourced_refl.
Qed.

Lemma on_message_sourced pool m c :
  m ∈ pool -> ids (on_message m c) ⊆ ids c ++ marked_ids pool.
Proof.
  intros Hm. unfold on_message.
  destruct (negb (initial_scan_done c)); [apply sourced_refl|].
  destruct (str_in SEARCH_STRING (content m)); [|apply sourced_refl].
  apply process_message_batch_fast_sourced.
  intros m' Hm'. apply list_elem_of_singleton in Hm'. subst m'. exact Hm.
Qed.

End SessionFacts.

(** X17.  Over a whole session, the start-up (recovery, incremental
    catch-up, historical backfill) followed by any live messages, whatever
    the outside world does, every key in the trades table was there before
    or is the id of a message of the channel or of the live stream whose
    text contains the search string.  No other message is ever stored. *)
Theorem session_stores_only_marked_messages
        `{Imaging} `{TradeMonitorClient.Outside}
        (channel : option TradeMonitorClient.Channel) (now : Z)
        (live : list TradeMonitorClient.Message) (c : TradeMonitorClient.Client) :
  TradeMonitorClient.ids (TradeMonitorClient.run_session channel now live c)
  ⊆ TradeMonitorClient.ids c
    ++ Ingestion.marked_ids (Ingestion.channel_messages channel ++ live).
Proof.
  unfold TradeMonitorClient.run_session.
  set (pool := Ingestion.channel_messages channel ++ live).
  assert (Hg : forall l c', (forall m, m ∈ l -> m ∈ pool) ->
             TradeMonitorClient.ids c' ⊆ TradeMonitorClient.ids c ++ Ingestion.marked_ids pool ->
             TradeMonitorClient.ids
               (fold_left (fun c'' m => TradeMonitorClient.on_message m c'') l c')
             ⊆ TradeMonitorClient.ids c ++ Ingestion.marked_ids pool).
  { induction l as [|m l IH]; intros c' Hl Hc'; simpl; [exact Hc'|].
    apply IH; [intros m' Hm'; apply Hl, list_elem_of_further, Hm'|].
    eapply sourced_trans; [exact Hc'|].
    apply on_message_sourced, Hl, list_elem_of_here. }
  apply Hg.
  - intros m Hm. subst pool. apply elem_of_app. right. exact Hm.
  - intros mid Hin. apply on_ready_sourced, elem_of_app in Hin as [Hin|Hin];
      apply elem_of_app; [left; exact Hin | right].
    revert Hin. apply marked_ids_mono. intros m Hm. subst pool.
    apply elem_of_app. left. exact Hm.
Qed.

(** ** The backfill and the catch-up *)

Section ScanBounds.
Context `{Imaging} `{TradeMonitorClient.Outside}.
Import Db TradeMonitorClient Ingestion.

Lemma history_elem ch before after m :
  m ∈ history ch before after
  <-> m ∈ messages ch
      /\ match before with Some b => id m < b | None => True end
      /\ match after with Some a => a < id m | None => True end.
Proof.
  unfold history. rewrite merge_sort_Permutation, list_elem_of_In, List.filter_In,
    andb_true_iff, <- list_elem_of_In.
  destruct before as [b|], after as [a|]; rewrite ?Z.ltb_lt; intuition.
Qed.

Lemma historical_message_mono c m : ids c ⊆ ids (historical_message c m).
Proof.
  intros mid Hin. unfold historical_message.
  destruct (negb (str_in SEARCH_STRING (content m))); [exact Hin|].
  destruct (extract_trade_data_fast m) as [[trade_data xml_att] img_att].
  destruct (read_attachments xml_att img_att) as [[xml_bytes image_bytes]|]; [|exact Hin].
  destruct (sync_credentials (td_account_name trade_data) xml_bytes (db_conn c))
    as [d1 xml_path] eqn:Es.
  destruct (_get_or_create_account (td_account_name trade_data) None d1)
    as [d2 account_id] eqn:Ea.
  assert (Hd2 : trades d2 = trades (db_conn c)).
  { change d2 with (d2, account_id).1. rewrite <- Ea, _get_or_create_account_trades.
    change d1 with (d1, xml_path).1. rewrite <- Es. apply sync_credentials_trades. }
  destruct (db_raises (InsertTrade (str (id m)))).
  { unfold ids. cbn [db_conn with_db]. rewrite Hd2. exact Hin. }
  assert (Hins : forall r, mid ∈ map tr_message_id (trades (trades_insert_or_ignore r d2))).
  { intros r. apply (insert_rows_ids_present [r] d2 mid). left. rewrite Hd2. exact Hin. }
  destruct (Py.truthy_seq image_bytes).
  - rewrite scan_image_for_cards_ids. apply Hins.
  - apply Hins.
Qed.

Lemma historical_message_stores c m :
  marked m = true ->
  (forall a, a ∈ attachments m -> is_Some (read a)) ->
  db_raises (InsertTrade (str (id m))) = false ->
  str (id m) ∈ ids (historical_message c m).
Proof.
  intros Hmark Hread Hins. unfold historical_message. unfold marked in Hmark.
  rewrite Hmark. cbn [negb].
  pose proof (read_attachments_readable m Hread) as Hr.
  destruct (extract_trade_data_fast m) as [[trade_data xml_att] img_att] eqn:Ex.
  assert (Hid : td_message_id trade_data = id m).
  { unfold extract_trade_data_fast in Ex. injection Ex as <- _ _. reflexivity. }
  cbn [fst snd] in Hr. destruct Hr as [[xml_bytes image_bytes] ->].
  destruct (sync_credentials _ _ _) as [d1 xml_path].
  destruct (_get_or_create_account _ _ _) as [d2 account_id].
  rewrite Hins.
  assert (Hrow : forall r, tr_message_id r = str (id m) ->
            str (id m) ∈ map tr_message_id (trades (trades_insert_or_ignore r d2))).
  { intros r Hr. apply (insert_rows_ids_present [r] d2). right. simpl. rewrite Hr.
    apply list_elem_of_here. }
  destruct (Py.truthy_seq image_bytes).
  - rewrite scan_image_for_cards_ids. apply Hrow.
    unfold trade_row. cbn [tr_message_id td_message_id]. rewrite Hid. reflexivity.
  - apply Hrow. unfold trade_row. cbn [tr_message_id td_message_id]. rewrite Hid. reflexivity.
Qed.

Lemma fold_historical_message_stores l c m :
  m ∈ l ->
  marked m = true ->
  (forall a, a ∈ attachments m -> is_Some (read a)) ->
  db_raises (InsertTrade (str (id m))) = false ->
  str (id m) ∈ ids (fold_left historical_message l c).
Proof.
  intros Hin Hmark Hread Hins. revert c.
  assert (Hmono : forall l' c' mid, mid ∈ ids c' -> mid ∈ ids (fold_left historical_message l' c')).
  { induction l' as [|x l' IH]; intros c' mid Hmid; simpl; [exact Hmid|].
    apply IH, historical_message_mono, Hmid. }
  induction l as [|x l IH]; intros c; [inversion Hin|].
  apply elem_of_cons in Hin as [->|Hin]; simpl.
  - apply Hmono, historical_message_stores; assumption.
  - apply IH, Hin.
Qed.

(** The cache of the newest id is not touched by scans and batches. *)
Lemma scan_image_for_cards_cache trade_data image_bytes c :
  last_message_id_cache (scan_image_for_cards trade_data image_bytes c)
  = last_message_id_cache c.
Proof.
  unfold scan_image_for_cards.
  destruct (executor_shutdown c || negb (Py.truthy_seq (Some image_bytes))); [reflexivity|].
  destruct (run_recognition c image_bytes); try reflexivity;
    unfold store_scan; destruct (db_raises _); reflexivity.
Qed.

Lemma process_message_batch_fast_cache msgs c :
  last_message_id_cache (process_message_batch_fast msgs c).1 = last_message_id_cache c.
Proof.
  unfold process_message_batch_fast. destruct msgs as [|m0 msgs0]; [reflexivity|].
  cbn [fst].
  set (c1 := with_db _ c).
  change (last_message_id_cache c) with (last_message_id_cache c1).
  generalize c1. generalize (tasks_to_run (fold_left batch_message (m0 :: msgs0)
                                                     (mkBatch (db_conn c) [] []))).
  induction l as [|task l IH]; intros c'; simpl; [reflexivity|].
  rewrite IH. apply scan_image_for_cards_cache.
Qed.

End ScanBounds.

(** X18.  The historical backfill misses no trade it can read.  With the
    history readable and no fetch error, a message of the channel that
    carries the marker, whose attachments can be read and whose insert
    does not raise, has a row after the backfill, provided it is older
    than the oldest stored id (or the table is empty, or the MIN query
    fails, in which cases the whole channel is walked).  In particular
    the first start on an empty table stores it. *)
Theorem backfill_stores_every_readable_marked_message
        `{Imaging} `{TradeMonitorClient.Outside}
        (ch : TradeMonitorClient.Channel) (now : Z) (c : TradeMonitorClient.Client)
        (m : TradeMonitorClient.Message) :
  TradeMonitorClient.read_message_history ch = true ->
  TradeMonitorClient.fetch_fault ch = None ->
  m ∈ TradeMonitorClient.messages ch ->
  Ingestion.marked m = true ->
  (forall a, a ∈ TradeMonitorClient.attachments m -> is_Some (TradeMonitorClient.read a)) ->
  TradeMonitorClient.db_raises
    (TradeMonitorClient.InsertTrade (TradeMonitorClient.str (TradeMonitorClient.id m))) = false ->
  (TradeMonitorClient.db_raises TradeMonitorClient.SelectMin = true
   \/ match TradeMonitorClient.select_min_id (TradeMonitorClient.db_conn c) with
      | Some z => z = 0 \/ TradeMonitorClient.id m < z
      | None => True
      end ->
   TradeMonitorClient.str (TradeMonitorClient.id m)
   ∈ TradeMonitorClient.ids (TradeMonitorClient.perform_historical_scan_streaming (Some ch) c)) /\
  (Db.trades (TradeMonitorClient.db_conn c) = [] ->
   TradeMonitorClient.db_raises TradeMonitorClient.CountTrades = false ->
   TradeMonitorClient.str (TradeMonitorClient.id m)
   ∈ TradeMonitorClient.ids (TradeMonitorClient.on_ready (Some ch) now c)).
Proof.
  intros Hperm Hfetch Hin Hmark Hread Hins.
  assert (Hscan : forall c',
            TradeMonitorClient.db_raises TradeMonitorClient.SelectMin = true
            \/ match TradeMonitorClient.select_min_id (TradeMonitorClient.db_conn c') with
               | Some z => z = 0 \/ TradeMonitorClient.id m < z
               | None => True
               end ->
            TradeMonitorClient.str (TradeMonitorClient.id m)
            ∈ TradeMonitorClient.ids
                (TradeMonitorClient.perform_historical_scan_streaming (Some ch) c')).
  { intros c' Hold. unfold TradeMonitorClient.perform_historical_scan_streaming.
    rewrite Hperm, Hfetch. cbn [negb].
    apply fold_historical_message_stores; try assumption.
    apply history_elem. split; [exact Hin|]. split; [|exact I].
    destruct (TradeMonitorClient.db_raises TradeMonitorClient.SelectMin); [exact I|].
    destruct Hold as [Hold|Hold]; [discriminate|].
    destruct (TradeMonitorClient.select_min_id (TradeMonitorClient.db_conn c')) as [z|];
      [|exact I].
    destruct (Z.eqb_spec z 0) as [Hz|Hz]; [exact I|].
    destruct Hold as [Hold|Hold]; [contradiction | exact Hold]. }
  split; [apply Hscan|].
  intros Hempty Hcount. unfold TradeMonitorClient.on_ready. rewrite Hcount, Hempty.
  change (TradeMonitorClient.ids (TradeMonitorClient.with_initial_scan_done ?x))
    with (TradeMonitorClient.ids x).
  apply Hscan. right. unfold TradeMonitorClient.select_min_id. rewrite Hempty. exact I.
Qed.

(** The first start of [Samples.channel1] on the empty ledger stores
    message 1003. *)
Lemma backfill_stores_every_readable_marked_message_witness :
  Samples.message 1003 ∈ TradeMonitorClient.messages Samples.channel1 /\
  Ingestion.marked (Samples.message 1003) = true /\
  "1003"%string
  ∈ TradeMonitorClient.ids
      (@TradeMonitorClient.on_ready Samples.test_imaging Samples.quiet
         (Some Samples.channel1) 0 (Samples.client_of Db.empty)).
Proof.
  assert (Hin : Samples.message 1003 ∈ TradeMonitorClient.messages Samples.channel1).
  { apply list_elem_of_further, list_elem_of_further, list_elem_of_here. }
  split; [exact Hin|]. split; [reflexivity|].
  apply (@backfill_stores_every_readable_marked_message Samples.test_imaging Samples.quiet
           Samples.channel1 0 (Samples.client_of Db.empty) (Samples.message 1003)
           eq_refl eq_refl Hin eq_refl); try reflexivity.
  intros a Ha. apply list_elem_of_singleton in Ha. subst a. eexists; reflexivity.
Defined.

(** X19.  The incremental catch-up only looks forward: every key it adds
    belongs to a marked message of the channel whose id is greater than
    the cached newest id the scan ends with.  A message at or below that
    id is never stored by it. *)
Theorem catch_up_only_stores_newer_messages
        `{Imaging} `{TradeMonitorClient.Outside}
        (channel : option TradeMonitorClient.Channel) (now : Z)
        (c : TradeMonitorClient.Client) :
  let c' := TradeMonitorClient.perform_incremental_scan_fast channel now c in
  TradeMonitorClient.ids c'
  ⊆ TradeMonitorClient.ids c
    ++ Ingestion.marked_ids
         (List.filter (fun m => TradeMonitorClient.last_message_id_cache c'
                                <? TradeMonitorClient.id m)
                      (Ingestion.channel_messages channel)).
Proof.
  intros c'. subst c'. unfold TradeMonitorClient.perform_incremental_scan_fast.
  destruct channel as [ch|]; [|exact (sourced_refl _ c)]. cbn [Ingestion.channel_messages].
  match goal with
  | |- context [if ?cond then ?a else c] =>
      assert (Hc1 : TradeMonitorClient.ids (if cond then a else c) = TradeMonitorClient.ids c)
        by (destruct cond; [destruct (TradeMonitorClient.db_raises TradeMonitorClient.SelectMax)|];
            reflexivity);
      generalize dependent (if cond then a else c)
  end.
  intros c1 Hc1. rewrite <- Hc1.
  destruct (0 <? TradeMonitorClient.last_message_id_cache c1); [|apply sourced_refl].
  destruct (TradeMonitorClient.fetch_fault ch); [apply sourced_refl|].
  set (cache := TradeMonitorClient.last_message_id_cache c1).
  set (new_messages := TradeMonitorClient.history ch None (Some cache)).
  set (pool := List.filter (fun m => cache <? TradeMonitorClient.id m)
                           (TradeMonitorClient.messages ch)).
  assert (Hnew : forall m, m ∈ new_messages -> m ∈ pool).
  { intros m Hm. apply history_elem in Hm as (Hm & _ & Hlt).
    apply list_elem_of_In, List.filter_In. split; [apply list_elem_of_In, Hm|].
    apply Z.ltb_lt, Hlt. }
  assert (Hg : forall l s, (forall m, m ∈ l -> m ∈ pool) ->
             (forall m, m ∈ s.1 -> m ∈ pool) ->
             TradeMonitorClient.last_message_id_cache s.2 = cache ->
             TradeMonitorClient.ids s.2 ⊆ TradeMonitorClient.ids c1 ++ Ingestion.marked_ids pool ->
             (forall m, m ∈ (fold_left TradeMonitorClient.incremental_step l s).1 -> m ∈ pool) /\
             TradeMonitorClient.last_message_id_cache
               (fold_left TradeMonitorClient.incremental_step l s).2 = cache /\
             TradeMonitorClient.ids (fold_left TradeMonitorClient.incremental_step l s).2
             ⊆ TradeMonitorClient.ids c1 ++ Ingestion.marked_ids pool).
  { induction l as [|m l IH]; intros s Hl Hs1 Hsc Hs2; simpl; [auto|].
    assert (Hb : forall m', m' ∈ s.1 ++ [m] -> m' ∈ pool).
    { intros m' Hm'. apply elem_of_app in Hm' as [Hm'|Hm']; [apply Hs1, Hm'|].
      apply list_elem_of_singleton in Hm'. subst m'. apply Hl, list_elem_of_here. }
    apply IH; [intros m' Hm'; apply Hl, list_elem_of_further, Hm' | | |];
      unfold TradeMonitorClient.incremental_step;
      destruct (TradeMonitorClient.BATCH_SIZE <=? length (s.1 ++ [m]))%nat; cbn [fst snd].
    - intros m' Hm'. inversion Hm'.
    - exact Hb.
    - rewrite process_message_batch_fast_cache. exact Hsc.
    - exact Hsc.
    - eapply sourced_trans; [exact Hs2|].
      apply process_message_batch_fast_sourced, Hb.
    - exact Hs2. }
  destruct (Hg new_messages ([], c1) Hnew) as (Hs1 & Hsc & Hs2);
    [intros m Hm; inversion Hm | reflexivity | apply sourced_refl |].
  destruct (fold_left TradeMonitorClient.incremental_step new_messages ([], c1)).1
    as [|m0 l0] eqn:El.
  - rewrite Hsc. exact Hs2.
  - rewrite process_message_batch_fast_cache, Hsc.
    eapply sourced_trans; [exact Hs2|].
    apply process_message_batch_fast_sourced. exact Hs1.
Qed.

(** ** The wishlist *)

Section WishlistFacts.
Import Wishlist.

Lemma select_id_is_Some card_id w :
  is_Some (select_id card_id w) <-> card_id ∈ get_wishlist false w.
Proof.
  unfold select_id, get_wishlist. rewrite elem_of_list_to_set, list_elem_of_In, in_map_iff.
  split.
  - intros [i Hi]. destruct (List.filter _ (rows w)) as [|r l] eqn:Ef; [discriminate|].
    assert (Hin : In r (List.filter (fun r => w_card_id r =? card_id) (rows w)))
      by (rewrite Ef; left; reflexivity).
    apply List.filter_In in Hin as [Hin Hr]. apply Z.eqb_eq in Hr. exists r. auto.
  - intros (r & Hr & Hin).
    assert (Hf : In r (List.filter (fun r => w_card_id r =? card_id) (rows w))).
    { apply List.filter_In. split; [exact Hin|]. apply Z.eqb_eq, Hr. }
    destruct (List.filter _ (rows w)); [destruct Hf|]. eexists; reflexivity.
Qed.

Lemma get_wishlist_delete card_id w :
  get_wishlist false (delete card_id w) = get_wishlist false w ∖ {[card_id]}.
Proof.
  apply set_eq. intros x. unfold get_wishlist, delete. cbn [rows].
  rewrite elem_of_difference, !elem_of_list_to_set, !list_elem_of_In, !in_map_iff,
    elem_of_singleton.
  split.
  - intros (r & Hr & Hin). apply List.filter_In in Hin as [Hin Hne].
    apply negb_true_iff, Z.eqb_neq in Hne. split; [exists r; auto | congruence].
  - intros [(r & Hr & Hin) Hne]. exists r. split; [exact Hr|].
    apply List.filter_In. split; [exact Hin|]. apply negb_true_iff, Z.eqb_neq. congruence.
Qed.

Lemma get_wishlist_insert card_id w :
  get_wishlist false (insert card_id w) = {[card_id]} ∪ get_wishlist false w.
Proof.
  apply set_eq. intros x. unfold get_wishlist, insert. cbn [rows].
  rewrite List.map_app, list_to_set_app, elem_of_union, elem_of_union. simpl.
  rewrite elem_of_union, elem_of_singleton, elem_of_empty. tauto.
Qed.

Lemma delete_unique card_id w : unique w -> unique (delete card_id w).
Proof.
  unfold unique, delete. cbn [rows]. induction (rows w) as [|r l IH]; simpl; [auto|].
  rewrite NoDup_cons. intros [Hr Hl].
  destruct (negb (w_card_id r =? card_id)); simpl; [|auto].
  apply NoDup_cons. split; [|auto].
  intros Hin. apply Hr. apply list_elem_of_In in Hin. apply list_elem_of_In.
  apply in_map_iff in Hin as (r' & Hk & Hin). apply List.filter_In in Hin as [Hin _].
  rewrite <- Hk. apply in_map, Hin.
Qed.

Lemma insert_unique card_id w :
  select_id card_id w = None -> unique w -> unique (insert card_id w).
Proof.
  unfold unique, insert. cbn [rows]. intros Hn Hu.
  rewrite List.map_app. simpl. apply NoDup_app. split; [exact Hu|]. split.
  - intros x Hx Hin. apply list_elem_of_singleton in Hin. subst x.
    assert (Hs : is_Some (select_id card_id w)).
    { apply select_id_is_Some. unfold get_wishlist. apply elem_of_list_to_set, Hx. }
    rewrite Hn in Hs. destruct Hs; discriminate.
  - apply NoDup_singleton.
Qed.

(** Flipping the membership of one element of a set. *)
Lemma flip_membership (S : gset Z) (x : Z) :
  let S' := if bool_decide (x ∈ S) then S ∖ {[x]} else {[x]} ∪ S in
  (x ∈ S' <-> x ∉ S) /\
  (forall y, y <> x -> (y ∈ S' <-> y ∈ S)) /\
  (if bool_decide (x ∈ S') then S' ∖ {[x]} else {[x]} ∪ S') = S.
Proof.
  intros S'. subst S'.
  destruct (bool_decide_reflect (x ∈ S)) as [Hx|Hx].
  - assert (Hnot : x ∉ S ∖ {[x]}).
    { rewrite elem_of_difference, elem_of_singleton. tauto. }
    split; [tauto|]. split.
    + intros y Hy. rewrite elem_of_difference, elem_of_singleton. tauto.
    + rewrite bool_decide_eq_false_2 by exact Hnot.
      apply set_eq. intros y.
      rewrite elem_of_union, elem_of_difference, !elem_of_singleton.
      destruct (decide (y = x)) as [->|Hy]; tauto.
  - assert (Hin : x ∈ {[x]} ∪ S).
    { rewrite elem_of_union, elem_of_singleton. tauto. }
    split; [tauto|]. split.
    + intros y Hy. rewrite elem_of_union, elem_of_singleton. tauto.
    + rewrite bool_decide_eq_true_2 by exact Hin.
      apply set_eq. intros y.
      rewrite elem_of_difference, elem_of_union, !elem_of_singleton.
      destruct (decide (y = x)) as [->|Hy]; tauto.
Qed.

End WishlistFacts.

(** X20.  [toggle_wishlist_status] flips the membership of the card and
    reports the new one: when nothing raises, the card is in the wishlist
    afterwards exactly when it was not before, no other card enters or
    leaves, the returned boolean is the new membership, the UNIQUE
    constraint is kept, and a second toggle restores the set.  When the
    write raises the store is left as it was and the returned boolean is
    the unchanged membership; a missing card id returns [False] and
    changes nothing. *)
Theorem toggle_wishlist_status_flips_membership (card_id : Z) (w : Wishlist.Store) :
  let r := Wishlist.toggle_wishlist_status Wishlist.NoFault (Some card_id) w in
  let before := Wishlist.get_wishlist false w in
  let after := Wishlist.get_wishlist false r.1 in
  (card_id ∈ after <-> card_id ∉ before) /\
  (forall other, other <> card_id -> (other ∈ after <-> other ∈ before)) /\
  r.2 = Some (bool_decide (card_id ∈ after)) /\
  (Wishlist.unique w -> Wishlist.unique r.1) /\
  Wishlist.get_wishlist false
    (Wishlist.toggle_wishlist_status Wishlist.NoFault (Some card_id) r.1).1 = before /\
  Wishlist.toggle_wishlist_status Wishlist.WriteRaises (Some card_id) w
  = (w, Some (bool_decide (card_id ∈ before))) /\
  Wishlist.toggle_wishlist_status Wishlist.NoFault None w = (w, Some false).
Proof.
  intros r before after.
  assert (Hstep : forall w0,
            Wishlist.get_wishlist false
              (Wishlist.toggle_wishlist_status Wishlist.NoFault (Some card_id) w0).1
            = if bool_decide (card_id ∈ Wishlist.get_wishlist false w0)
              then Wishlist.get_wishlist false w0 ∖ {[card_id]}
              else {[card_id]} ∪ Wishlist.get_wishlist false w0).
  { intros w0. unfold Wishlist.toggle_wishlist_status.
    pose proof (select_id_is_Some card_id w0) as Hs.
    destruct (Wishlist.select_id card_id w0) as [i|] eqn:Esel; cbn [fst].
    - rewrite bool_decide_eq_true_2 by (apply Hs; eexists; reflexivity).
      apply get_wishlist_delete.
    - rewrite bool_decide_eq_false_2
        by (intros Hin; apply Hs in Hin; destruct Hin; discriminate).
      apply get_wishlist_insert. }
  assert (Hafter : after = if bool_decide (card_id ∈ before)
                           then before ∖ {[card_id]} else {[card_id]} ∪ before).
  { subst after r. apply Hstep. }
  destruct (flip_membership before card_id) as (Hflip & Hother & Hback).
  rewrite <- Hafter in Hflip, Hother, Hback.
  split; [exact Hflip|]. split; [exact Hother|].
  split; [|split; [|split; [|split]]].
  - subst r. unfold Wishlist.toggle_wishlist_status.
    pose proof (select_id_is_Some card_id w) as Hs. fold before in Hs.
    destruct (Wishlist.select_id card_id w) as [i|] eqn:Esel; cbn [snd]; f_equal; symmetry.
    + apply bool_decide_eq_false_2. rewrite Hflip. intros Hn. apply Hn, Hs.
      eexists; reflexivity.
    + apply bool_decide_eq_true_2. apply Hflip. intros Hb. apply Hs in Hb.
      destruct Hb; discriminate.
  - intros Hu. subst r. unfold Wishlist.toggle_wishlist_status.
    destruct (Wishlist.select_id card_id w) as [i|] eqn:Esel; cbn [fst].
    + apply delete_unique, Hu.
    + apply insert_unique; assumption.
  - rewrite Hstep. fold r. fold after. exact Hback.
  - unfold Wishlist.toggle_wishlist_status. f_equal. f_equal.
    apply bool_decide_ext, select_id_is_Some.
  - reflexivity.
Qed.

(** ** Thresholds and batches of screenshots *)

Section ThresholdFacts.
Context `{Imaging}.
Import Db Matcher CardRecognizer RecognizerApi.

Lemma accepted_match_raised r t img box :
  (similarity_threshold r <= t)%Q ->
  accepted_match (mkRecognizer (template_hashes r) t (card_details r)) img box
  = match accepted_match r img box with
    | Some m => if Qle_bool t (m_similarity m) then Some m else None
    | None => None
    end.
Proof.
  intros Hle. unfold accepted_match. cbn [template_hashes card_details similarity_threshold].
  destruct (crop img box) as [card_img|]; simpl; [|reflexivity].
  destruct (calculate_color_hash card_img) as [h|]; simpl; [|reflexivity].
  destruct (String.eqb h ""); [reflexivity|].
  destruct (_find_best_match _ _ h) as [[m|]|]; simpl; try reflexivity.
  destruct (Qle_bool t (m_similarity m)) eqn:Et.
  - assert (Qle_bool (similarity_threshold r) (m_similarity m) = true) as ->.
    { apply Qle_bool_iff. apply Qle_bool_iff in Et. eapply Qle_trans; eassumption. }
    rewrite Et. reflexivity.
  - destruct (Qle_bool (similarity_threshold r) (m_similarity m)); [rewrite Et|]; reflexivity.
Qed.

Lemma slot_results_raised r t img l pcs :
  (similarity_threshold r <= t)%Q ->
  omap (slot_result (mkRecognizer (template_hashes r) t (card_details r)) img l) pcs
  = List.filter (fun x => Qle_bool t (res_similarity x)) (omap (slot_result r img l) pcs).
Proof.
  intros Hle. induction pcs as [|pc pcs IH]; [reflexivity|].
  assert (Hs : slot_result (mkRecognizer (template_hashes r) t (card_details r)) img l pc
               = match slot_result r img l pc with
                 | Some x => if Qle_bool t (res_similarity x) then Some x else None
                 | None => None
                 end).
  { unfold slot_result. rewrite accepted_match_raised by exact Hle.
    destruct (accepted_match r img pc.2) as [m|]; simpl; [|reflexivity].
    destruct (Qle_bool t (m_similarity m)); reflexivity. }
  cbn [omap list_omap]. rewrite Hs.
  destruct (slot_result r img l pc) as [x|]; [|exact IH].
  cbn [List.filter]. destruct (Qle_bool t (res_similarity x)); [f_equal|]; exact IH.
Qed.

End ThresholdFacts.

Section BatchFacts.
Context `{Imaging}.
Variable path_exists : string -> bool.
Variable open_path : string -> option Image.
Import Db CardRecognizer RecognizerApi.

Lemma fold_batch_lookup r (paths : list string) (acc : gmap string (list RecResult)) p :
  fold_left (fun all_results image_path =>
               <[image_path := batch_entry path_exists open_path r image_path]> all_results)
            paths acc !! p
  = if bool_decide (p ∈ paths) then Some (batch_entry path_exists open_path r p)
    else acc !! p.
Proof.
  revert acc. induction paths as [|x paths IH]; intros acc; simpl; [reflexivity|].
  rewrite IH. destruct (bool_decide_reflect (p ∈ paths)) as [Hin|Hin].
  - rewrite bool_decide_eq_true_2 by (apply list_elem_of_further, Hin). reflexivity.
  - destruct (decide (p = x)) as [->|Hne].
    + rewrite bool_decide_eq_true_2 by apply list_elem_of_here.
      apply lookup_insert_eq.
    + rewrite bool_decide_eq_false_2.
      * apply lookup_insert_ne. congruence.
      * intros Hc. apply elem_of_cons in Hc as [Hc|Hc]; contradiction.
Qed.

End BatchFacts.

(** X21.  [set_threshold] accepts exactly the thresholds between 0 and
    100, bounds included: it returns a recognizer when the threshold is in
    that range and raises for any other, whatever the current threshold.
    The recognizer it returns has the new threshold and the same
    templates.  Raising the threshold this way only removes results: on
    any screenshot the new recognizer returns, in the same order, those
    results of the old one whose similarity reaches the new threshold, and
    it fails on the layout exactly when the old one does. *)
Theorem raising_the_threshold_only_removes_results
        `{Imaging} (r : CardRecognizer.Recognizer) (threshold : Q) (source_img : Image) :
  (is_Some (RecognizerApi.set_threshold threshold r) <-> (0 <= threshold <= 100)%Q) /\
  (RecognizerApi.set_threshold threshold r = None
   <-> ~ (0 <= threshold <= 100)%Q) /\
  (forall r', RecognizerApi.set_threshold threshold r = Some r' ->
     CardRecognizer.similarity_threshold r' = threshold /\
     CardRecognizer.template_hashes r' = CardRecognizer.template_hashes r /\
     ((CardRecognizer.similarity_threshold r <= threshold)%Q ->
      CardRecognizer.recognize_from_image r' source_img
      = match CardRecognizer.recognize_from_image r source_img with
        | inr results =>
            inr (List.filter (fun x => Qle_bool threshold (Db.res_similarity x)) results)
        | inl e => inl e
        end)).
Proof.
  unfold RecognizerApi.set_threshold.
  assert (Hrange : Qle_bool 0 threshold && Qle_bool threshold 100 = true
                   <-> (0 <= threshold <= 100)%Q).
  { rewrite andb_true_iff, !Qle_bool_iff. reflexivity. }
  destruct (Qle_bool 0 threshold && Qle_bool threshold 100) eqn:Eb; cbn [negb].
  - split; [|split].
    + split; [intros _; apply Hrange; reflexivity | intros _; eexists; reflexivity].
    + split; [discriminate | intros Hn; exfalso; apply Hn, Hrange; reflexivity].
    + intros r' [= <-]. split; [reflexivity|]. split; [reflexivity|].
      intros Hle. unfold CardRecognizer.recognize_from_image.
      destruct (CardRecognizer.get_layout_from_image source_img) as [l|]; [|reflexivity].
      destruct (CardRecognizer.LAYOUT_CROP_BOXES l) as [boxes|]; [|reflexivity].
      rewrite !fold_process_position. cbn [app]. f_equal.
      apply slot_results_raised, Hle.
  - split; [|split].
    + split; [intros [x Hx]; discriminate | intros Hr; apply Hrange in Hr; discriminate].
    + split; [intros _ Hr; apply Hrange in Hr; discriminate | reflexivity].
    + intros r' Hr. discriminate.
Qed.

(** [Samples.recognizer1] (threshold 75): 100 is accepted and filters the
    results of the screenshot of scenario A; -5 and 101 are refused. *)
Lemma raising_the_threshold_only_removes_results_witness :
  RecognizerApi.set_threshold 100 Samples.recognizer1
  = Some (CardRecognizer.mkRecognizer [Samples.template1] 100 Samples.no_details) /\
  RecognizerApi.set_threshold (-5) Samples.recognizer1 = None /\
  RecognizerApi.set_threshold 101 Samples.recognizer1 = None /\
  @CardRecognizer.recognize_from_image Samples.test_imaging
    (CardRecognizer.mkRecognizer [Samples.template1] 100 Samples.no_details)
    Samples.screenshot_a
  = match @CardRecognizer.recognize_from_image Samples.test_imaging
            Samples.recognizer1 Samples.screenshot_a with
    | inr results => inr (List.filter (fun x => Qle_bool 100 (Db.res_similarity x)) results)
    | inl e => inl e
    end.
Proof.
  split; [reflexivity|]. split; [reflexivity|]. split; [reflexivity|].
  destruct (@raising_the_threshold_only_removes_results Samples.test_imaging
              Samples.recognizer1 100 Samples.screenshot_a) as (_ & _ & Hset).
  destruct (Hset _ eq_refl) as (_ & _ & Hfilter).
  apply Hfilter. vm_compute. discriminate.
Defined.

(** X22.  [batch_recognize] returns one entry per input path and no other
    key: a path of the list maps to the results [recognize] gives for it,
    or to the empty list when [recognize] raises (file missing, image that
    does not open, layout not detected), so one bad screenshot never
    aborts the batch; a path given twice has one entry. *)
Theorem batch_recognize_has_one_entry_per_path
        `{Imaging} (path_exists : string -> bool) (open_path : string -> option Image)
        (r : CardRecognizer.Recognizer) (image_paths : list string) (p : string) :
  RecognizerApi.batch_recognize path_exists open_path r image_paths !! p
  = (if bool_decide (p ∈ image_paths)
     then Some (match RecognizerApi.recognize path_exists open_path r p with
                | inr results => results
                | inl _ => []
                end)
     else None) /\
  dom (RecognizerApi.batch_recognize path_exists open_path r image_paths)
  = list_to_set image_paths /\
  (path_exists p = false \/ open_path p = None ->
   RecognizerApi.batch_recognize path_exists open_path r (image_paths ++ [p]) !! p = Some []).
Proof.
  assert (Hl : forall l q,
            RecognizerApi.batch_recognize path_exists open_path r l !! q
            = if bool_decide (q ∈ l)
              then Some (RecognizerApi.batch_entry path_exists open_path r q) else None).
  { intros l q. unfold RecognizerApi.batch_recognize. rewrite fold_batch_lookup.
    destruct (bool_decide (q ∈ l)); [reflexivity | apply lookup_empty]. }
  split; [apply Hl|]. split.
  - apply set_eq. intros q. rewrite elem_of_dom, Hl, elem_of_list_to_set.
    destruct (bool_decide_reflect (q ∈ image_paths)) as [Hin|Hin].
    + split; [intros _; exact Hin | intros _; eexists; reflexivity].
    + split; [intros [x Hx]; discriminate | contradiction].
  - intros Hbad. rewrite Hl.
    rewrite bool_decide_eq_true_2
      by (apply elem_of_app; right; apply list_elem_of_here).
    f_equal. unfold RecognizerApi.batch_entry, RecognizerApi.recognize.
    destruct Hbad as [-> | Hopen]; [reflexivity|].
    destruct (negb (path_exists p)); [reflexivity|]. rewrite Hopen. reflexivity.
Qed.

(** X23.  The wishlist cache follows the table.  [load_wishlist] makes the
    cache equal to the table when the query does not raise; from a cache
    equal to the table, [toggle_wishlist] keeps it equal whatever happens
    (success, a failed write, a failed SELECT, a missing card id); and
    after a toggle that returns, [is_wished] of the toggled card is the
    returned state. *)
Theorem wishlist_cache_follows_the_table
        (fault : Wishlist.Fault) (card_id : option Z) (m : WishlistManager.Manager) :
  WishlistManager.coherent m ->
  let r := WishlistManager.toggle_wishlist fault card_id m in
  WishlistManager.coherent r.1 /\
  (forall c state, card_id = Some c -> r.2 = Some state ->
                   WishlistManager.is_wished c r.1 = state) /\
  WishlistManager.coherent (WishlistManager.load_wishlist false r.1).
Proof.
  intros Hco r. subst r. unfold WishlistManager.coherent in *.
  unfold WishlistManager.toggle_wishlist, WishlistManager.is_wished.
  split; [|split; [|reflexivity]].
  - destruct card_id as [c|]; [|exact Hco].
    destruct fault; cbn [Wishlist.toggle_wishlist_status].
    + pose proof (select_id_is_Some c (WishlistManager.db m)) as Hs.
      destruct (Wishlist.select_id c (WishlistManager.db m)) as [i|] eqn:Esel;
        cbn [fst WishlistManager.db WishlistManager.wishlist_set].
      * rewrite get_wishlist_delete, Hco. reflexivity.
      * rewrite get_wishlist_insert, Hco. reflexivity.
    + exact Hco.
    + cbn [fst WishlistManager.db WishlistManager.wishlist_set].
      pose proof (select_id_is_Some c (WishlistManager.db m)) as Hs. rewrite <- Hco in Hs.
      destruct (bool_decide_reflect (is_Some (Wishlist.select_id c (WishlistManager.db m))))
        as [Hb|Hb]; rewrite Hs in Hb; rewrite <- Hco; apply set_eq; intros x.
      * rewrite elem_of_union, elem_of_singleton.
        split; [intros [->|Hx]; assumption | tauto].
      * rewrite elem_of_difference, elem_of_singleton.
        split; [tauto | intros Hx; split; [exact Hx | congruence]].
  - intros c state -> Hr.
    destruct fault; cbn [Wishlist.toggle_wishlist_status] in *.
    + destruct (Wishlist.select_id c (WishlistManager.db m)) as [i|];
        cbn [fst snd WishlistManager.wishlist_set] in *; injection Hr as <-.
      * apply bool_decide_eq_false_2. rewrite elem_of_difference, elem_of_singleton. tauto.
      * apply bool_decide_eq_true_2. rewrite elem_of_union, elem_of_singleton. tauto.
    + discriminate.
    + cbn [fst snd WishlistManager.wishlist_set] in *. injection Hr as <-.
      destruct (bool_decide (is_Some (Wishlist.select_id c (WishlistManager.db m)))).
      * apply bool_decide_eq_true_2. rewrite elem_of_union, elem_of_singleton. tauto.
      * apply bool_decide_eq_false_2. rewrite elem_of_difference, elem_of_singleton. tauto.
Qed.

(** Card 7 toggled on an empty wishlist with an empty cache. *)
Lemma wishlist_cache_follows_the_table_witness :
  WishlistManager.coherent (WishlistManager.mkManager (Wishlist.mkStore [] 0) ∅) /\
  WishlistManager.is_wished 7
    (WishlistManager.toggle_wishlist Wishlist.NoFault (Some 7)
       (WishlistManager.mkManager (Wishlist.mkStore [] 0) ∅)).1
  = true.
Proof.
  assert (Hco : WishlistManager.coherent (WishlistManager.mkManager (Wishlist.mkStore [] 0) ∅)).
  { reflexivity. }
  split; [exact Hco|].
  destruct (wishlist_cache_follows_the_table Wishlist.NoFault (Some 7) _ Hco) as (_ & Hw & _).
  apply (Hw 7 true); reflexivity.
Defined.

(** X24.  [download_attachment_fast] sends no request for a file that is
    already there ("skipped") and at most MAX_RETRIES = 3 otherwise: it
    stops at the first attempt that answers 200 and is written to the
    file, returning the path and "downloaded" after one request and one
    pause per earlier attempt; when none of the three succeeds it returns
    no path and "failed" after three requests and two pauses. *)
Theorem download_stops_at_first_success
        (join : string -> string -> string) (path_exists : string -> bool)
        (get : nat -> Download.Response) (sub_folder filename : string) :
  Download.download_attachment_fast join path_exists get sub_folder filename
  = if path_exists (join sub_folder filename)
    then Download.mkOutcome (Some (join sub_folder filename)) "skipped" 0 0
    else match List.find (fun attempt => Download.succeeded (get attempt))
                         (seq 0 Download.MAX_RETRIES) with
         | Some attempt =>
             Download.mkOutcome (Some (join sub_folder filename)) "downloaded"
                                (S attempt) attempt
         | None =>
             Download.mkOutcome None "failed" Download.MAX_RETRIES (Download.MAX_RETRIES - 1)
         end.
Proof.
  unfold Download.download_attachment_fast.
  destruct (path_exists (join sub_folder filename)); [reflexivity|].
  unfold Download.MAX_RETRIES. simpl.
  destruct (get 0%nat) as [s0 [|]|]; simpl; try destruct (s0 =? 200); simpl; try reflexivity;
    destruct (get 1%nat) as [s1 [|]|]; simpl; try destruct (s1 =? 200); simpl; try reflexivity;
    destruct (get 2%nat) as [s2 [|]|]; simpl; try destruct (s2 =? 200); simpl; reflexivity.
Qed.

(** ** From a detection to the inventory *)

Section CardFoundFacts.
Import Db MainWindow CardFound.

Lemma ui_get_or_create_account_frame raises name d :
  account_inventory (CardFound._get_or_create_account raises name d).1 = account_inventory d /\
  found_cards (CardFound._get_or_create_account raises name d).1 = found_cards d /\
  trades (CardFound._get_or_create_account raises name d).1 = trades d.
Proof.
  unfold CardFound._get_or_create_account.
  destruct raises; [auto|]. destruct (accounts_lookup name d); auto.
Qed.

(** What [on_card_found] does to the queue: nothing, or one event with
    both ids truthy appended. *)
Lemma on_card_found_queue read_raises account_raises card_lookup card_data st :
  let st' := on_card_found read_raises account_raises card_lookup card_data st in
  account_inventory (db st') = account_inventory (db st) /\
  found_cards (db st') = found_cards (db st) /\
  (db_write_queue st' = db_write_queue st \/
   exists e a c,
     db_write_queue st' = db_write_queue st ++ [e] /\
     ev_account_id e = Some a /\ ev_card_id e = Some c /\ a <> 0 /\ c <> 0 /\
     ev_message_id e = cd_message_id card_data).
Proof.
  intros st'. subst st'. unfold on_card_found.
  destruct read_raises; [auto|].
  destruct (cd_set_code card_data) as [set_code|]; [|auto].
  destruct (cd_card_number card_data) as [card_number|]; [|auto].
  destruct (card_lookup set_code card_number) as [c|] eqn:Ec; cbn [Py.truthy negb]; [|auto].
  destruct (Z.eqb_spec c 0) as [Hc|Hc]; cbn [negb]; [auto|].
  destruct (cd_account_name card_data) as [name|]; [|auto].
  destruct (ui_get_or_create_account_frame account_raises name (db st)) as (Hi & Hf & _).
  destruct (CardFound._get_or_create_account account_raises name (db st)) as [d account_id].
  cbn [fst] in Hi, Hf.
  destruct account_id as [a|]; cbn [Py.truthy]; [|cbn [db db_write_queue]; auto].
  destruct (Z.eqb_spec a 0) as [Ha|Ha]; cbn [negb db db_write_queue]; [auto|].
  split; [exact Hi|]. split; [exact Hf|]. right.
  eexists _, a, c. repeat split; auto.
Qed.

End CardFoundFacts.

(** X25.  A detection that reaches the write queue is complete: starting
    from an empty queue, [on_card_found] leaves the queue empty or holds
    one event whose card id and account id are both truthy; the next flush
    whose transaction commits then logs exactly that one row and raises
    the inventory of that (account, card) by exactly one, in a single row.
    [on_card_found] itself never writes to the inventory or to the log. *)
Theorem found_card_is_logged_and_counted
        (read_raises account_raises : bool) (card_lookup : string -> string -> option Z)
        (card_data : CardFound.CardData) (raises : nat -> bool) (st : MainWindow.State) :
  MainWindow.db_write_queue st = [] ->
  Db.inv_unique (Db.account_inventory (MainWindow.db st)) ->
  let st1 := CardFound.on_card_found read_raises account_raises card_lookup card_data st in
  let st2 := MainWindow.process_db_write_queue raises st1 in
  is_Some (MainWindow.transaction raises (MainWindow.db_write_queue st1) (MainWindow.db st1)) ->
  Db.account_inventory (MainWindow.db st1) = Db.account_inventory (MainWindow.db st) /\
  Db.found_cards (MainWindow.db st1) = Db.found_cards (MainWindow.db st) /\
  match MainWindow.db_write_queue st1 with
  | [] =>
      Db.account_inventory (MainWindow.db st2) = Db.account_inventory (MainWindow.db st) /\
      Db.found_cards (MainWindow.db st2) = Db.found_cards (MainWindow.db st)
  | e :: rest =>
      rest = [] /\
      exists a c,
        MainWindow.ev_account_id e = Some a /\ MainWindow.ev_card_id e = Some c /\
        a <> 0 /\ c <> 0 /\
        Db.inv_select a c (Db.account_inventory (MainWindow.db st2))
        = [MainWindow.quantity_of a c (Db.account_inventory (MainWindow.db st)) + 1] /\
        map MainWindow.found_key (Db.found_cards (MainWindow.db st2))
        = map MainWindow.found_key (Db.found_cards (MainWindow.db st))
          ++ [(c, Some a, CardFound.cd_message_id card_data)]
  end.
Proof.
  intros Hq Hu st1 st2 Hs.
  destruct (on_card_found_queue read_raises account_raises card_lookup card_data st)
    as (Hi & Hf & Hqueue).
  fold st1 in Hi, Hf, Hqueue.
  split; [exact Hi|]. split; [exact Hf|].
  assert (Hdb : MainWindow.db st2
                = MainWindow.apply_events (MainWindow.db_write_queue st1) (MainWindow.db st1)).
  { subst st2. apply process_db_write_queue_db, Hs. }
  rewrite Hq in Hqueue. destruct Hqueue as [Hsame | (e & a & c & He & Ha & Hc & Ha0 & Hc0 & Hm)].
  - rewrite Hsame in *. rewrite Hdb. cbn [MainWindow.apply_events fold_left].
    split; assumption.
  - cbn [app] in He. rewrite He in *. split; [reflexivity|].
    exists a, c. repeat split; try assumption.
    + rewrite Hdb.
      assert (Hu1 : Db.inv_unique (Db.account_inventory (MainWindow.db st1)))
        by (rewrite Hi; exact Hu).
      destruct (inventory_apply_events a c [e] (MainWindow.db st1) Hu1) as [_ Hsel].
      rewrite Hsel. cbn [List.filter].
      assert (Ht : MainWindow.targets a c e = true).
      { unfold MainWindow.targets. apply bool_decide_eq_true. apply upsert_params_Some. auto. }
      rewrite Ht. cbn [length]. rewrite Hi. reflexivity.
    + rewrite Hdb, found_cards_apply_events, Hf. f_equal.
      cbn [omap list_omap]. unfold MainWindow.event_key. rewrite Hc, Ha, Hm. reflexivity.
Qed.

(** Card "A1"/"001" (id 7) detected for the account "acc" of
    [Samples.ledger1] (id 3), which holds 5 copies: the flush leaves 6. *)
Lemma found_card_is_logged_and_counted_witness :
  Db.inv_unique (Db.account_inventory Samples.ledger1) /\
  Db.inv_select 3 7
    (Db.account_inventory
       (MainWindow.db
          (MainWindow.process_db_write_queue MainWindow.never
             (CardFound.on_card_found false false (fun _ _ => Some 7)
                (CardFound.mkCardData (Some "A1"%string) (Some "001"%string)
                                      (Some "acc"%string) (Some "1001"%string)
                                      (Some 90%Q) None)
                (MainWindow.mkState Samples.ledger1 [])))))
  = [6].
Proof.
  assert (Hu : Db.inv_unique (Db.account_inventory Samples.ledger1)).
  { apply (bool_decide_unpack _). vm_compute. exact I. }
  split; [exact Hu|].
  assert (Hs : is_Some (MainWindow.transaction MainWindow.never
                 (MainWindow.db_write_queue
                    (CardFound.on_card_found false false (fun _ _ => Some 7)
                       (CardFound.mkCardData (Some "A1"%string) (Some "001"%string)
                                             (Some "acc"%string) (Some "1001"%string)
                                             (Some 90%Q) None)
                       (MainWindow.mkState Samples.ledger1 [])))
                 (MainWindow.db
                    (CardFound.on_card_found false false (fun _ _ => Some 7)
                       (CardFound.mkCardData (Some "A1"%string) (Some "001"%string)
                                             (Some "acc"%string) (Some "1001"%string)
                                             (Some 90%Q) None)
                       (MainWindow.mkState Samples.ledger1 []))))).
  { rewrite transaction_never. eexists; reflexivity. }
  destruct (found_card_is_logged_and_counted false false (fun _ _ => Some 7)
              (CardFound.mkCardData (Some "A1"%string) (Some "001"%string)
                                    (Some "acc"%string) (Some "1001"%string)
                                    (Some 90%Q) None)
              MainWindow.never (MainWindow.mkState Samples.ledger1 []) eq_refl Hu Hs)
    as (_ & _ & Hq).
  cbn in Hq. destruct Hq as (_ & a & c & Ha & Hc & _ & _ & Hsel & _).
  injection Ha as <-. injection Hc as <-. exact Hsel.
Defined.

(** ** The length of a fingerprint *)

Section FingerprintFacts.
Import ImageProcessing.

Lemma cells_length above y s n :
  (0 < s)%nat \/ y <> 0%nat ->
  length (concat (map (cell above y) (seq s n))) = (3 * n)%nat.
Proof.
  intros Hne. revert s Hne. induction n as [|n IH]; intros s Hne; simpl; [reflexivity|].
  rewrite length_app, IH by (destruct Hne; [left; lia | right; assumption]).
  unfold cell.
  assert ((s =? 0)%nat && (y =? 0)%nat = false) as ->.
  { apply andb_false_iff. destruct Hne as [Hs|Hy];
      [left; apply Nat.eqb_neq; lia | right; apply Nat.eqb_neq, Hy]. }
  simpl. lia.
Qed.

Lemma rows_length above f s n :
  (0 < s)%nat -> (0 < f)%nat ->
  length (concat (map (fun y => concat (map (cell above y) (seq 0 f))) (seq s n)))
  = (3 * f * n)%nat.
Proof.
  intros Hs Hf. revert s Hs. induction n as [|n IH]; intros s Hs; simpl; [lia|].
  rewrite length_app, IH by lia.
  rewrite cells_length by (right; lia). lia.
Qed.

Lemma cells_alphabet above y l :
  Forall (fun ch => ch = bit true \/ ch = bit false) (concat (map (cell above y) l)).
Proof.
  induction l as [|x l IH]; simpl; [constructor|].
  apply Forall_app. split; [|exact IH].
  unfold cell. destruct ((x =? 0)%nat && (y =? 0)%nat); [constructor|].
  repeat (apply Forall_cons; split; [destruct (above _ y x); auto|]). constructor.
Qed.

Lemma hash_chars_length above f :
  (0 < f)%nat ->
  length (concat (map (fun y => concat (map (cell above y) (seq 0 f))) (seq 0 f)))
  = (3 * (f * f - 1))%nat.
Proof.
  intros Hf. destruct f as [|f']; [lia|].
  set (G := fun y => concat (map (cell above y) (seq 0 (S f')))).
  cbn [seq map concat]. rewrite length_app.
  subst G. cbv beta. rewrite rows_length by lia.
  cbn [seq map concat]. rewrite length_app, cells_length by (left; lia).
  change (length (cell above 0 0)) with 0%nat. nia.
Qed.

Lemma hash_chars_alphabet above f rows :
  Forall (fun ch => ch = bit true \/ ch = bit false)
         (concat (map (fun y => concat (map (cell above y) (seq 0 f))) rows)).
Proof.
  induction rows as [|y rows IH]; simpl; [constructor|].
  apply Forall_app. split; [apply cells_alphabet | exact IH].
Qed.

End FingerprintFacts.

(** X26.  A fingerprint's length is fixed by the hash size alone: when
    [calculate_color_hash] returns a string it has 3 * ((hash_size // 4)^2 - 1)
    characters, each '0' or '1', whatever the image: 105 for the
    configured size 24.  Two fingerprints computed with one hash size
    therefore have the same length.  With a hash size below 4 it returns
    nothing. *)
Theorem fingerprint_length_is_fixed_by_hash_size
        (above above' : nat -> nat -> nat -> bool) (hash_size : nat) (h h' : string) :
  ImageProcessing.calculate_color_hash false above hash_size = Some h ->
  ImageProcessing.calculate_color_hash false above' hash_size = Some h' ->
  String.length h = (3 * ((hash_size / 4) * (hash_size / 4) - 1))%nat /\
  String.length h' = String.length h /\
  Forall (fun ch => ch = ImageProcessing.bit true \/ ch = ImageProcessing.bit false)
         (String.list_ascii_of_string h) /\
  (hash_size = ImageProcessing.HASH_SIZE -> String.length h = 105%nat) /\
  (4 <= hash_size)%nat.
Proof.
  assert (Hlen : forall ab s,
            ImageProcessing.calculate_color_hash false ab hash_size = Some s ->
            (0 < hash_size / 4)%nat /\
            String.length s = (3 * ((hash_size / 4) * (hash_size / 4) - 1))%nat /\
            Forall (fun ch => ch = ImageProcessing.bit true \/ ch = ImageProcessing.bit false)
                   (String.list_ascii_of_string s)).
  { intros ab s. unfold ImageProcessing.calculate_color_hash.
    set (f := (hash_size / 4)%nat).
    destruct (Nat.eqb_spec f 0) as [Hz|Hz]; [discriminate|].
    intros Hs. apply (inj Some) in Hs. rewrite <- Hs. split; [lia|].
    rewrite <- length_list_ascii_of_string, String.list_ascii_of_string_of_list_ascii.
    split; [apply hash_chars_length; lia | apply hash_chars_alphabet]. }
  intros Hh Hh'.
  destruct (Hlen _ _ Hh) as (Hpos & Hl & Ha). destruct (Hlen _ _ Hh') as (_ & Hl' & _).
  split; [exact Hl|]. split; [congruence|]. split; [exact Ha|]. split.
  - intros ->. rewrite Hl. reflexivity.
  - destruct (Nat.le_gt_cases 4 hash_size) as [Hle|Hlt]; [exact Hle|].
    rewrite Nat.div_small in Hpos by exact Hlt. lia.
Qed.

(** The fingerprints of an image whose coefficients all exceed the average
    and of one where none does, at the configured size. *)
Lemma fingerprint_length_is_fixed_by_hash_size_witness :
  String.length
    (default ""%string
       (ImageProcessing.calculate_color_hash false (fun _ _ _ => true)
                                             ImageProcessing.HASH_SIZE))
  = 105%nat /\
  String.length
    (default ""%string
       (ImageProcessing.calculate_color_hash false (fun _ _ _ => false)
                                             ImageProcessing.HASH_SIZE))
  = 105%nat.
Proof.
  destruct (fingerprint_length_is_fixed_by_hash_size
              (fun _ _ _ => true) (fun _ _ _ => false) ImageProcessing.HASH_SIZE
              (default ""%string
                 (ImageProcessing.calculate_color_hash false (fun _ _ _ => true)
                                                       ImageProcessing.HASH_SIZE))
              (default ""%string
                 (ImageProcessing.calculate_color_hash false (fun _ _ _ => false)
                                                       ImageProcessing.HASH_SIZE))
              ltac:(vm_compute; reflexivity) ltac:(vm_compute; reflexivity))
    as (_ & Hsame & _ & H105 & _).
  split; [|rewrite Hsame]; apply H105; reflexivity.
Defined.

(** ** The trades table only grows *)

Section AppendOnly.
Context `{Imaging} `{TradeMonitorClient.Outside}.
Import Db TradeMonitorClient.

Lemma trades_insert_or_ignore_prefix r d :
  map tr_message_id (trades d) `prefix_of` map tr_message_id (trades (trades_insert_or_ignore r d)).
Proof.
  unfold trades_insert_or_ignore. destruct (trades_exists (tr_message_id r) d); [reflexivity|].
  simpl. rewrite List.map_app. apply prefix_app_r. reflexivity.
Qed.

Lemma insert_rows_prefix rows d :
  map tr_message_id (trades d)
  `prefix_of` map tr_message_id
                (trades (fold_left (fun d' r => trades_insert_or_ignore r d') rows d)).
Proof.
  revert d. induction rows as [|r rows IH]; intros d; simpl; [reflexivity|].
  etransitivity; [apply (trades_insert_or_ignore_prefix r)|apply IH].
Qed.

Lemma process_message_batch_fast_prefix msgs c :
  ids c `prefix_of` ids (process_message_batch_fast msgs c).1.
Proof.
  unfold process_message_batch_fast. destruct msgs as [|m0 msgs0] eqn:E; [reflexivity|].
  rewrite <- E. clear E. cbn [fst]. rewrite fold_scans_ids. unfold ids.
  cbn [db_conn with_db]. unfold insert_batch.
  etransitivity; [|apply insert_rows_prefix].
  rewrite fold_batch_message_trades. reflexivity.
Qed.

Lemma historical_message_prefix c m : ids c `prefix_of` ids (historical_message c m).
Proof.
  unfold historical_message.
  destruct (negb (str_in SEARCH_STRING (content m))); [reflexivity|].
  destruct (extract_trade_data_fast m) as [[trade_data xml_att] img_att].
  destruct (read_attachments xml_att img_att) as [[xml_bytes image_bytes]|]; [|reflexivity].
  destruct (sync_credentials (td_account_name trade_data) xml_bytes (db_conn c))
    as [d1 xml_path] eqn:Es.
  destruct (_get_or_create_account (td_account_name trade_data) None d1)
    as [d2 account_id] eqn:Ea.
  assert (Hd2 : trades d2 = trades (db_conn c)).
  { change d2 with (d2, account_id).1. rewrite <- Ea, _get_or_create_account_trades.
    change d1 with (d1, xml_path).1. rewrite <- Es. apply sync_credentials_trades. }
  destruct (db_raises (InsertTrade (str (id m)))).
  { unfold ids. cbn [db_conn with_db]. rewrite Hd2. reflexivity. }
  assert (Hins : forall r, ids c `prefix_of` map tr_message_id
                                               (trades (trades_insert_or_ignore r d2))).
  { intros r. unfold ids. rewrite <- Hd2. apply trades_insert_or_ignore_prefix. }
  destruct (Py.truthy_seq image_bytes).
  - rewrite scan_image_for_cards_ids. apply Hins.
  - apply Hins.
Qed.

Lemma perform_historical_scan_streaming_prefix channel c :
  ids c `prefix_of` ids (perform_historical_scan_streaming channel c).
Proof.
  unfold perform_historical_scan_streaming.
  destruct channel as [ch|]; [|reflexivity].
  destruct (negb (read_message_history ch)); [reflexivity|].
  match goal with |- context [fold_left historical_message ?l c] => generalize l end.
  intros l. revert c. induction l as [|m l IH]; intros c; simpl; [reflexivity|].
  etransitivity; [apply (historical_message_prefix c m) | apply IH].
Qed.

Lemma perform_incremental_scan_fast_prefix channel now c :
  ids c `prefix_of` ids (perform_incremental_scan_fast channel now c).
Proof.
  unfold perform_incremental_scan_fast.
  destruct channel as [ch|]; [|reflexivity].
  match goal with
  | |- context [if ?cond then ?a else c] =>
      assert (Hc1 : ids (if cond then a else c) = ids c)
        by (destruct cond; [destruct (db_raises SelectMax)|]; reflexivity);
      generalize dependent (if cond then a else c)
  end.
  intros c1 Hc1. rewrite <- Hc1.
  destruct (0 <? last_message_id_cache c1); [|reflexivity].
  destruct (fetch_fault ch); [reflexivity|].
  assert (Hg : forall l s, ids c1 `prefix_of` ids s.2 ->
                           ids c1 `prefix_of` ids (fold_left incremental_step l s).2).
  { induction l as [|m l IH]; intros s Hs; simpl; [exact Hs|].
    apply IH. unfold incremental_step.
    destruct (BATCH_SIZE <=? length (s.1 ++ [m]))%nat; cbn [snd]; [|exact Hs].
    etransitivity; [exact Hs | apply process_message_batch_fast_prefix]. }
  specialize (Hg (history ch None (Some (last_message_id_cache c1))) ([], c1)
                 ltac:(reflexivity)).
  destruct (fold_left incremental_step _ _).1; [exact Hg|].
  etransitivity; [exact Hg | apply process_message_batch_fast_prefix].
Qed.

Lemma on_ready_prefix channel now c : ids c `prefix_of` ids (on_ready channel now c).
Proof.
  unfold on_ready.
  change (ids (with_initial_scan_done ?x)) with (ids x).
  destruct (db_raises CountTrades); [reflexivity|].
  destruct (trades (db_conn c)) eqn:Et.
  - apply perform_historical_scan_streaming_prefix.
  - etransitivity; [|apply perform_historical_scan_streaming_prefix].
    etransitivity; [|apply perform_incremental_scan_fast_prefix].
    destruct (db_raises SelectReprocess); [reflexivity|].
    rewrite recover_missing_cards_skips_all. reflexivity.
Qed.

Lemma on_message_prefix m c : ids c `prefix_of` ids (on_message m c).
Proof.
  unfold on_message.
  destruct (negb (initial_scan_done c)); [reflexivity|].
  destruct (str_in SEARCH_STRING (content m)); [|reflexivity].
  apply process_message_batch_fast_prefix.
Qed.

End AppendOnly.

(** X27.  The trades table is append-only for the engine: over a whole
    session, whatever fails, the keys present at the start are still
    there at the end, in the same order, followed by the keys added.  No
    ingestion path deletes or reorders a trade. *)
Theorem session_never_removes_a_trade
        `{Imaging} `{TradeMonitorClient.Outside}
        (channel : option TradeMonitorClient.Channel) (now : Z)
        (live : list TradeMonitorClient.Message) (c : TradeMonitorClient.Client) :
  exists added,
    TradeMonitorClient.ids (TradeMonitorClient.run_session channel now live c)
    = TradeMonitorClient.ids c ++ added.
Proof.
  change (TradeMonitorClient.ids c
          `prefix_of` TradeMonitorClient.ids (TradeMonitorClient.run_session channel now live c)).
  unfold TradeMonitorClient.run_session.
  etransitivity; [apply (on_ready_prefix channel now c)|].
  generalize (TradeMonitorClient.on_ready channel now c). intros c0.
  induction live as [|m live IH] in c0 |- *; simpl; [reflexivity|].
  etransitivity; [apply (on_message_prefix m c0) | apply IH].
Qed.

(** ** Batching of the write queue *)

Section BatchingFacts.
Import Db MainWindow.

Lemma apply_events_app items1 items2 d :
  apply_events (items1 ++ items2) d = apply_events items2 (apply_events items1 d).
Proof. unfold apply_events. apply fold_left_app. Qed.

Lemma filter_length_Permutation {A} (f : A -> bool) (l l' : list A) :
  l ≡ₚ l' -> length (List.filter f l) = length (List.filter f l').
Proof.
  induction 1 as [|x l l' _ IH|x y l|l l' l'' _ IH1 _ IH2]; simpl.
  - reflexivity.
  - destruct (f x); simpl; congruence.
  - destruct (f x), (f y); reflexivity.
  - congruence.
Qed.

End BatchingFacts.

(** X28.  What a committed flush leaves does not depend on how the events
    were batched, and the quantities do not depend on their order: two
    flushes of [items1] and then [items2] leave the store that one flush
    of [items1 ++ items2] leaves; and flushing a reordering of the queue
    gives every (account, card) the same quantity and the log the same
    rows up to order. *)
Theorem flush_is_insensitive_to_batching_and_order
        (raises1 raises2 raises12 raises' : nat -> bool)
        (d : Db.Ledger) (items1 items2 items' : list MainWindow.Event) :
  Db.inv_unique (Db.account_inventory d) ->
  let flush := fun raises items d0 =>
                 MainWindow.db (MainWindow.process_db_write_queue raises
                                  (MainWindow.mkState d0 items)) in
  is_Some (MainWindow.transaction raises1 items1 d) ->
  is_Some (MainWindow.transaction raises2 items2 (flush raises1 items1 d)) ->
  is_Some (MainWindow.transaction raises12 (items1 ++ items2) d) ->
  is_Some (MainWindow.transaction raises' items' d) ->
  items' ≡ₚ items1 ++ items2 ->
  flush raises2 items2 (flush raises1 items1 d) = flush raises12 (items1 ++ items2) d /\
  (forall a c,
      Db.inv_select a c (Db.account_inventory (flush raises' items' d))
      = Db.inv_select a c (Db.account_inventory (flush raises12 (items1 ++ items2) d))) /\
  map MainWindow.found_key (Db.found_cards (flush raises' items' d))
  ≡ₚ map MainWindow.found_key (Db.found_cards (flush raises12 (items1 ++ items2) d)).
Proof.
  intros Hu flush H1 H2 H12 H' Hperm. subst flush. cbv beta in *.
  rewrite (process_db_write_queue_db raises1) in * by exact H1.
  rewrite (process_db_write_queue_db raises2) by exact H2.
  rewrite (process_db_write_queue_db raises12) by exact H12.
  rewrite (process_db_write_queue_db raises') by exact H'.
  cbn [MainWindow.db MainWindow.db_write_queue].
  split; [symmetry; apply apply_events_app|]. split.
  - intros a c.
    destruct (inventory_apply_events a c items' d Hu) as [_ ->].
    destruct (inventory_apply_events a c (items1 ++ items2) d Hu) as [_ ->].
    rewrite (filter_length_Permutation _ _ _ Hperm). reflexivity.
  - rewrite !found_cards_apply_events. apply Permutation_app_head.
    rewrite Hperm. reflexivity.
Qed.

(** [Samples.event1] and [Samples.event2] flushed against
    [Samples.ledger1] one by one, together, and in the other order. *)
Lemma flush_is_insensitive_to_batching_and_order_witness :
  Db.inv_unique (Db.account_inventory Samples.ledger1) /\
  MainWindow.db (MainWindow.process_db_write_queue MainWindow.never
    (MainWindow.mkState
       (MainWindow.db (MainWindow.process_db_write_queue MainWindow.never
                         (MainWindow.mkState Samples.ledger1 [Samples.event1])))
       [Samples.event2]))
  = MainWindow.db (MainWindow.process_db_write_queue MainWindow.never
      (MainWindow.mkState Samples.ledger1 [Samples.event1; Samples.event2])).
Proof.
  assert (Hu : Db.inv_unique (Db.account_inventory Samples.ledger1)).
  { apply (bool_decide_unpack _). vm_compute. exact I. }
  split; [exact Hu|].
  apply (flush_is_insensitive_to_batching_and_order
           MainWindow.never MainWindow.never MainWindow.never MainWindow.never
           Samples.ledger1 [Samples.event1] [Samples.event2]
           [Samples.event2; Samples.event1] Hu);
    try (rewrite transaction_never; eexists; reflexivity).
  apply Permutation_swap.
Defined.
